(** * Route optimizer (src/optimizer.py): a shallow embedding and its properties

    The Python class [RouteOptimizer] plans field visits over a quarter:
    it spreads the visits over working days, cuts each day into
    time-bounded clusters, orders every cluster with a nearest-neighbour
    heuristic and packs the days onto employees.

    Conventions of the embedding.
    - Python floats are kept abstract behind the interface [PyFloat]: the
      algorithms only add, compare and pass numbers around, so they are
      written once over any implementation of the interface, and most
      properties are proved for every implementation, with no law of
      arithmetic.  The floats of the code are IEEE binary64
      ([PyFloat_binary64]): addition, subtraction, multiplication,
      division, comparison and square root are those of the processor;
      sine, cosine, [atan2], the power and the mean of numpy are
      parameters, since their values depend on the C library and on numpy.
      Exact real arithmetic ([PyFloat_R]) is an idealisation on which the
      code does not run: it serves the worked example of Scenario A and
      the sample data, whose numbers are small integers.
    - A run that raises returns nothing.  The functions give the results
      of the runs that return; where Python raises ([math.sqrt] of a
      negative number, [math.sin] or [math.cos] of an infinity, a date
      outside the four-digit years) they still have a value, which is the
      result of no run.  The properties are properties of the results
      that are returned; they do not say that a run returns.
    - A [datetime] is represented by its proleptic Gregorian ordinal
      ([date.toordinal()]); the key ['%Y-%m-%d'] of a day is represented by
      that ordinal, since the format is injective and, on four-digit years,
      ordered like the dates.
    - A Python [dict] is an association list in insertion order.
    - [prepare_data], which reads the points from a pandas table, is not
      modelled: a [Point] is the dictionary it builds.  [print] calls are
      dropped. *)

From Stdlib Require Import String ZArith List Bool Lia Permutation Sorted.
From Stdlib Require Import QArith.
From Stdlib Require Import Reals Lra.
From Stdlib Require Import DecimalString DecimalPos DecimalZ.
From Stdlib Require Import Floats.
Import ListNotations.

Local Open Scope Z_scope.

(** ** Numbers *)

(** The operations the module uses on floats.  [of_int] is the promotion
    of a Python [int] (a literal such as [60] or a [len]) to a float.
    [np_mean] is [numpy.mean] of a list: numpy adds the terms pairwise and
    in blocks, in an order of its own, so the mean is an operation of the
    interface like the functions of the C library, and nothing is assumed
    of its value. *)
Class PyFloat (F : Type) : Type := {
  of_int : Z -> F;
  lit_0_8 : F;
  fadd : F -> F -> F;
  fsub : F -> F -> F;
  fmul : F -> F -> F;
  fdiv : F -> F -> F;
  fpow : F -> nat -> F;
  flt : F -> F -> bool;
  fgt : F -> F -> bool;
  math_radians : F -> F;
  math_sin : F -> F;
  math_cos : F -> F;
  math_sqrt : F -> F;
  math_atan2 : F -> F -> F;
  np_mean : list F -> F;
  py_round : F -> nat -> F
}.

(** ** Python containers *)

(** [sorted(l, key=...)]: Python's sort is stable and only uses [<]; an
    element moves past another one only when that one is strictly
    smaller.  Where [<] orders the keys (a strict weak order: for floats,
    no NaN among the keys) every stable sort returns the list computed
    here. *)
Fixpoint insert_sorted {A : Type} (lt : A -> A -> bool) (x : A) (l : list A) : list A :=
  match l with
  | [] => [x]
  | y :: l' => if lt y x then y :: insert_sorted lt x l' else x :: y :: l'
  end.

Definition py_sorted {A : Type} (lt : A -> A -> bool) (l : list A) : list A :=
  fold_right (insert_sorted lt) [] l.

(** [l.pop(i)] for [i < len(l)]: the list without its [i]-th element. *)
Definition list_pop {A : Type} (i : nat) (l : list A) : list A :=
  firstn i l ++ skipn (S i) l.

(** [enumerate(l)]. *)
Definition enumerate {A : Type} (l : list A) : list (nat * A) :=
  combine (seq 0 (length l)) l.

Section OrderedDict.
Context {K V : Type}.
Variable K_eq_dec : forall x y : K, {x = y} + {x <> y}.

(** [d.get(k)] *)
Fixpoint dict_get (k : K) (d : list (K * V)) : option V :=
  match d with
  | [] => None
  | (k', v) :: d' => if K_eq_dec k k' then Some v else dict_get k d'
  end.

(** [d[k] = v]: an existing key keeps its position, a new key goes last. *)
Fixpoint dict_set (k : K) (v : V) (d : list (K * V)) : list (K * V) :=
  match d with
  | [] => [(k, v)]
  | (k', v') :: d' =>
      if K_eq_dec k k' then (k', v) :: d' else (k', v') :: dict_set k v d'
  end.

Definition dict_keys (d : list (K * V)) : list K := map fst d.
End OrderedDict.

(** [if k not in d: d[k] = []] followed by [d[k].append(x)]. *)
Definition dict_append {K X : Type} (K_eq_dec : forall x y : K, {x = y} + {x <> y})
    (k : K) (x : X) (d : list (K * list X)) : list (K * list X) :=
  match dict_get K_eq_dec k d with
  | None => dict_set K_eq_dec k [x] d
  | Some l => dict_set K_eq_dec k (l ++ [x]) d
  end.

(** ** Data model *)

(** The dictionaries built by [prepare_data]. *)
Record Point (F : Type) : Type := mkPoint {
  point_id : Z;
  point_name : string;
  address : string;
  lat : F;
  lon : F;
  duration : F;
  frequency : Z;
  point_type : string
}.
Arguments mkPoint {F}.
Arguments point_id {F}.
Arguments point_name {F}.
Arguments address {F}.
Arguments lat {F}.
Arguments lon {F}.
Arguments duration {F}.
Arguments frequency {F}.
Arguments point_type {F}.

(** The value of a route's ['date']: the empty string it is created with,
    or the key of a day. *)
Inductive DateKey : Type :=
| NoDate
| Day (ordinal : Z).

Definition DateKey_eq_dec (x y : DateKey) : {x = y} + {x <> y}.
Proof. decide equality. apply Z.eq_dec. Defined.

(** String order on date keys: [''] is below every day. *)
Definition DateKey_ltb (x y : DateKey) : bool :=
  match x, y with
  | _, NoDate => false
  | NoDate, Day _ => true
  | Day a, Day b => a <? b
  end.

(** The dictionaries built by [optimize_routes_for_day]. *)
Record Route (F : Type) : Type := mkRoute {
  route_id : string;
  employee_id : string;
  date : DateKey;
  day_of_week : string;
  points : list (Point F);
  total_points : nat;
  service_time_min : F;
  travel_time_min : F;
  total_time_min : F;
  total_time_hours : F
}.
Arguments mkRoute {F}.
Arguments route_id {F}.
Arguments employee_id {F}.
Arguments date {F}.
Arguments day_of_week {F}.
Arguments points {F}.
Arguments total_points {F}.
Arguments service_time_min {F}.
Arguments travel_time_min {F}.
Arguments total_time_min {F}.
Arguments total_time_hours {F}.

(** The dictionaries built by [assign_routes_to_employees]. *)
Record Employee (F : Type) : Type := mkEmployee {
  emp_id : Z;
  emp_name : string;
  routes : list (Route F)
}.
Arguments mkEmployee {F}.
Arguments emp_id {F}.
Arguments emp_name {F}.
Arguments routes {F}.

(** [str(n)] for an integer. *)
Definition str_of_int (n : Z) : string := NilZero.string_of_int (Z.to_int n).

(** [f'Сотрудник_{n}'] *)
Definition employee_label (n : Z) : string := ("Сотрудник_" ++ str_of_int n)%string.

Definition set_employee_id {F : Type} (e : string) (r : Route F) : Route F :=
  mkRoute (route_id r) e (date r) (day_of_week r) (points r) (total_points r)
          (service_time_min r) (travel_time_min r) (total_time_min r)
          (total_time_hours r).

Definition set_date {F : Type} (d : DateKey) (w : string) (r : Route F) : Route F :=
  mkRoute (route_id r) (employee_id r) d w (points r) (total_points r)
          (service_time_min r) (travel_time_min r) (total_time_min r)
          (total_time_hours r).

(** ** Calendar *)

(** [datetime.weekday()]: Monday is 0. *)
Definition weekday (d : Z) : Z := (d + 6) mod 7.

(** [strftime('%A')] *)
Definition weekday_name (d : Z) : string :=
  match weekday d with
  | 0 => "Monday"%string
  | 1 => "Tuesday"%string
  | 2 => "Wednesday"%string
  | 3 => "Thursday"%string
  | 4 => "Friday"%string
  | 5 => "Saturday"%string
  | _ => "Sunday"%string
  end.

(** The loop that builds [quarter_days]: the weekdays among the 90 days
    from [start]. *)
Definition quarter_days (start : Z) : list Z :=
  fold_left
    (fun acc i =>
       let current_date := start + Z.of_nat i in
       if weekday current_date <? 5 then acc ++ [current_date] else acc)
    (seq 0 90) [].

(** ** The optimizer *)

Section Optimizer.
Context {F : Type} {FO : PyFloat F}.

(** [sum(l)], starting from the integer 0. *)
Definition py_sum (l : list F) : F := fold_left fadd l (of_int 0).

Definition calculate_distance (lat1 lon1 lat2 lon2 : F) : F :=
  let R := of_int 6371 in
  let lat1_rad := math_radians lat1 in
  let lat2_rad := math_radians lat2 in
  let delta_lat := math_radians (fsub lat2 lat1) in
  let delta_lon := math_radians (fsub lon2 lon1) in
  let a :=
    fadd (fpow (math_sin (fdiv delta_lat (of_int 2))) 2)
         (fmul (fmul (math_cos lat1_rad) (math_cos lat2_rad))
               (fpow (math_sin (fdiv delta_lon (of_int 2))) 2)) in
  let c := fmul (of_int 2)
                (math_atan2 (math_sqrt a) (math_sqrt (fsub (of_int 1) a))) in
  fmul R c.

Definition estimate_travel_time (distance_km avg_speed_kmh : F) : F :=
  fmul (fdiv distance_km avg_speed_kmh) (of_int 60).

(** The distance between two points, as every caller computes it. *)
Definition point_distance (p q : Point F) : F :=
  calculate_distance (lat p) (lon p) (lat q) (lon q).

(** *** cluster_points_by_time *)

(** The state of the loop: [(clusters, current_cluster, current_time)]. *)
Definition cluster_state : Type := (list (list (Point F)) * list (Point F) * F)%type.

(** [if current_cluster: clusters.append(current_cluster)] *)
Definition close_cluster (clusters : list (list (Point F)))
    (current_cluster : list (Point F)) : list (list (Point F)) :=
  match current_cluster with
  | [] => clusters
  | _ :: _ => clusters ++ [current_cluster]
  end.

Definition cluster_step (max_minutes : F) (st : cluster_state) (point : Point F)
    : cluster_state :=
  let '(clusters, current_cluster, current_time) := st in
  let point_time := duration point in
  if fgt (fadd current_time point_time) (fmul max_minutes lit_0_8) then
    (close_cluster clusters current_cluster, [point], point_time)
  else
    (clusters, current_cluster ++ [point], fadd current_time point_time).

(** The points of a day ordered by distance to their centroid. *)
Definition points_sorted (points : list (Point F)) : list (Point F) :=
  let center_lat := np_mean (map lat points) in
  let center_lon := np_mean (map lon points) in
  py_sorted
    (fun p q =>
       flt (calculate_distance (lat p) (lon p) center_lat center_lon)
           (calculate_distance (lat q) (lon q) center_lat center_lon))
    points.

Definition cluster_points_by_time (points : list (Point F)) (max_hours : F)
    : list (list (Point F)) :=
  match points with
  | [] => []
  | _ :: _ =>
      let max_minutes := fmul max_hours (of_int 60) in
      let '(clusters, current_cluster, _) :=
        fold_left (cluster_step max_minutes) (points_sorted points)
                  ([], [], of_int 0) in
      close_cluster clusters current_cluster
  end.

(** *** solve_tsp *)

(** [min(range(n), key=key)] for [0 < n]: the first index whose key is
    not above any other. *)
Definition argmin_index (key : nat -> F) (n : nat) : nat :=
  fold_left (fun best i => if flt (key i) (key best) then i else best)
            (seq 1 (n - 1)) 0%nat.

(** The [while unvisited] loop; every turn pops one point, so
    [length unvisited] turns are enough. *)
Fixpoint tsp_loop (fuel : nat) (route unvisited : list (Point F)) : list (Point F) :=
  match fuel, unvisited with
  | S fuel', u0 :: _ =>
      let last_point := last route u0 in
      let nearest_idx :=
        argmin_index (fun i => point_distance last_point (nth i unvisited u0))
                     (length unvisited) in
      tsp_loop fuel' (route ++ [nth nearest_idx unvisited u0])
               (list_pop nearest_idx unvisited)
  | _, _ => route
  end.

Definition solve_tsp (points : list (Point F)) : list (Point F) :=
  match points with
  | [] => points
  | [_] => points
  | p0 :: rest => tsp_loop (length rest) [p0] rest
  end.

(** *** distribute_visits_by_quarter *)

(** The expansion of the points into visits; [point.copy()] is the point
    itself, the fields being immutable values. *)
Definition all_visits (self_points : list (Point F)) : list (Point F) :=
  let all_visits :=
    flat_map (fun point => repeat point (Z.to_nat (frequency point))) self_points in
  match all_visits with
  | [] => self_points
  | _ :: _ => all_visits
  end.

(** The mapping is keyed by the day; [now] is the reading of the clock,
    used when no start date is given. *)
Definition distribute_visits_by_quarter (self_points : list (Point F))
    (start_date : option Z) (now : Z) : list (Z * list (Point F)) :=
  let start := match start_date with Some d => d | None => now end in
  let quarter_days := quarter_days start in
  let all_visits := all_visits self_points in
  let days_count := length quarter_days in
  match days_count with
  | O => []
  | S _ =>
      fold_left
        (fun visits_by_day '(i, visit) =>
           let day_index := (i mod days_count)%nat in
           let day := nth day_index quarter_days 0 in
           dict_append Z.eq_dec day visit visits_by_day)
        (enumerate all_visits) []
  end.

(** *** optimize_routes_for_day *)

(** The loop that adds up the travel time between consecutive stops. *)
Definition route_travel_time (optimized_route : list (Point F)) : F :=
  fold_left
    (fun travel_time i =>
       match nth_error optimized_route i, nth_error optimized_route (S i) with
       | Some p, Some q =>
           let dist := point_distance p q in
           fadd travel_time (estimate_travel_time dist (of_int 30))
       | _, _ => travel_time
       end)
    (seq 0 (length optimized_route - 1)) (of_int 0).

Definition build_route (employee_id route_id : Z) (cluster : list (Point F)) : Route F :=
  let optimized_route := solve_tsp cluster in
  let total_duration := py_sum (map duration optimized_route) in
  let travel_time := route_travel_time optimized_route in
  let total_time := fadd total_duration travel_time in
  mkRoute ("R" ++ str_of_int employee_id ++ "_" ++ str_of_int route_id)%string
          (employee_label employee_id)
          NoDate
          ""%string
          optimized_route
          (length optimized_route)
          total_duration
          travel_time
          total_time
          (py_round (fdiv total_time (of_int 60)) 2).

(** One turn of the loop over the clusters; the state is
    [(routes, route_id)]. *)
Definition routes_step (employee_id : Z) (st : list (Route F) * Z)
    (cluster : list (Point F)) : list (Route F) * Z :=
  let '(routes, route_id) := st in
  match cluster with
  | [] => st
  | _ :: _ => (routes ++ [build_route employee_id route_id cluster], route_id + 1)
  end.

Definition optimize_routes_for_day (day_points : list (Point F)) (max_hours : F)
    (employee_id : Z) : list (Route F) :=
  match day_points with
  | [] => []
  | _ :: _ =>
      let clusters := cluster_points_by_time day_points max_hours in
      fst (fold_left (routes_step employee_id) clusters ([], 1))
  end.

(** *** assign_routes_to_employees *)

Definition group_by_day (all_routes : list (Route F)) : list (DateKey * list (Route F)) :=
  fold_left (fun routes_by_day route =>
               dict_append DateKey_eq_dec (date route) route routes_by_day)
            all_routes [].

(** [set([r['date'] for r in emp['routes']])] *)
Definition emp_days (emp : Employee F) : list DateKey :=
  nodup DateKey_eq_dec (map date (routes emp)).

(** [for route in day_routes: route['employee_id'] = label; emp['routes'].append(route)] *)
Definition give_routes (emp : Employee F) (label : string) (day_routes : list (Route F))
    : Employee F :=
  mkEmployee (emp_id emp) (emp_name emp)
             (routes emp ++ map (set_employee_id label) day_routes).

(** The scan [for emp in employees] with its [break]: the first employee
    under the cap who does not work that day takes the whole day; [None]
    when the scan ends with [assigned] still false. *)
Fixpoint assign_existing (max_days_per_week : Z) (day : DateKey)
    (day_routes : list (Route F)) (employees : list (Employee F))
    : option (list (Employee F)) :=
  match employees with
  | [] => None
  | emp :: rest =>
      if (Z.of_nat (length (emp_days emp)) <? max_days_per_week)
         && negb (if in_dec DateKey_eq_dec day (emp_days emp) then true else false)
      then Some (give_routes emp (employee_label (emp_id emp)) day_routes :: rest)
      else match assign_existing max_days_per_week day day_routes rest with
           | Some rest' => Some (emp :: rest')
           | None => None
           end
  end.

(** One turn of the loop over the sorted days; the state is
    [(employees, employee_counter)]. *)
Definition assign_step (max_days_per_week : Z)
    (routes_by_day : list (DateKey * list (Route F)))
    (st : list (Employee F) * Z) (day : DateKey) : list (Employee F) * Z :=
  let '(employees, employee_counter) := st in
  let day_routes :=
    match dict_get DateKey_eq_dec day routes_by_day with
    | Some l => l
    | None => []
    end in
  match assign_existing max_days_per_week day day_routes employees with
  | Some employees' => (employees', employee_counter)
  | None =>
      let new_emp :=
        mkEmployee employee_counter (employee_label employee_counter) [] in
      (employees ++ [give_routes new_emp (emp_name new_emp) day_routes],
       employee_counter + 1)
  end.

Definition sorted_days (all_routes : list (Route F)) : list DateKey :=
  py_sorted DateKey_ltb (dict_keys (group_by_day all_routes)).

(** The employees after the days [days] have been handled. *)
Definition assign_days (all_routes : list (Route F)) (max_days_per_week : Z)
    (days : list DateKey) : list (Employee F) * Z :=
  fold_left (assign_step max_days_per_week (group_by_day all_routes)) days ([], 1).

Definition assign_employees (all_routes : list (Route F)) (max_days_per_week : Z)
    : list (Employee F) :=
  fst (assign_days all_routes max_days_per_week (sorted_days all_routes)).

Definition assign_routes_to_employees (all_routes : list (Route F))
    (max_days_per_week : Z) : list (Route F) * nat :=
  match all_routes with
  | [] => ([], O)
  | _ :: _ =>
      let employees := assign_employees all_routes max_days_per_week in
      (flat_map routes employees, length employees)
  end.

(** *** optimize *)

Record Summary : Type := mkSummary {
  total_employees : nat;
  total_routes : nat;
  summary_total_points : nat;
  avg_routes_per_employee : F;
  total_service_hours : F;
  total_travel_hours : F
}.

Record EmployeeInfo : Type := mkEmployeeInfo {
  info_id : Z;
  info_name : string;
  info_total_routes : nat;
  info_total_days : nat
}.

(** The dictionary returned by [optimize]; the parameters echoed on
    success are [(max_hours_per_day, max_days_per_week, start_date)]. *)
Inductive Result : Type :=
| Failure (error : string)
| Success (parameters : F * Z * Z) (summary : Summary)
          (result_routes : list (Route F)) (employees : list EmployeeInfo).

Definition no_working_days : string := "Нет рабочих дней для планирования"%string.
Definition no_routes_created : string := "Не удалось создать маршруты"%string.

(** One turn of the loop over [visits_by_day.items()]. *)
Definition day_step (max_hours_per_day : F) (all_routes : list (Route F))
    (item : Z * list (Point F)) : list (Route F) :=
  let '(day, day_points) := item in
  match day_points with
  | [] => all_routes
  | _ :: _ =>
      let day_routes := optimize_routes_for_day day_points max_hours_per_day 1 in
      all_routes ++ map (set_date (Day day) (weekday_name day)) day_routes
  end.

Definition employee_info (final_routes : list (Route F)) (i : nat) : EmployeeInfo :=
  let name := employee_label (Z.of_nat i + 1) in
  let own := filter (fun r => String.eqb (employee_id r) name) final_routes in
  mkEmployeeInfo (Z.of_nat i + 1) name (length own)
                 (length (nodup DateKey_eq_dec (map date own))).

Definition make_summary (final_routes : list (Route F)) (num_employees : nat) : Summary :=
  mkSummary
    num_employees
    (length final_routes)
    (list_sum (map (fun r => length (points r)) final_routes))
    (if (0 <? num_employees)%nat
     then py_round (fdiv (of_int (Z.of_nat (length final_routes)))
                         (of_int (Z.of_nat num_employees))) 1
     else of_int 0)
    (py_round (fdiv (py_sum (map service_time_min final_routes)) (of_int 60)) 1)
    (py_round (fdiv (py_sum (map travel_time_min final_routes)) (of_int 60)) 1).

Definition optimize (self_points : list (Point F)) (max_hours_per_day : F)
    (max_days_per_week : Z) (start_date : option Z) (now : Z) : Result :=
  let start_date := match start_date with Some d => d | None => now end in
  let visits_by_day := distribute_visits_by_quarter self_points (Some start_date) now in
  match visits_by_day with
  | [] => Failure no_working_days
  | _ :: _ =>
      let all_routes := fold_left (day_step max_hours_per_day) visits_by_day [] in
      match all_routes with
      | [] => Failure no_routes_created
      | _ :: _ =>
          let '(final_routes, num_employees) :=
            assign_routes_to_employees all_routes max_days_per_week in
          Success (max_hours_per_day, max_days_per_week, start_date)
                  (make_summary final_routes num_employees)
                  final_routes
                  (map (employee_info final_routes) (seq 0 num_employees))
      end
  end.
End Optimizer.

Arguments Summary F : clear implicits.
Arguments Result F : clear implicits.
Arguments Failure {F}.
Arguments Success {F}.
Arguments mkSummary {F}.

(** ** Exact real arithmetic *)

(** An idealisation: the code runs on binary64 floats, whose sums and
    products are rounded, so a property proved on the reals alone says
    nothing of the code.  The reals serve the worked example of Scenario
    A, which is proved on binary64 as well, and the sample data. *)

Definition R_ltb (x y : R) : bool := if Rlt_dec x y then true else false.
Definition R_gtb (x y : R) : bool := if Rgt_dec x y then true else false.

(** [math.atan2(y, x)] *)
Definition R_atan2 (y x : R) : R :=
  if Rlt_dec 0 x then atan (y / x)
  else if Rlt_dec x 0 then
    (if Rle_dec 0 y then atan (y / x) + PI else atan (y / x) - PI)%R
  else if Rlt_dec 0 y then (PI / 2)%R
  else if Rlt_dec y 0 then (- PI / 2)%R
  else 0%R.

(** [round(x, ndigits)]: to the nearest multiple of [10 ^ -ndigits], ties
    to the even one. *)
Definition R_round (x : R) (ndigits : nat) : R :=
  let scale := (10 ^ ndigits)%R in
  let y := (x * scale)%R in
  let n := Int_part y in
  let r := frac_part y in
  let m :=
    if Rlt_dec r (1 / 2) then n
    else if Rlt_dec (1 / 2) r then n + 1
    else if Z.even n then n else n + 1 in
  (IZR m / scale)%R.

#[export] Instance PyFloat_R : PyFloat R := {|
  of_int := IZR;
  lit_0_8 := (8 / 10)%R;
  fadd := Rplus;
  fsub := Rminus;
  fmul := Rmult;
  fdiv := Rdiv;
  fpow := pow;
  flt := R_ltb;
  fgt := R_gtb;
  math_radians := fun x => (x * (PI / 180))%R;
  math_sin := sin;
  math_cos := cos;
  math_sqrt := R_sqrt.sqrt;
  math_atan2 := R_atan2;
  np_mean := fun l => (fold_left Rplus l 0 / INR (length l))%R;
  py_round := R_round
|}.

(** ** IEEE binary64 *)

(** The conversion of a small Python [int] to a float. *)
Definition float_of_int (z : Z) : float :=
  if z <? 0 then PrimFloat.opp (PrimFloat.of_uint63 (Uint63.of_Z (- z)))
  else PrimFloat.of_uint63 (Uint63.of_Z z).

(** Python floats with their own addition, subtraction, multiplication,
    division and comparison.  [math.sqrt] is the square root of the
    processor where it returns: of a negative number Python raises
    [ValueError], and the NaN given here is the result of no run.  The
    other functions of the C library, the power, the mean of numpy and
    [round] are parameters. *)
Definition PyFloat_binary64 (libm_sin libm_cos : float -> float)
    (libm_atan2 : float -> float -> float) (libm_pow : float -> float -> float)
    (numpy_mean : list float -> float)
    (float_round : float -> nat -> float) : PyFloat float := {|
  of_int := float_of_int;
  lit_0_8 := 0x1.999999999999ap-1%float;
  fadd := PrimFloat.add;
  fsub := PrimFloat.sub;
  fmul := PrimFloat.mul;
  fdiv := PrimFloat.div;
  fpow := fun x n => libm_pow x (float_of_int (Z.of_nat n));
  flt := PrimFloat.ltb;
  fgt := fun x y => PrimFloat.ltb y x;
  math_radians := fun x => PrimFloat.mul x (PrimFloat.div 0x1.921fb54442d18p+1%float 180%float);
  math_sin := libm_sin;
  math_cos := libm_cos;
  math_sqrt := PrimFloat.sqrt;
  math_atan2 := libm_atan2;
  np_mean := numpy_mean;
  py_round := float_round
|}.

(** * Vocabulary of the properties *)

(** ** The object and its store *)

(** The dictionaries of [self.points] are mutable objects that outlive a
    run, and [point.copy()] makes a new object.  The store holds the
    point dictionaries alive, an address being a position in [dicts],
    and the attribute [self.points], a list of addresses.  The routes
    and the employees of a run are made by that run and are not
    reachable from the object: they stay values.  [prepare_data] fills
    the store once, before any run. *)
Record Store (F : Type) : Type := mkStore {
  dicts : list (Point F);
  attr_points : list nat
}.
Arguments mkStore {F}.
Arguments dicts {F}.
Arguments attr_points {F}.

Section StoreModel.
Context {F : Type} {FO : PyFloat F}.

(** [point.copy()]: a new dictionary with the items of [point].  [None]
    stands for a reference to no dictionary, which a well-formed store
    does not hold. *)
Definition copy_point (point : nat) (st : Store F) : option (nat * Store F) :=
  match nth_error (dicts st) point with
  | Some p => Some (length (dicts st), mkStore (dicts st ++ [p]) (attr_points st))
  | None => None
  end.

(** [for _ in range(n): all_visits.append(point.copy())] *)
Fixpoint copy_times (n : nat) (point : nat) (all_visits : list nat) (st : Store F)
    : option (list nat * Store F) :=
  match n with
  | O => Some (all_visits, st)
  | S n' =>
      match copy_point point st with
      | Some (visit, st') => copy_times n' point (all_visits ++ [visit]) st'
      | None => None
      end
  end.

(** [for point in self.points: for _ in range(point['frequency']): ...] *)
Fixpoint copy_visits (points : list nat) (all_visits : list nat) (st : Store F)
    : option (list nat * Store F) :=
  match points with
  | [] => Some (all_visits, st)
  | point :: rest =>
      match nth_error (dicts st) point with
      | Some p =>
          match copy_times (Z.to_nat (frequency p)) point all_visits st with
          | Some (all_visits', st') => copy_visits rest all_visits' st'
          | None => None
          end
      | None => None
      end
  end.

(** [[p.copy() for p in self.points]] *)
Fixpoint copy_each (points : list nat) (st : Store F) : option (list nat * Store F) :=
  match points with
  | [] => Some ([], st)
  | point :: rest =>
      match copy_point point st with
      | Some (visit, st') =>
          match copy_each rest st' with
          | Some (visits, st'') => Some (visit :: visits, st'')
          | None => None
          end
      | None => None
      end
  end.

(** The expansion of [distribute_visits_by_quarter], on the store. *)
Definition run_all_visits (st : Store F) : option (list nat * Store F) :=
  match copy_visits (attr_points st) [] st with
  | Some ([], st') => copy_each (attr_points st') st'
  | Some ((_ :: _) as all_visits, st') => Some (all_visits, st')
  | None => None
  end.

(** [distribute_visits_by_quarter] on the store: the mapping holds
    references to the copies. *)
Definition run_distribute (start_date : option Z) (now : Z) (st : Store F)
    : option (list (Z * list nat) * Store F) :=
  let start := match start_date with Some d => d | None => now end in
  let quarter_days := quarter_days start in
  match run_all_visits st with
  | Some (all_visits, st') =>
      let days_count := length quarter_days in
      match days_count with
      | O => Some ([], st')
      | S _ =>
          Some (fold_left
                  (fun visits_by_day '(i, visit) =>
                     let day_index := (i mod days_count)%nat in
                     let day := nth day_index quarter_days 0 in
                     dict_append Z.eq_dec day visit visits_by_day)
                  (enumerate all_visits) [],
                st')
      end
  | None => None
  end.

(** The items of the dictionaries that a list of references leads to. *)
Fixpoint read_points (st : Store F) (l : list nat) : option (list (Point F)) :=
  match l with
  | [] => Some []
  | a :: rest =>
      match nth_error (dicts st) a, read_points st rest with
      | Some p, Some ps => Some (p :: ps)
      | _, _ => None
      end
  end.

Fixpoint read_days (st : Store F) (m : list (Z * list nat))
    : option (list (Z * list (Point F))) :=
  match m with
  | [] => Some []
  | (day, visits) :: rest =>
      match read_points st visits, read_days st rest with
      | Some ps, Some days => Some ((day, ps) :: days)
      | _, _ => None
      end
  end.

(** [optimize] on the store.  After the distribution the run only reads
    the visits: the clusterer, [solve_tsp] and the route builder look
    their fields up and write to none, so the visits are read here. *)
Definition run_optimize (max_hours_per_day : F) (max_days_per_week : Z)
    (start_date : option Z) (now : Z) (st : Store F) : option (Result F * Store F) :=
  let start_date := match start_date with Some d => d | None => now end in
  match run_distribute (Some start_date) now st with
  | None => None
  | Some (visits_by_day, st') =>
      match read_days st' visits_by_day with
      | None => None
      | Some [] => Some (Failure no_working_days, st')
      | Some ((_ :: _) as days) =>
          let all_routes := fold_left (day_step max_hours_per_day) days [] in
          match all_routes with
          | [] => Some (Failure no_routes_created, st')
          | _ :: _ =>
              let '(final_routes, num_employees) :=
                assign_routes_to_employees all_routes max_days_per_week in
              Some (Success (max_hours_per_day, max_days_per_week, start_date)
                            (make_summary final_routes num_employees)
                            final_routes
                            (map (employee_info final_routes) (seq 0 num_employees)),
                    st')
          end
      end
  end.

(** The references [l] lead to the dictionaries [ps], in order. *)
Definition points_to (st : Store F) (l : list nat) (ps : list (Point F)) : Prop :=
  Forall2 (fun a p => nth_error (dicts st) a = Some p) l ps.

(** A mapping of references leads to a mapping of dictionaries. *)
Definition days_to (st : Store F) (m : list (Z * list nat))
    (days : list (Z * list (Point F))) : Prop :=
  Forall2 (fun e1 e2 => fst e1 = fst e2 /\ points_to st (snd e1) (snd e2)) m days.

(** The store [st'] is [st] with new dictionaries: the attribute and the
    dictionaries of [st] are as they were. *)
Definition extends (st st' : Store F) : Prop :=
  attr_points st' = attr_points st /\ exists made, dicts st' = dicts st ++ made.

End StoreModel.

(** ** Clusters and routes *)

(** The legs of a route: its consecutive pairs of stops. *)
Definition consecutive_pairs {A : Type} (l : list A) : list (A * A) :=
  combine l (tl l).

Section ClusterVocabulary.
Context {F : Type} {FO : PyFloat F}.

(** The points seen so far, in order: the closed clusters followed by the
    open one. *)
Definition cluster_flat (st : cluster_state (F := F)) : list (Point F) :=
  let '(clusters, current_cluster, _) := st in
  concat clusters ++ current_cluster.

Definition cluster_closed (st : cluster_state (F := F)) : list (list (Point F)) :=
  let '(clusters, _, _) := st in clusters.

(** The threshold as the code computes it, [max_hours * 60 * 0.8]. *)
Definition threshold (max_hours : F) : F :=
  fmul (fmul max_hours (of_int 60)) lit_0_8.

(** [current_time] as the loop holds it for the cluster [c]: the
    durations of the cluster added one after the other, to the initial
    [0] when the cluster was begun on the initial state, to the first
    duration when the cluster was opened by an overflow. *)
Definition accumulated (c : list (Point F)) (t : F) : Prop :=
  t = py_sum (map duration c) \/
  exists p rest, c = p :: rest /\
                 t = fold_left fadd (map duration rest) (duration p).

(** The time bound of a cluster, for any arithmetic: either its running
    total, as the loop computed it, is not above the limit, or it is a
    single point above the limit. *)
Definition within_limit (limit : F) (c : list (Point F)) : Prop :=
  exists t, accumulated c t /\ fgt t limit = false.

Definition oversized_single (limit : F) (c : list (Point F)) : Prop :=
  exists p, c = [p] /\ fgt (duration p) limit = true.

Definition cluster_ok (limit : F) (c : list (Point F)) : Prop :=
  within_limit limit c \/ oversized_single limit c.

(** The invariant of the clustering loop. *)
Definition cluster_inv (limit : F) (st : cluster_state (F := F)) : Prop :=
  let '(clusters, cur, t) := st in
  Forall (cluster_ok limit) clusters /\
  accumulated cur t /\
  (cur = [] \/ fgt t limit = false \/ oversized_single limit cur).

(** The travel-time estimate of one leg, at the default speed. *)
Definition leg_time (leg : Point F * Point F) : F :=
  estimate_travel_time (point_distance (fst leg) (snd leg)) (of_int 30).

(** The properties of a route's timing fields. *)
Definition route_metrics_ok (r : Route F) : Prop :=
  total_time_min r = fadd (service_time_min r) (travel_time_min r) /\
  service_time_min r = py_sum (map duration (points r)) /\
  travel_time_min r = py_sum (map leg_time (consecutive_pairs (points r))) /\
  total_points r = length (points r).

(** One turn of the loop of [route_travel_time]. *)
Definition travel_step (l : list (Point F)) (travel_time : F) (i : nat) : F :=
  match nth_error l i, nth_error l (S i) with
  | Some p, Some q => fadd travel_time (estimate_travel_time (point_distance p q) (of_int 30))
  | _, _ => travel_time
  end.

End ClusterVocabulary.

(** ** Distribution over the days *)

(** The number of items held by a dictionary of lists. *)
Definition dict_size {K X : Type} (d : list (K * list X)) : nat :=
  list_sum (map (fun e => length (snd e)) d).

(** The day the run starts from. *)
Definition horizon_start (start_date : option Z) (now : Z) : Z :=
  match start_date with Some d => d | None => now end.

(** The working days of a run. *)
Definition working_days (start_date : option Z) (now : Z) : list Z :=
  quarter_days (horizon_start start_date now).

(** [sum(frequency)] over the points. *)
Definition total_frequency {F : Type} (self_points : list (Point F)) : Z :=
  fold_right Z.add 0 (map frequency self_points).

(** The visits whose index is [j] modulo [D], in order. *)
Definition class_of {A : Type} (D j : nat) (es : list (nat * A)) : list A :=
  map snd (filter (fun iv => (fst iv mod D =? j)%nat) es).

(** The visits that round-robin sends to the [j]-th of [D] days. *)
Definition day_bucket {A : Type} (D j : nat) (visits : list A) : list A :=
  class_of D j (enumerate visits).

Section RoundRobinVocabulary.
Context {A : Type}.
Variable wd : list Z.
Variable D : nat.

(** One turn of the loop over [enumerate(all_visits)]. *)
Definition rr_step (visits_by_day : list (Z * list A)) (iv : nat * A)
    : list (Z * list A) :=
  let '(i, visit) := iv in
  let day_index := (i mod D)%nat in
  let day := nth day_index wd 0 in
  dict_append Z.eq_dec day visit visits_by_day.

(** What the mapping holds after the indexed visits [es]. *)
Definition rr_inv (es : list (nat * A)) (m : list (Z * list A)) : Prop :=
  NoDup (dict_keys m) /\
  (forall k, In k (dict_keys m) -> In k wd) /\
  (forall j, (j < D)%nat ->
     dict_get Z.eq_dec (nth j wd 0) m =
     match class_of D j es with [] => None | _ :: _ => Some (class_of D j es) end) /\
  dict_size m = length es.

End RoundRobinVocabulary.

(** ** Assignment of the days *)

Section AssignVocabulary.
Context {F : Type}.
Variable max_days_per_week : Z.
Variable routes_by_day : list (DateKey * list (Route F)).

(** What [group_by_day] holds after the routes [done] have been filed. *)
Definition group_inv (done : list (Route F)) (m : list (DateKey * list (Route F)))
    : Prop :=
  NoDup (dict_keys m) /\
  (forall d l, dict_get DateKey_eq_dec d m = Some l -> forall r, In r l -> date r = d) /\
  (forall r, In r done ->
     exists l, dict_get DateKey_eq_dec (date r) m = Some l /\ In r l).

(** The routes of a day, as [assign_step] reads them. *)
Definition batch (day : DateKey) : list (Route F) :=
  match dict_get DateKey_eq_dec day routes_by_day with
  | Some l => l
  | None => []
  end.

(** An employee within the weekly cap. *)
Definition under_cap (emp : Employee F) : Prop :=
  Z.of_nat (length (emp_days emp)) <= max_days_per_week.

(** What holds of one employee once the days [ds] have been handled. *)
Definition emp_ok (counter : Z) (ds : list DateKey) (e : Employee F) : Prop :=
  1 <= emp_id e < counter /\
  emp_name e = employee_label (emp_id e) /\
  (forall r, In r (routes e) ->
     In (date r) ds /\ employee_id r = employee_label (emp_id e)) /\
  (forall r r0, In r (routes e) -> In r0 (batch (date r)) ->
     In (set_employee_id (employee_label (emp_id e)) r0) (routes e)).

(** Two routes of the same day have the same owner. *)
Definition owners_agree (es : list (Employee F)) : Prop :=
  forall e e' r r',
    In e es -> In e' es -> In r (routes e) -> In r' (routes e') ->
    date r = date r' -> emp_id e = emp_id e'.

(** Every route of a handled day has been given to somebody. *)
Definition days_covered (ds : list DateKey) (es : list (Employee F)) : Prop :=
  forall d r0, In d ds -> In r0 (batch d) ->
    exists e, In e es /\
              In (set_employee_id (employee_label (emp_id e)) r0) (routes e).

(** The invariant of the loop over the sorted days. *)
Definition assign_inv (ds : list DateKey) (st : list (Employee F) * Z) : Prop :=
  let '(es, counter) := st in
  1 <= counter /\
  (forall e, In e es -> emp_ok counter ds e) /\
  NoDup (map emp_id es) /\
  owners_agree es /\
  days_covered ds es.

End AssignVocabulary.

(** ** Sample data *)

(** A point of Scenario A: a visit of 60 minutes, once. *)
Definition scenario_point (n : Z) (latitude longitude : R) : Point R :=
  mkPoint n "point"%string ""%string latitude longitude 60%R 1 "point"%string.

Definition scenario_A_points : list (Point R) :=
  [scenario_point 1 0 0; scenario_point 2 0 1; scenario_point 3 1 0].

(** The object of Scenario A: three dictionaries and the attribute that
    refers to them. *)
Definition sample_store : Store R := mkStore scenario_A_points [0; 1; 2]%nat.

(** A visit of 60 minutes as a binary64 point. *)
Definition float_point (n : Z) (latitude longitude : float) : Point float :=
  mkPoint n "point"%string ""%string latitude longitude 60%float 1 "point"%string.

(** A stand-in for the C library and for numpy, used where only some
    implementation is needed: the identity for the unary functions, the
    first argument for the binary ones, the terms added from left to
    right for the mean. *)
Definition PyFloat_standin : PyFloat float :=
  PyFloat_binary64 (fun x => x) (fun x => x) (fun y _ => y) (fun x _ => x)
                   (fun l => PrimFloat.div (fold_left PrimFloat.add l 0%float)
                                           (float_of_int (Z.of_nat (length l))))
                   (fun x _ => x).

(** A second stand-in, a flat map: the sine of an angle is the angle,
    every cosine is 1, a square is a product, and [atan2] returns its
    first argument.  The distance of two points is then a multiple of
    their Euclidean distance in degrees. *)
Definition PyFloat_flat : PyFloat float :=
  PyFloat_binary64 (fun x => x) (fun _ => 1%float) (fun y _ => y)
                   (fun x _ => PrimFloat.mul x x)
                   (fun l => PrimFloat.div (fold_left PrimFloat.add l 0%float)
                                           (float_of_int (Z.of_nat (length l))))
                   (fun x _ => x).

(** A day of five visits along a parallel: the first at the centroid,
    then two pairs at equal distances on either side. *)
Definition sample_day : list (Point float) :=
  [float_point 1 0 0; float_point 2 0 1; float_point 3 0 (-1);
   float_point 4 0 3; float_point 5 0 (-3)].



(** A dated route with a single stop, as the pipeline builds them. *)
Definition sample_route (day : Z) : Route R :=
  set_date (Day day) (weekday_name day) (build_route 1 1 [scenario_point 1 0 0]).

(** Ten single-route days. *)
Definition sample_routes : list (Route R) :=
  map (fun i => sample_route (738000 + Z.of_nat i)) (seq 0 10).

(** ** Order and greed of the clusterer *)

(** The sort key of [cluster_points_by_time]: the distance of a point to
    the centroid of the day's points. *)
Definition centroid_distance {F : Type} {FO : PyFloat F} (day_points : list (Point F))
    (p : Point F) : F :=
  calculate_distance (lat p) (lon p) (np_mean (map lat day_points))
                     (np_mean (map lon day_points)).

(** No element is strictly below the one before it, for the comparison
    [lt]. *)
Definition ascending {A : Type} (lt : A -> A -> bool) (l : list A) : Prop :=
  Forall (fun pq => lt (snd pq) (fst pq) = false) (consecutive_pairs l).

(** The comparison of [sorted(points, key=...)]: by the distance to the
    centroid of the day's points, as the code computes it. *)
Definition nearer_centre {F : Type} {FO : PyFloat F} (day_points : list (Point F))
    (p q : Point F) : bool :=
  flt (centroid_distance day_points p) (centroid_distance day_points q).

(** A cluster was closed because the first point of the next one did not
    fit: its running total plus that point's duration, as the loop
    computed them, is above the limit. *)
Definition closed_by_overflow {F : Type} {FO : PyFloat F} (limit : F)
    (c c2 : list (Point F)) : Prop :=
  exists p rest t, c2 = p :: rest /\ accumulated c t /\
                   fgt (fadd t (duration p)) limit = true.

(** Every cluster but the last was closed by an overflow. *)
Definition greedy_chain {F : Type} {FO : PyFloat F} (limit : F)
    (cs : list (list (Point F))) : Prop :=
  forall pre c c2 post, cs = pre ++ c :: c2 :: post -> closed_by_overflow limit c c2.

(** The invariant of the clustering loop for the chain. *)
Definition greedy_inv {F : Type} {FO : PyFloat F} (limit : F)
    (st : cluster_state (F := F)) : Prop :=
  let '(clusters, cur, t) := st in
  accumulated cur t /\
  (cur = [] -> clusters = []) /\
  greedy_chain limit (close_cluster clusters cur).

(** ** Nearest neighbour *)

(** From every stop the route goes on to a point that no later stop
    beats: no later stop is strictly nearer, by the distances and the
    comparison of the code. *)
Fixpoint nearest_chain {F : Type} {FO : PyFloat F} (route : list (Point F)) : Prop :=
  match route with
  | [] => True
  | a :: tail =>
      match tail with
      | [] => True
      | b :: _ =>
          (forall c, In c tail ->
             flt (point_distance a c) (point_distance a b) = false) /\
          nearest_chain tail
      end
  end.

(** ** What the assignment keeps *)

(** A route without its owner: every field but ['employee_id']. *)
Definition strip_employee {F : Type} (r : Route F) : Route F :=
  set_employee_id ""%string r.

(** The distinct dates of a list of routes. *)
Definition route_days {F : Type} (all_routes : list (Route F)) : list DateKey :=
  nodup DateKey_eq_dec (map date all_routes).

(** The employees of an assignment, filled one after the other: all but
    the last hold exactly [c] days, the last one between 1 and [c], and
    together they hold [k] days. *)
Definition filled_in_order {F : Type} (c k : nat) (es : list (Employee F)) : Prop :=
  (es = [] /\ k = 0%nat) \/
  (exists full last,
     es = full ++ [last] /\
     Forall (fun e => length (emp_days e) = c) full /\
     (1 <= length (emp_days last) <= c)%nat /\
     k = (c * length full + length (emp_days last))%nat).

(** The numbering of the employees in the state of the loop: identifiers
    1, 2, ... in order, the counter one ahead, names and route owners as
    the identifiers say. *)
Definition numbered {F : Type} (st : list (Employee F) * Z) : Prop :=
  map emp_id (fst st) = map Z.of_nat (seq 1 (length (fst st))) /\
  snd st = Z.of_nat (length (fst st)) + 1 /\
  Forall (fun e => emp_name e = employee_label (emp_id e) /\
                   Forall (fun r => employee_id r = emp_name e) (routes e))
         (fst st).

(** ** The run as a whole *)

(** The [all_routes] of [optimize]: the dated routes of every day of the
    mapping, before the employees are assigned. *)
Definition dated_routes {F : Type} {FO : PyFloat F} (self_points : list (Point F))
    (max_hours_per_day : F) (start_date : option Z) (now : Z) : list (Route F) :=
  fold_left (day_step max_hours_per_day)
            (distribute_visits_by_quarter self_points
               (Some (horizon_start start_date now)) now)
            [].

(** The days a run plans visits on: one working day per visit, in order,
    until the working days run out. *)
Definition planned_days {F : Type} (self_points : list (Point F))
    (start_date : option Z) (now : Z) : list Z :=
  firstn (length (all_visits self_points)) (working_days start_date now).

(** [f'R{employee_id}_{route_id}'] *)
Definition route_label (employee_id route_id : Z) : string :=
  ("R" ++ str_of_int employee_id ++ "_" ++ str_of_int route_id)%string.

(** The routes of a list that are dated on day [d]. *)
Definition routes_on {F : Type} (d : Z) (l : list (Route F)) : list (Route F) :=
  filter (fun r => if DateKey_eq_dec (date r) (Day d) then true else false) l.

(** * Properties *)

(** ** Sorting *)

Lemma insert_sorted_perm {A : Type} (lt : A -> A -> bool) (x : A) (l : list A) :
  Permutation (insert_sorted lt x l) (x :: l).
Proof.
  induction l as [|y l IH]; simpl.
  - apply Permutation_refl.
  - destruct (lt y x).
    + rewrite IH. apply perm_swap.
    + apply Permutation_refl.
Qed.

Lemma py_sorted_perm {A : Type} (lt : A -> A -> bool) (l : list A) :
  Permutation (py_sorted lt l) l.
Proof.
  induction l as [|x l IH]; simpl.
  - constructor.
  - rewrite insert_sorted_perm. now constructor.
Qed.

Lemma py_sorted_length {A : Type} (lt : A -> A -> bool) (l : list A) :
  length (py_sorted lt l) = length l.
Proof. apply Permutation_length, py_sorted_perm. Qed.

(** ** Clustering *)

Section ClusterFacts.
Context {F : Type} {FO : PyFloat F}.

Lemma concat_close_cluster (clusters : list (list (Point F))) (cur : list (Point F)) :
  concat (close_cluster clusters cur) = concat clusters ++ cur.
Proof.
  destruct cur as [|p cur]; simpl.
  - now rewrite app_nil_r.
  - now rewrite concat_app; simpl; rewrite app_nil_r.
Qed.

Lemma close_cluster_nonempty (clusters : list (list (Point F))) (cur : list (Point F)) :
  Forall (fun c => c <> []) clusters ->
  Forall (fun c => c <> []) (close_cluster clusters cur).
Proof.
  intros H. destruct cur as [|p cur]; simpl; [exact H|].
  apply Forall_app; split; [exact H|]. constructor; [discriminate|constructor].
Qed.

Lemma cluster_step_flat (m : F) (st : cluster_state) (p : Point F) :
  cluster_flat (cluster_step m st p) = cluster_flat st ++ [p].
Proof.
  destruct st as [[clusters cur] t]. unfold cluster_step.
  destruct (fgt _ _); simpl.
  - now rewrite concat_close_cluster.
  - now rewrite app_assoc.
Qed.

Lemma cluster_step_nonempty (m : F) (st : cluster_state) (p : Point F) :
  Forall (fun c => c <> []) (cluster_closed st) ->
  Forall (fun c => c <> []) (cluster_closed (cluster_step m st p)).
Proof.
  destruct st as [[clusters cur] t]. unfold cluster_step.
  destruct (fgt _ _); simpl; intros H; [now apply close_cluster_nonempty | exact H].
Qed.

Lemma cluster_loop_flat (m : F) (l : list (Point F)) (st : cluster_state) :
  cluster_flat (fold_left (cluster_step m) l st) = cluster_flat st ++ l.
Proof.
  revert st. induction l as [|p l IH]; intros st; simpl.
  - now rewrite app_nil_r.
  - rewrite IH, cluster_step_flat, <- app_assoc. reflexivity.
Qed.

Lemma cluster_loop_nonempty (m : F) (l : list (Point F)) (st : cluster_state) :
  Forall (fun c => c <> []) (cluster_closed st) ->
  Forall (fun c => c <> []) (cluster_closed (fold_left (cluster_step m) l st)).
Proof.
  revert st. induction l as [|p l IH]; intros st H; simpl; [exact H|].
  apply IH, cluster_step_nonempty, H.
Qed.

Lemma points_sorted_perm (points : list (Point F)) :
  Permutation (points_sorted points) points.
Proof. apply py_sorted_perm. Qed.

(** The clusters, read in order, are the sorted points. *)
Lemma cluster_points_concat (points : list (Point F)) (max_hours : F) :
  concat (cluster_points_by_time points max_hours) = points_sorted points.
Proof.
  unfold cluster_points_by_time. destruct points as [|p0 points]; [reflexivity|].
  set (l := points_sorted (p0 :: points)). cbv zeta.
  pose proof (cluster_loop_flat (fmul max_hours (of_int 60)) l ([], [], of_int 0)) as H.
  destruct (fold_left _ l _) as [[clusters cur] t].
  simpl in H. now rewrite concat_close_cluster.
Qed.

Lemma cluster_points_nonempty (points : list (Point F)) (max_hours : F) :
  Forall (fun c => c <> []) (cluster_points_by_time points max_hours).
Proof.
  unfold cluster_points_by_time. destruct points as [|p0 points]; [constructor|].
  set (l := points_sorted (p0 :: points)). cbv zeta.
  pose proof (cluster_loop_nonempty (fmul max_hours (of_int 60)) l ([], [], of_int 0)) as H.
  destruct (fold_left _ l _) as [[clusters cur] t].
  simpl in H. apply close_cluster_nonempty, H. constructor.
Qed.

(** *** The time bound, for any arithmetic *)

Lemma accumulated_nil : accumulated [] (of_int 0).
Proof. left. reflexivity. Qed.

Lemma accumulated_single (p : Point F) : accumulated [p] (duration p).
Proof. right. now exists p, []. Qed.

Lemma accumulated_snoc (c : list (Point F)) (t : F) (p : Point F) :
  accumulated c t -> accumulated (c ++ [p]) (fadd t (duration p)).
Proof.
  intros [->|(q & rest & -> & ->)].
  - left. unfold py_sum. now rewrite map_app, fold_left_app.
  - right. exists q, (rest ++ [p]). split; [reflexivity|].
    now rewrite map_app, fold_left_app.
Qed.

Lemma close_cluster_ok (limit : F) (clusters : list (list (Point F))) (cur : list (Point F)) :
  Forall (cluster_ok limit) clusters ->
  cur = [] \/ cluster_ok limit cur ->
  Forall (cluster_ok limit) (close_cluster clusters cur).
Proof.
  intros Hc Hcur. destruct cur as [|p cur]; simpl; [exact Hc|].
  apply Forall_app; split; [exact Hc|].
  constructor; [|constructor]. destruct Hcur as [H|H]; [discriminate|exact H].
Qed.

Lemma open_cluster_ok (limit : F) (cur : list (Point F)) (t : F) :
  accumulated cur t ->
  cur = [] \/ fgt t limit = false \/ oversized_single limit cur ->
  cur = [] \/ cluster_ok limit cur.
Proof.
  intros Ht [H|[H|H]]; [now left| |right; now right].
  right. left. now exists t.
Qed.

Lemma cluster_step_inv (m : F) (st : cluster_state) (p : Point F) :
  cluster_inv (fmul m lit_0_8) st -> cluster_inv (fmul m lit_0_8) (cluster_step m st p).
Proof.
  destruct st as [[clusters cur] t]. intros (Hc & Ht & Hcur).
  unfold cluster_step.
  destruct (fgt (fadd t (duration p)) (fmul m lit_0_8)) eqn:E; cbn [cluster_inv].
  - split; [|split; [apply accumulated_single|]].
    + apply close_cluster_ok; [exact Hc|]. now apply (open_cluster_ok _ cur t).
    + right. destruct (fgt (duration p) (fmul m lit_0_8)) eqn:E1.
      * right. now exists p.
      * now left.
  - split; [exact Hc|]. split; [now apply accumulated_snoc|]. right. now left.
Qed.

Lemma cluster_loop_inv (m : F) (l : list (Point F)) (st : cluster_state) :
  cluster_inv (fmul m lit_0_8) st ->
  cluster_inv (fmul m lit_0_8) (fold_left (cluster_step m) l st).
Proof.
  revert st. induction l as [|p l IH]; intros st H; simpl; [exact H|].
  apply IH, cluster_step_inv, H.
Qed.

(** Every cluster stays within 80% of the day, as the loop computes it,
    or is a single oversized point. *)
Lemma cluster_points_ok (points : list (Point F)) (max_hours : F) :
  Forall (cluster_ok (threshold max_hours))
         (cluster_points_by_time points max_hours).
Proof.
  unfold cluster_points_by_time, threshold.
  destruct points as [|p0 points]; [constructor|].
  set (l := points_sorted (p0 :: points)). cbv zeta.
  pose proof (cluster_loop_inv (fmul max_hours (of_int 60)) l ([], [], of_int 0)) as H.
  destruct (fold_left _ l _) as [[clusters cur] t].
  destruct H as (Hc & Ht & Hcur).
  - split; [constructor|]. split; [apply accumulated_nil|now left].
  - apply close_cluster_ok; [exact Hc|]. now apply (open_cluster_ok _ cur t).
Qed.

End ClusterFacts.

(** C10: the clusters returned by [cluster_points_by_time] partition the
    day's points: no cluster is empty, and the clusters read one after
    the other are the sorted points, hence a rearrangement of the input in
    which every point occurs as often as it was given (none dropped, none
    duplicated). *)
Theorem cluster_points_by_time_partition {F : Type} {FO : PyFloat F}
    (day_points : list (Point F)) (max_hours : F) :
  Forall (fun c => c <> []) (cluster_points_by_time day_points max_hours) /\
  concat (cluster_points_by_time day_points max_hours) = points_sorted day_points /\
  Permutation (concat (cluster_points_by_time day_points max_hours)) day_points.
Proof.
  split; [apply cluster_points_nonempty|].
  split; [apply cluster_points_concat|].
  rewrite cluster_points_concat. apply points_sorted_perm.
Qed.

(** ** Facts of exact arithmetic *)

Lemma R_gtb_true (x y : R) : R_gtb x y = true <-> (y < x)%R.
Proof.
  unfold R_gtb. destruct (Rgt_dec x y) as [H|H]; split; intros H1;
    try reflexivity; try discriminate; unfold Rgt in H; lra.
Qed.

Lemma R_gtb_false (x y : R) : R_gtb x y = false <-> (x <= y)%R.
Proof.
  unfold R_gtb. destruct (Rgt_dec x y) as [H|H]; split; intros H1;
    try reflexivity; try discriminate; unfold Rgt in H; lra.
Qed.

Lemma R_ltb_true (x y : R) : R_ltb x y = true <-> (x < y)%R.
Proof.
  unfold R_ltb. destruct (Rlt_dec x y) as [H|H]; split; intros H1;
    try reflexivity; try discriminate; lra.
Qed.




(** ** Routes of a day *)

Section RouteFacts.
Context {F : Type} {FO : PyFloat F}.

Lemma travel_shift (a : Point F) (l : list (Point F)) (n k : nat) (acc : F) :
  fold_left (travel_step (a :: l)) (seq (S k) n) acc =
  fold_left (travel_step l) (seq k n) acc.
Proof.
  revert k acc. induction n as [|n IH]; intros k acc; [reflexivity|].
  simpl seq. simpl fold_left. rewrite IH. reflexivity.
Qed.

Lemma travel_fold (l : list (Point F)) (acc : F) :
  fold_left (travel_step l) (seq 0 (length l - 1)) acc =
  fold_left fadd (map leg_time (consecutive_pairs l)) acc.
Proof.
  revert acc. induction l as [|a l IH]; intros acc; [reflexivity|].
  destruct l as [|b l]; [reflexivity|].
  replace (length (a :: b :: l) - 1)%nat with (S (length (b :: l) - 1))
    by (simpl; lia).
  simpl seq. simpl fold_left at 1. rewrite travel_shift, IH. reflexivity.
Qed.

Lemma route_travel_time_pairs (l : list (Point F)) :
  route_travel_time l = py_sum (map leg_time (consecutive_pairs l)).
Proof. apply travel_fold. Qed.

Lemma build_route_metrics (employee_id route_id : Z) (cluster : list (Point F)) :
  route_metrics_ok (build_route employee_id route_id cluster).
Proof.
  unfold route_metrics_ok, build_route. cbn [total_time_min service_time_min
    travel_time_min points total_points].
  repeat split. apply route_travel_time_pairs.
Qed.

Lemma routes_loop_forall (P : Route F -> Prop) (employee_id : Z)
    (clusters : list (list (Point F))) (st : list (Route F) * Z) :
  (forall k c, P (build_route employee_id k c)) ->
  Forall P (fst st) ->
  Forall P (fst (fold_left (routes_step employee_id) clusters st)).
Proof.
  intros HP. revert st. induction clusters as [|c clusters IH]; intros [rs k] H;
    simpl; [exact H|].
  apply IH. destruct c; [exact H|]. simpl.
  apply Forall_app; split; [exact H|]. constructor; [apply HP|constructor].
Qed.

Lemma routes_loop_points (employee_id : Z) (clusters : list (list (Point F)))
    (st : list (Route F) * Z) :
  Forall (fun c => c <> []) clusters ->
  map points (fst (fold_left (routes_step employee_id) clusters st)) =
  map points (fst st) ++ map solve_tsp clusters.
Proof.
  intros H. revert st. induction H as [|c clusters Hc Hcs IH]; intros [rs k]; simpl.
  - now rewrite app_nil_r.
  - destruct c as [|p c]; [congruence|]. rewrite IH. simpl fst.
    rewrite map_app, <- app_assoc. reflexivity.
Qed.

(** The stops of the routes of a day are the clusters of the day, each in
    the order chosen by [solve_tsp]. *)
Lemma optimize_routes_points (day_points : list (Point F)) (max_hours : F)
    (employee_id : Z) :
  map points (optimize_routes_for_day day_points max_hours employee_id) =
  map solve_tsp (cluster_points_by_time day_points max_hours).
Proof.
  unfold optimize_routes_for_day. destruct day_points as [|p l]; [reflexivity|].
  cbv zeta. rewrite routes_loop_points; [reflexivity|].
  apply cluster_points_nonempty.
Qed.
End RouteFacts.

(** C7: every route built for a day has a total time that is exactly its
    service time plus its travel time, a service time that is the sum of
    the durations of its stops, and a travel time that is the sum of the
    travel-time estimates of its legs (the consecutive pairs of its
    ordered stops); its point count is the number of its stops. *)
Theorem route_metrics {F : Type} {FO : PyFloat F} (day_points : list (Point F))
    (max_hours : F) (employee_id : Z) :
  Forall (fun r =>
            total_time_min r = fadd (service_time_min r) (travel_time_min r) /\
            service_time_min r = py_sum (map duration (points r)) /\
            travel_time_min r = py_sum (map leg_time (consecutive_pairs (points r))) /\
            total_points r = length (points r))
         (optimize_routes_for_day day_points max_hours employee_id).
Proof.
  unfold optimize_routes_for_day. destruct day_points as [|p l]; [constructor|].
  cbv zeta. apply (routes_loop_forall route_metrics_ok).
  - intros k c. apply build_route_metrics.
  - constructor.
Qed.

(** ** Scenario A: three visits of one hour in a two-hour day *)

Section HourlyVisits.
Context {F : Type} {FO : PyFloat F}.
Variable hour : F.
Variable max_hours : F.
Hypothesis hour_alone : fadd (of_int 0) hour = hour.
Hypothesis hour_fits :
  fgt hour (fmul (fmul max_hours (of_int 60)) lit_0_8) = false.
Hypothesis two_hours_overflow :
  fgt (fadd hour hour) (fmul (fmul max_hours (of_int 60)) lit_0_8) = true.

(** Once a visit of that length is in the open cluster, every further one
    overflows the threshold and opens a cluster of its own. *)
Lemma hourly_loop (l : list (Point F)) :
  Forall (fun p => duration p = hour) l ->
  forall (clusters : list (list (Point F))) (q : Point F),
    exists cl cur t,
      fold_left (cluster_step (fmul max_hours (of_int 60))) l (clusters, [q], hour) =
      (cl, cur, t) /\
      close_cluster cl cur = clusters ++ [q] :: map (fun p => [p]) l.
Proof.
  induction 1 as [|p l Hp Hl IH]; intros clusters q.
  - exists clusters, [q], hour. split; reflexivity.
  - cbn [fold_left]. unfold cluster_step at 2. rewrite Hp, two_hours_overflow.
    destruct (IH (close_cluster clusters [q]) p) as (cl & cur & t & Hfold & Hclose).
    exists cl, cur, t. split; [exact Hfold|].
    rewrite Hclose. simpl. rewrite <- app_assoc. reflexivity.
Qed.

Lemma hourly_clusters_generic (l : list (Point F)) :
  Forall (fun p => duration p = hour) l ->
  cluster_points_by_time l max_hours = map (fun p => [p]) (points_sorted l).
Proof.
  intros H. unfold cluster_points_by_time. destruct l as [|p0 l]; [reflexivity|].
  assert (Hs : Forall (fun p => duration p = hour) (points_sorted (p0 :: l))).
  { rewrite Forall_forall in *. intros x Hx. apply H.
    apply (Permutation_in x (points_sorted_perm (p0 :: l))), Hx. }
  cbv zeta. destruct (points_sorted (p0 :: l)) as [|q s]; [reflexivity|].
  apply Forall_cons_iff in Hs. destruct Hs as [Hq Hrest].
  cbn [fold_left]. unfold cluster_step at 2.
  rewrite Hq, hour_alone, hour_fits. cbn [app].
  destruct (hourly_loop s Hrest [] q) as (cl & cur & t & Hfold & Hclose).
  rewrite Hfold. exact Hclose.
Qed.
End HourlyVisits.

Lemma hourly_clusters (l : list (Point R)) :
  Forall (fun p => duration p = 60%R) l ->
  cluster_points_by_time l 2%R = map (fun p => [p]) (points_sorted l).
Proof.
  apply hourly_clusters_generic.
  - simpl. lra.
  - apply R_gtb_false. simpl. lra.
  - apply R_gtb_true. simpl. lra.
Qed.

(** X5: the same day in IEEE binary64, whatever the C library computes for the
    sort keys: [2 * 60 * 0.8] is [96.0], [0 + 60 > 96] is false and
    [60 + 60 > 96] is true. *)
Lemma hourly_clusters_binary64 (libm_sin libm_cos : float -> float)
    (libm_atan2 libm_pow : float -> float -> float) (numpy_mean : list float -> float)
    (float_round : float -> nat -> float)
    (l : list (Point float)) :
  Forall (fun p => duration p = 60%float) l ->
  @cluster_points_by_time float
     (PyFloat_binary64 libm_sin libm_cos libm_atan2 libm_pow numpy_mean float_round) l 2%float =
  map (fun p => [p])
      (@points_sorted float
         (PyFloat_binary64 libm_sin libm_cos libm_atan2 libm_pow numpy_mean float_round) l).
Proof.
  apply (@hourly_clusters_generic float
           (PyFloat_binary64 libm_sin libm_cos libm_atan2 libm_pow numpy_mean float_round)
           60%float 2%float); vm_compute; reflexivity.
Qed.

Lemma solve_tsp_single {F : Type} {FO : PyFloat F} (l : list (Point F)) :
  map solve_tsp (map (fun p => [p]) l) = map (fun p => [p]) l.
Proof. rewrite map_map. reflexivity. Qed.

Lemma hourly_routes (l : list (Point R)) (employee_id : Z) :
  Forall (fun p => duration p = 60%R) l ->
  map points (optimize_routes_for_day l 2%R employee_id) =
  map (fun p => [p]) (points_sorted l).
Proof.
  intros H. rewrite optimize_routes_points, hourly_clusters by exact H.
  apply solve_tsp_single.
Qed.

Lemma points_sorted_three (p1 p2 p3 : Point R) :
  exists q1 q2 q3,
    points_sorted [p1; p2; p3] = [q1; q2; q3] /\
    Permutation [q1; q2; q3] [p1; p2; p3].
Proof.
  pose proof (points_sorted_perm [p1; p2; p3]) as H.
  pose proof (Permutation_length H) as Hl.
  destruct (points_sorted [p1; p2; p3]) as [|q1 [|q2 [|q3 [|q4 s]]]];
    try discriminate Hl.
  now exists q1, q2, q3.
Qed.

(** C5 (as amended): three visits of 60 minutes, frequency 1 each, on one
    day with [maxHoursPerDay = 2]: the threshold is 96 minutes, so no two
    visits fit together and the day yields three routes of one stop each,
    not two routes. *)
Theorem scenario_A_three_routes (p1 p2 p3 : Point R) (employee_id : Z) :
  Forall (fun p => duration p = 60%R /\ frequency p = 1) [p1; p2; p3] ->
  all_visits [p1; p2; p3] = [p1; p2; p3] /\
  exists q1 q2 q3,
    Permutation [q1; q2; q3] [p1; p2; p3] /\
    cluster_points_by_time (all_visits [p1; p2; p3]) 2%R = [[q1]; [q2]; [q3]] /\
    map points (optimize_routes_for_day (all_visits [p1; p2; p3]) 2%R employee_id) =
    [[q1]; [q2]; [q3]].
Proof.
  intros H.
  assert (Hv : all_visits [p1; p2; p3] = [p1; p2; p3]).
  { inversion H as [|? ? [_ H1] H']; subst.
    inversion H' as [|? ? [_ H2] H'']; subst.
    inversion H'' as [|? ? [_ H3] _]; subst.
    unfold all_visits. simpl. rewrite H1, H2, H3. reflexivity. }
  split; [exact Hv|]. rewrite Hv.
  assert (Hd : Forall (fun p => duration p = 60%R) [p1; p2; p3]).
  { eapply Forall_impl; [|exact H]. now intros p [Hp _]. }
  destruct (points_sorted_three p1 p2 p3) as (q1 & q2 & q3 & Hs & Hperm).
  exists q1, q2, q3. split; [exact Hperm|].
  rewrite hourly_clusters, hourly_routes, Hs by exact Hd. split; reflexivity.
Qed.

Lemma scenario_A_three_routes_witness :
  exists q1 q2 q3,
    cluster_points_by_time (all_visits scenario_A_points) 2%R = [[q1]; [q2]; [q3]].
Proof.
  destruct (scenario_A_three_routes (scenario_point 1 0 0) (scenario_point 2 0 1)
              (scenario_point 3 1 0) 1) as (_ & q1 & q2 & q3 & _ & H & _).
  - repeat constructor.
  - now exists q1, q2, q3.
Defined.

(** C5, as the specification states it, fails: the day of Scenario A
    yields three routes, not two. *)
Lemma scenario_A_not_two_routes :
  length (optimize_routes_for_day scenario_A_points 2%R 1) = 3%nat /\
  ~ exists r1 r2,
      optimize_routes_for_day scenario_A_points 2%R 1 = [r1; r2] /\
      (length (points r1) <= 2)%nat.
Proof.
  assert (Hl : length (optimize_routes_for_day scenario_A_points 2%R 1) = 3%nat).
  { rewrite <- (length_map points).
    rewrite hourly_routes by (repeat constructor).
    rewrite length_map. unfold points_sorted. rewrite py_sorted_length.
    reflexivity. }
  split; [exact Hl|].
  intros (r1 & r2 & H & _). rewrite H in Hl. discriminate Hl.
Qed.

(** ** Dictionaries *)

Section DictFacts.
Context {K V : Type}.
Variable K_eq_dec : forall x y : K, {x = y} + {x <> y}.

Lemma dict_get_set (k k' : K) (v : V) (d : list (K * V)) :
  dict_get K_eq_dec k' (dict_set K_eq_dec k v d) =
  if K_eq_dec k' k then Some v else dict_get K_eq_dec k' d.
Proof.
  induction d as [|[k0 v0] d IH]; simpl.
  - destruct (K_eq_dec k' k); reflexivity.
  - destruct (K_eq_dec k k0) as [->|Hk]; simpl.
    + destruct (K_eq_dec k' k0); reflexivity.
    + destruct (K_eq_dec k' k0) as [->|H0]; [|exact IH].
      destruct (K_eq_dec k0 k); [congruence|reflexivity].
Qed.

Lemma dict_get_none (k : K) (d : list (K * V)) :
  dict_get K_eq_dec k d = None <-> ~ In k (dict_keys d).
Proof.
  induction d as [|[k0 v0] d IH]; simpl.
  - tauto.
  - destruct (K_eq_dec k k0) as [->|Hk].
    + split; [discriminate|]. intros H. exfalso. apply H. now left.
    + rewrite IH. split; intros H; [intros [E|E]; [congruence|tauto]|tauto].
Qed.

Lemma dict_get_in (k : K) (v : V) (d : list (K * V)) :
  dict_get K_eq_dec k d = Some v -> In (k, v) d.
Proof.
  induction d as [|[k0 v0] d IH]; simpl; [discriminate|].
  destruct (K_eq_dec k k0) as [->|Hk].
  - intros [= ->]. now left.
  - intros H. right. now apply IH.
Qed.

Lemma dict_in_get (k : K) (v : V) (d : list (K * V)) :
  NoDup (dict_keys d) -> In (k, v) d -> dict_get K_eq_dec k d = Some v.
Proof.
  induction d as [|[k0 v0] d IH]; simpl; [contradiction|].
  intros Hnd [[= -> ->]|Hin].
  - destruct (K_eq_dec k k); [reflexivity|congruence].
  - inversion Hnd as [|? ? Hk0 Hd]; subst.
    destruct (K_eq_dec k k0) as [->|Hk]; [|now apply IH].
    exfalso. apply Hk0. change k0 with (fst (k0, v)). now apply in_map.
Qed.

Lemma dict_keys_set (k : K) (v : V) (d : list (K * V)) :
  dict_keys (dict_set K_eq_dec k v d) =
  match dict_get K_eq_dec k d with
  | Some _ => dict_keys d
  | None => dict_keys d ++ [k]
  end.
Proof.
  induction d as [|[k0 v0] d IH]; simpl; [reflexivity|].
  destruct (K_eq_dec k k0) as [->|Hk]; simpl; [reflexivity|].
  rewrite IH. now destruct (dict_get K_eq_dec k d).
Qed.
End DictFacts.

Section AppendFacts.
Context {K X : Type}.
Variable K_eq_dec : forall x y : K, {x = y} + {x <> y}.

Lemma dict_get_append (k k' : K) (x : X) (d : list (K * list X)) :
  dict_get K_eq_dec k' (dict_append K_eq_dec k x d) =
  if K_eq_dec k' k
  then Some (match dict_get K_eq_dec k d with Some l => l ++ [x] | None => [x] end)
  else dict_get K_eq_dec k' d.
Proof.
  unfold dict_append. destruct (dict_get K_eq_dec k d); now rewrite dict_get_set.
Qed.

Lemma dict_keys_append (k : K) (x : X) (d : list (K * list X)) :
  dict_keys (dict_append K_eq_dec k x d) =
  match dict_get K_eq_dec k d with
  | Some _ => dict_keys d
  | None => dict_keys d ++ [k]
  end.
Proof.
  unfold dict_append.
  destruct (dict_get K_eq_dec k d) eqn:E; rewrite dict_keys_set, E; reflexivity.
Qed.

Lemma dict_append_NoDup (k : K) (x : X) (d : list (K * list X)) :
  NoDup (dict_keys d) -> NoDup (dict_keys (dict_append K_eq_dec k x d)).
Proof.
  intros H. rewrite dict_keys_append.
  destruct (dict_get K_eq_dec k d) eqn:E; [exact H|].
  apply dict_get_none in E.
  apply NoDup_app; [exact H|constructor; [intros []|constructor]|].
  intros y Hy [<-|[]]. contradiction.
Qed.

Lemma dict_size_append (k : K) (x : X) (d : list (K * list X)) :
  dict_size (dict_append K_eq_dec k x d) = S (dict_size d).
Proof.
  unfold dict_append, dict_size.
  induction d as [|[k0 v0] d IH]; simpl; [reflexivity|].
  destruct (K_eq_dec k k0) as [->|Hk]; simpl.
  - rewrite length_app. simpl. lia.
  - destruct (dict_get K_eq_dec k d); simpl in *; rewrite IH; lia.
Qed.

Lemma dict_append_nonempty (k : K) (x : X) (d : list (K * list X)) :
  dict_append K_eq_dec k x d <> [].
Proof.
  unfold dict_append. destruct (dict_get K_eq_dec k d);
    destruct d as [|[k0 v0] d]; simpl; try discriminate;
    destruct (K_eq_dec k k0); discriminate.
Qed.
End AppendFacts.

(** ** The working calendar *)

Lemma quarter_fold (start : Z) (l : list nat) (acc : list Z) :
  fold_left
    (fun acc i =>
       let current_date := start + Z.of_nat i in
       if weekday current_date <? 5 then acc ++ [current_date] else acc)
    l acc =
  acc ++ map (fun i => start + Z.of_nat i)
             (filter (fun i => weekday (start + Z.of_nat i) <? 5) l).
Proof.
  revert acc. induction l as [|x l IH]; intros acc; cbn [fold_left filter map].
  - now rewrite app_nil_r.
  - rewrite IH. cbv zeta.
    destruct (weekday (start + Z.of_nat x) <? 5); cbn [map];
      [now rewrite <- app_assoc|reflexivity].
Qed.

Lemma quarter_fold_nil (start : Z) (l : list nat) :
  fold_left
    (fun acc i =>
       let current_date := start + Z.of_nat i in
       if weekday current_date <? 5 then acc ++ [current_date] else acc)
    l [] =
  map (fun i => start + Z.of_nat i)
      (filter (fun i => weekday (start + Z.of_nat i) <? 5) l).
Proof. apply quarter_fold. Qed.

(** The working days are the weekdays among [start .. start + 89], in
    ascending order. *)
Lemma quarter_days_filter (start : Z) :
  quarter_days start =
  map (fun i => start + Z.of_nat i)
      (filter (fun i => weekday (start + Z.of_nat i) <? 5) (seq 0 90)).
Proof. unfold quarter_days. apply quarter_fold_nil. Qed.

Lemma quarter_days_NoDup (start : Z) : NoDup (quarter_days start).
Proof.
  rewrite quarter_days_filter. apply Finite.Injective_map_NoDup.
  - intros i j H. lia.
  - apply NoDup_filter, seq_NoDup.
Qed.

(** Three days in a row are never all on a weekend. *)
Lemma weekday_within_three (start : Z) :
  (weekday start <? 5) = true \/
  (weekday (start + 1) <? 5) = true \/
  (weekday (start + 2) <? 5) = true.
Proof.
  unfold weekday. rewrite !Z.ltb_lt. Z.div_mod_to_equations. lia.
Qed.

Lemma quarter_days_member (start : Z) (i : nat) :
  (i < 90)%nat -> (weekday (start + Z.of_nat i) <? 5) = true ->
  In (start + Z.of_nat i) (quarter_days start).
Proof.
  intros Hi Hw. rewrite quarter_days_filter.
  apply in_map with (f := fun i => start + Z.of_nat i).
  apply filter_In. split; [apply in_seq; lia|exact Hw].
Qed.

(** The horizon always holds a working day. *)
Lemma quarter_days_pos (start : Z) : (0 < length (quarter_days start))%nat.
Proof.
  assert (H : exists d, In d (quarter_days start)).
  { destruct (weekday_within_three start) as [H|[H|H]].
    - exists (start + Z.of_nat 0). apply quarter_days_member; [lia|].
      now replace (start + Z.of_nat 0) with start by lia.
    - exists (start + Z.of_nat 1). apply quarter_days_member; [lia|exact H].
    - exists (start + Z.of_nat 2). apply quarter_days_member; [lia|exact H]. }
  destruct H as (d & Hd). destruct (quarter_days start); [contradiction|simpl; lia].
Qed.

#[global] Opaque quarter_days.

(** ** Round-robin distribution *)

Lemma mod_succ_cases (n D : nat) :
  (0 < D)%nat ->
  ((S n) / D = n / D /\ (S n) mod D = S (n mod D) /\ S (n mod D) < D)%nat \/
  ((S n) / D = S (n / D) /\ (S n) mod D = 0 /\ S (n mod D) = D)%nat.
Proof.
  intros HD.
  pose proof (Nat.div_mod_eq n D) as E.
  pose proof (Nat.mod_upper_bound n D ltac:(lia)) as B.
  pose proof (Nat.mod_upper_bound (S n) D ltac:(lia)) as B'.
  destruct (Nat.eq_dec (S (n mod D)) D) as [H|H].
  - right.
    assert (H0 : (S n = D * S (n / D) + 0)%nat) by nia.
    pose proof (Nat.div_mod_unique D (S n / D) (S (n / D)) (S n mod D) 0 B'
                  ltac:(lia)) as U.
    rewrite <- Nat.div_mod_eq in U. specialize (U H0). lia.
  - left.
    assert (H0 : (S n = D * (n / D) + S (n mod D))%nat) by nia.
    pose proof (Nat.div_mod_unique D (S n / D) (n / D) (S n mod D) (S (n mod D)) B'
                  ltac:(lia)) as U.
    rewrite <- Nat.div_mod_eq in U. specialize (U H0). lia.
Qed.

(** How many of the indices [0 .. n-1] fall on day [j]. *)
Lemma residue_count (D j n : nat) :
  (j < D)%nat ->
  length (filter (fun i => (i mod D =? j)%nat) (seq 0 n)) =
  (n / D + (if (j <? n mod D)%nat then 1 else 0))%nat.
Proof.
  intros Hj. induction n as [|n IH].
  - simpl. rewrite Nat.Div0.div_0_l, Nat.Div0.mod_0_l. reflexivity.
  - rewrite seq_S, filter_app, length_app, IH. simpl.
    destruct (mod_succ_cases n D ltac:(lia)) as [(Hq & Hr & Hlt)|(Hq & Hr & Heq)];
      rewrite Hq, Hr;
      destruct (Nat.eqb_spec (n mod D) j);
      destruct (Nat.ltb_spec j (n mod D));
      destruct (Nat.ltb_spec j (S (n mod D)));
      destruct (Nat.ltb_spec j 0); simpl; lia.
Qed.

Lemma filter_combine_fst {A : Type} (P : nat -> bool) (s : list nat) (l : list A) :
  length s = length l ->
  map fst (filter (fun iv => P (fst iv)) (combine s l)) = filter P s.
Proof.
  revert l. induction s as [|i s IH]; intros [|x l] H; simpl in *;
    try reflexivity; try discriminate.
  destruct (P i); simpl; rewrite IH by lia; reflexivity.
Qed.

Lemma day_bucket_length {A : Type} (D j : nat) (visits : list A) :
  (j < D)%nat ->
  length (day_bucket D j visits) =
  (length visits / D + (if (j <? length visits mod D)%nat then 1 else 0))%nat.
Proof.
  intros Hj. rewrite <- (residue_count D j (length visits) Hj).
  unfold day_bucket, class_of, enumerate. rewrite length_map.
  rewrite <- (filter_combine_fst (fun i => (i mod D =? j)%nat)
                 (seq 0 (length visits)) visits) by apply length_seq.
  now rewrite length_map.
Qed.

Lemma enumerate_nth {A : Type} (l : list A) (a i : nat) (x : A) :
  nth_error l i = Some x -> In ((a + i)%nat, x) (combine (seq a (length l)) l).
Proof.
  revert a i. induction l as [|y l IH]; intros a [|i] H; simpl in *; try discriminate.
  - injection H as ->. left. f_equal. lia.
  - right. replace (a + S i)%nat with (S a + i)%nat by lia. now apply IH.
Qed.

Section RoundRobin.
Context {A : Type}.
Variable wd : list Z.
Variable D : nat.
Hypothesis D_length : D = length wd.
Hypothesis D_pos : (0 < D)%nat.
Hypothesis wd_NoDup : NoDup wd.

Lemma class_of_snoc (j i : nat) (x : A) (es : list (nat * A)) :
  class_of D j (es ++ [(i, x)]) =
  class_of D j es ++ (if (i mod D =? j)%nat then [x] else []).
Proof.
  unfold class_of. rewrite filter_app, map_app. simpl.
  now destruct (i mod D =? j)%nat.
Qed.

Lemma rr_step_inv (es : list (nat * A)) (m : list (Z * list A)) (i : nat) (x : A) :
  (rr_inv wd D) es m -> (rr_inv wd D) (es ++ [(i, x)]) ((rr_step wd D) m (i, x)).
Proof.
  intros (Hnd & Hsub & Hget & Hsize). unfold rr_step.
  assert (Hi : (i mod D < length wd)%nat).
  { rewrite <- D_length. apply Nat.mod_upper_bound. lia. }
  repeat split.
  - now apply dict_append_NoDup.
  - intros k. rewrite dict_keys_append.
    destruct (dict_get Z.eq_dec (nth (i mod D) wd 0) m); [apply Hsub|].
    intros Hk. apply in_app_or in Hk. destruct Hk as [Hk|[<-|[]]]; [now apply Hsub|].
    now apply nth_In.
  - intros j Hj. rewrite dict_get_append, class_of_snoc.
    destruct (Z.eq_dec (nth j wd 0) (nth (i mod D) wd 0)) as [E|E].
    + assert (Hji : j = (i mod D)%nat).
      { apply (proj1 (NoDup_nth wd 0) wd_NoDup); [lia|exact Hi|exact E]. }
      subst j. rewrite Nat.eqb_refl, (Hget (i mod D)%nat Hj).
      destruct (class_of D (i mod D) es); reflexivity.
    + assert (Hji : (i mod D)%nat <> j) by (intros <-; now apply E).
      apply Nat.eqb_neq in Hji. rewrite Hji, app_nil_r. now apply Hget.
  - rewrite dict_size_append, length_app, Hsize. simpl. lia.
Qed.

Lemma rr_loop_inv (es : list (nat * A)) :
  (rr_inv wd D) es (fold_left (rr_step wd D) es []).
Proof.
  induction es as [|[i x] es IH] using rev_ind.
  - split; [apply NoDup_nil|]. split; [intros k []|].
    split; [|reflexivity]. intros j Hj. reflexivity.
  - rewrite fold_left_app. simpl fold_left. now apply rr_step_inv.
Qed.

Lemma rr_entry (es : list (nat * A)) (d : Z) (l : list A) :
  In (d, l) (fold_left (rr_step wd D) es []) ->
  exists j, (j < D)%nat /\ d = nth j wd 0 /\ l = class_of D j es /\ l <> [].
Proof.
  intros Hin. destruct (rr_loop_inv es) as (Hnd & Hsub & Hget & _).
  assert (Hd : In d wd).
  { apply Hsub. change d with (fst (d, l)). now apply in_map. }
  destruct (In_nth wd d 0 Hd) as (j & Hj & Hnth).
  assert (HjD : (j < D)%nat) by (rewrite D_length; exact Hj).
  exists j. split; [exact HjD|]. split; [now rewrite Hnth|].
  pose proof (dict_in_get Z.eq_dec d l _ Hnd Hin) as Hg.
  rewrite <- Hnth, Hget in Hg by exact HjD.
  destruct (class_of D j es) eqn:E; [discriminate|].
  injection Hg as <-. split; [reflexivity|discriminate].
Qed.
End RoundRobin.

Lemma working_days_pos (start_date : option Z) (now : Z) :
  (0 < length (working_days start_date now))%nat.
Proof. unfold working_days. apply quarter_days_pos. Qed.

Lemma working_days_NoDup (start_date : option Z) (now : Z) :
  NoDup (working_days start_date now).
Proof. unfold working_days. apply quarter_days_NoDup. Qed.

Section DistributeFacts.
Context {F : Type}.

Lemma distribute_loop (self_points : list (Point F)) (start_date : option Z) (now : Z) :
  distribute_visits_by_quarter self_points start_date now =
  fold_left (rr_step (working_days start_date now)
                     (length (working_days start_date now)))
            (enumerate (all_visits self_points)) [].
Proof.
  pose proof (working_days_pos start_date now) as H.
  unfold distribute_visits_by_quarter. cbv zeta.
  change (quarter_days (match start_date with Some d => d | None => now end))
    with (working_days start_date now).
  generalize dependent (working_days start_date now). intros wd H.
  destruct (length wd) as [|n] eqn:E; [lia|]. reflexivity.
Qed.

Lemma distribute_inv (self_points : list (Point F)) (start_date : option Z) (now : Z) :
  rr_inv (working_days start_date now) (length (working_days start_date now))
         (enumerate (all_visits self_points))
         (distribute_visits_by_quarter self_points start_date now).
Proof.
  rewrite distribute_loop. apply rr_loop_inv.
  - reflexivity.
  - apply working_days_pos.
  - apply working_days_NoDup.
Qed.

Lemma expansion_length (self_points : list (Point F)) :
  Forall (fun p => 0 <= frequency p) self_points ->
  Z.of_nat (length (flat_map (fun point => repeat point (Z.to_nat (frequency point)))
                             self_points)) =
  total_frequency self_points.
Proof.
  unfold total_frequency. induction 1 as [|p l Hp Hl IH]; [reflexivity|].
  simpl. rewrite length_app, repeat_length, Nat2Z.inj_add, IH. lia.
Qed.

Lemma total_frequency_pos (self_points : list (Point F)) :
  Forall (fun p => 0 <= frequency p) self_points ->
  Exists (fun p => 0 < frequency p) self_points ->
  0 < total_frequency self_points.
Proof.
  unfold total_frequency. induction 1 as [|p l Hp Hl IH]; intros Hex.
  - inversion Hex.
  - assert (H0 : 0 <= fold_right Z.add 0 (map frequency l)).
    { clear IH Hex. induction Hl as [|q l Hq Hl IH]; simpl; lia. }
    simpl. inversion Hex as [? ? Hpos|? ? Hrest]; subst; [lia|].
    specialize (IH Hrest). lia.
Qed.

Lemma expansion_zero (self_points : list (Point F)) :
  Forall (fun p => frequency p = 0) self_points ->
  flat_map (fun point => repeat point (Z.to_nat (frequency point))) self_points = [].
Proof.
  induction 1 as [|p l Hp Hl IH]; [reflexivity|].
  simpl. rewrite Hp, IH. reflexivity.
Qed.
End DistributeFacts.

(** C4: when no frequency is negative, the visits expanded from the
    points number [sum(frequency)] if some frequency is positive, and one
    per point if every frequency is zero; the mapping returned by
    [distribute_visits_by_quarter] holds exactly these visits. *)
Theorem visit_count {F : Type} (self_points : list (Point F))
    (start_date : option Z) (now : Z) :
  Forall (fun p => 0 <= frequency p) self_points ->
  (Exists (fun p => 0 < frequency p) self_points ->
   Z.of_nat (length (all_visits self_points)) = total_frequency self_points) /\
  (Forall (fun p => frequency p = 0) self_points ->
   length (all_visits self_points) = length self_points) /\
  dict_size (distribute_visits_by_quarter self_points start_date now) =
  length (all_visits self_points).
Proof.
  intros Hnn. split; [|split].
  - intros Hex. pose proof (expansion_length self_points Hnn) as Hlen.
    pose proof (total_frequency_pos self_points Hnn Hex) as Hpos.
    unfold all_visits.
    destruct (flat_map _ self_points) as [|v vs] eqn:E; [simpl in Hlen; lia|].
    exact Hlen.
  - intros Hz. unfold all_visits. now rewrite expansion_zero.
  - destruct (distribute_inv self_points start_date now) as (_ & _ & _ & Hsize).
    rewrite Hsize. unfold enumerate. rewrite length_combine, length_seq. lia.
Qed.

Lemma visit_count_witness :
  Z.of_nat (length (all_visits scenario_A_points)) = total_frequency scenario_A_points /\
  dict_size (distribute_visits_by_quarter scenario_A_points None 0) =
  length (all_visits scenario_A_points).
Proof.
  destruct (visit_count scenario_A_points None 0) as (H1 & _ & H3).
  - repeat constructor; simpl; lia.
  - split; [apply H1|exact H3]. apply Exists_cons_hd. simpl. lia.
Defined.

(** Every entry of the mapping is the non-empty bucket of a working day. *)
Lemma distribute_entry {F : Type} (self_points : list (Point F))
    (start_date : option Z) (now : Z) (d : Z) (l : list (Point F)) :
  In (d, l) (distribute_visits_by_quarter self_points start_date now) ->
  exists j, (j < length (working_days start_date now))%nat /\
            d = nth j (working_days start_date now) 0 /\
            l = day_bucket (length (working_days start_date now)) j
                           (all_visits self_points) /\
            l <> [].
Proof.
  intros Hin. rewrite distribute_loop in Hin.
  apply (rr_entry (working_days start_date now) _ eq_refl
                  (working_days_pos start_date now)
                  (working_days_NoDup start_date now)) in Hin.
  exact Hin.
Qed.

(** C6: visit [i] of the expansion goes to working day [i mod D], [D]
    being the number of working days (never zero): the bucket of a day is
    the list of the visits with that index modulo [D], in order, and any
    two days of the mapping hold numbers of visits that differ by at most
    one. *)
Theorem round_robin_distribution {F : Type} (self_points : list (Point F))
    (start_date : option Z) (now : Z) :
  (0 < length (working_days start_date now))%nat /\
  (forall i visit,
     nth_error (all_visits self_points) i = Some visit ->
     dict_get Z.eq_dec
       (nth (i mod length (working_days start_date now)) (working_days start_date now) 0)
       (distribute_visits_by_quarter self_points start_date now) =
     Some (day_bucket (length (working_days start_date now))
                      (i mod length (working_days start_date now))
                      (all_visits self_points)) /\
     In visit (day_bucket (length (working_days start_date now))
                          (i mod length (working_days start_date now))
                          (all_visits self_points))) /\
  (forall d l,
     In (d, l) (distribute_visits_by_quarter self_points start_date now) ->
     exists j, (j < length (working_days start_date now))%nat /\
               d = nth j (working_days start_date now) 0 /\
               l = day_bucket (length (working_days start_date now)) j
                              (all_visits self_points) /\
               l <> []) /\
  (forall d1 l1 d2 l2,
     In (d1, l1) (distribute_visits_by_quarter self_points start_date now) ->
     In (d2, l2) (distribute_visits_by_quarter self_points start_date now) ->
     (length l1 <= length l2 + 1)%nat).
Proof.
  pose proof (working_days_pos start_date now) as Hpos.
  pose proof (distribute_entry self_points start_date now) as Hentry.
  split; [exact Hpos|]. split; [|split; [exact Hentry|]].
  - intros i visit Hnth.
    set (D := length (working_days start_date now)) in *.
    assert (HjD : (i mod D < D)%nat) by (apply Nat.mod_upper_bound; lia).
    assert (Hin : In visit (day_bucket D (i mod D) (all_visits self_points))).
    { unfold day_bucket, class_of.
      apply in_map with (f := snd) (x := (i, visit)).
      apply filter_In. split; [|simpl; apply Nat.eqb_refl].
      apply (enumerate_nth _ 0 i visit Hnth). }
    split; [|exact Hin].
    destruct (distribute_inv self_points start_date now) as (_ & _ & Hget & _).
    fold D in Hget. rewrite (Hget _ HjD). fold (day_bucket D (i mod D) (all_visits self_points)).
    destruct (day_bucket D (i mod D) (all_visits self_points)); [contradiction|reflexivity].
  - intros d1 l1 d2 l2 H1 H2.
    destruct (Hentry d1 l1 H1) as (j1 & Hj1 & _ & -> & _).
    destruct (Hentry d2 l2 H2) as (j2 & Hj2 & _ & -> & _).
    rewrite !day_bucket_length by assumption.
    destruct (j1 <? _)%nat; destruct (j2 <? _)%nat; lia.
Qed.

(** ** Assignment of the days to employees *)

Section GroupFacts.
Context {F : Type}.

Lemma group_step_inv (done : list (Route F)) (m : list (DateKey * list (Route F)))
    (route : Route F) :
  group_inv done m ->
  group_inv (done ++ [route]) (dict_append DateKey_eq_dec (date route) route m).
Proof.
  intros (Hnd & Hdate & Hin). split; [now apply dict_append_NoDup|]. split.
  - intros d l. rewrite dict_get_append.
    destruct (DateKey_eq_dec d (date route)) as [->|Hd]; [|apply Hdate].
    intros [= <-] r Hr.
    destruct (dict_get DateKey_eq_dec (date route) m) as [l0|] eqn:E.
    + apply in_app_or in Hr. destruct Hr as [Hr|[<-|[]]]; [|reflexivity].
      now apply (Hdate _ _ E).
    + destruct Hr as [<-|[]]. reflexivity.
  - intros r Hr. rewrite dict_get_append.
    apply in_app_or in Hr. destruct Hr as [Hr|[<-|[]]].
    + destruct (Hin r Hr) as (l & Hl & Hrl).
      destruct (DateKey_eq_dec (date r) (date route)) as [E|E]; [|now exists l].
      rewrite <- E, Hl. exists (l ++ [route]). split; [reflexivity|].
      apply in_or_app. now left.
    + destruct (DateKey_eq_dec (date route) (date route)) as [_|E]; [|congruence].
      eexists. split; [reflexivity|].
      destruct (dict_get DateKey_eq_dec (date route) m);
        [apply in_or_app; right|]; now left.
Qed.

Lemma group_by_day_inv (all_routes : list (Route F)) :
  group_inv all_routes (group_by_day all_routes).
Proof.
  unfold group_by_day.
  induction all_routes as [|route done IH] using rev_ind.
  - split; [apply NoDup_nil|]. split; [discriminate|intros r []].
  - rewrite fold_left_app. simpl fold_left. now apply group_step_inv.
Qed.

Lemma sorted_days_NoDup (all_routes : list (Route F)) :
  NoDup (sorted_days all_routes).
Proof.
  unfold sorted_days.
  apply (Permutation_NoDup (Permutation_sym (py_sorted_perm _ _))).
  apply group_by_day_inv.
Qed.

Lemma sorted_days_member (all_routes : list (Route F)) (r : Route F) :
  In r all_routes -> In (date r) (sorted_days all_routes).
Proof.
  intros Hr. destruct (group_by_day_inv all_routes) as (_ & _ & Hin).
  destruct (Hin r Hr) as (l & Hl & _).
  unfold sorted_days.
  apply (Permutation_in _ (Permutation_sym (py_sorted_perm _ _))).
  apply dict_get_in in Hl. change (date r) with (fst (date r, l)).
  now apply in_map.
Qed.
End GroupFacts.

Section AssignFacts.
Context {F : Type}.
Variable max_days_per_week : Z.
Variable routes_by_day : list (DateKey * list (Route F)).
Hypothesis routes_by_day_dates :
  forall d l, dict_get DateKey_eq_dec d routes_by_day = Some l ->
              forall r, In r l -> date r = d.

Lemma batch_dates (day : DateKey) (r : Route F) : In r ((batch routes_by_day) day) -> date r = day.
Proof.
  unfold batch. destruct (dict_get DateKey_eq_dec day routes_by_day) eqn:E;
    [now apply routes_by_day_dates|intros []].
Qed.

Lemma give_routes_member (emp : Employee F) (label : string) (day : DateKey)
    (r : Route F) :
  In r (routes (give_routes emp label ((batch routes_by_day) day))) ->
  In r (routes emp) \/
  (exists r0, In r0 ((batch routes_by_day) day) /\ r = set_employee_id label r0 /\ date r = day).
Proof.
  simpl. intros H. apply in_app_or in H. destruct H as [H|H]; [now left|right].
  apply in_map_iff in H. destruct H as (r0 & <- & Hr0).
  exists r0. split; [exact Hr0|]. split; [reflexivity|].
  simpl. now apply batch_dates.
Qed.

(** Taking a day adds at most one day to an employee. *)
Lemma emp_days_give (emp : Employee F) (label : string) (day : DateKey) :
  (length (emp_days (give_routes emp label ((batch routes_by_day) day))) <= S (length (emp_days emp)))%nat.
Proof.
  change (S (length (emp_days emp))) with (length (day :: emp_days emp)).
  apply NoDup_incl_length; [apply NoDup_nodup|].
  intros d Hd. unfold emp_days in Hd. apply nodup_In in Hd.
  apply in_map_iff in Hd. destruct Hd as (r & <- & Hr).
  apply give_routes_member in Hr. destruct Hr as [Hr|(r0 & _ & _ & Hday)].
  - right. unfold emp_days. apply nodup_In. now apply in_map.
  - left. now symmetry.
Qed.

(** The scan changes exactly one employee, one that is under the cap. *)
Lemma assign_existing_split (day : DateKey) (employees employees' : list (Employee F)) :
  assign_existing max_days_per_week day ((batch routes_by_day) day) employees = Some employees' ->
  exists pre emp post,
    employees = pre ++ emp :: post /\
    employees' = pre ++ give_routes emp (employee_label (emp_id emp)) ((batch routes_by_day) day) :: post /\
    Z.of_nat (length (emp_days emp)) < max_days_per_week.
Proof.
  revert employees'. induction employees as [|emp rest IH]; intros employees' H;
    simpl in H; [discriminate|].
  destruct (_ && _) eqn:E.
  - injection H as <-. exists [], emp, rest. repeat split.
    apply andb_true_iff in E. destruct E as [E _]. now apply Z.ltb_lt.
  - destruct (assign_existing _ _ _ rest) as [rest'|]; [|discriminate].
    injection H as <-.
    destruct (IH rest' eq_refl) as (pre & e0 & post & -> & -> & Hlt).
    now exists (emp :: pre), e0, post.
Qed.

(** *** The weekly cap *)

Lemma assign_step_cap (st : list (Employee F) * Z) (day : DateKey) :
  1 <= max_days_per_week ->
  Forall (under_cap max_days_per_week) (fst st) ->
  Forall (under_cap max_days_per_week) (fst (assign_step max_days_per_week routes_by_day st day)).
Proof.
  intros Hcap H. destruct st as [employees counter]. unfold assign_step.
  fold ((batch routes_by_day) day). cbv zeta.
  destruct (assign_existing _ _ _ employees) as [employees'|] eqn:E; simpl in *.
  - destruct (assign_existing_split _ _ _ E) as (pre & emp & post & -> & -> & Hlt).
    apply Forall_app in H. destruct H as [Hpre Hrest].
    inversion Hrest as [|? ? _ Hpost]; subst.
    apply Forall_app. split; [exact Hpre|]. constructor; [|exact Hpost].
    unfold under_cap.
    pose proof (emp_days_give emp (employee_label (emp_id emp)) day). lia.
  - apply Forall_app. split; [exact H|]. constructor; [|constructor].
    unfold under_cap.
    pose proof (emp_days_give (mkEmployee counter (employee_label counter) [])
                  (employee_label counter) day) as Hle.
    simpl in Hle. simpl. unfold emp_days in *. simpl in *. lia.
Qed.

Lemma assign_loop_cap (days : list DateKey) (st : list (Employee F) * Z) :
  1 <= max_days_per_week ->
  Forall (under_cap max_days_per_week) (fst st) ->
  Forall (under_cap max_days_per_week)
    (fst (fold_left (assign_step max_days_per_week routes_by_day) days st)).
Proof.
  intros Hcap. revert st. induction days as [|d days IH]; intros st H; simpl;
    [exact H|].
  apply IH. now apply assign_step_cap.
Qed.
End AssignFacts.

Section OwnershipFacts.
Context {F : Type}.
Variable max_days_per_week : Z.
Variable routes_by_day : list (DateKey * list (Route F)).
Hypothesis routes_by_day_dates :
  forall d l, dict_get DateKey_eq_dec d routes_by_day = Some l ->
              forall r, In r l -> date r = d.

Local Abbreviation day_batch := (batch routes_by_day).

Lemma emp_ok_weaken (counter counter' : Z) (ds ds' : list DateKey) (e : Employee F) :
  counter <= counter' -> incl ds ds' -> (emp_ok routes_by_day) counter ds e -> (emp_ok routes_by_day) counter' ds' e.
Proof.
  intros Hc Hd (Hid & Hname & Hr & Hb). split; [lia|]. split; [exact Hname|].
  split; [|exact Hb]. intros r Hin. destruct (Hr r Hin) as [H1 H2].
  split; [now apply Hd|exact H2].
Qed.

Lemma emp_ok_give (counter : Z) (ds : list DateKey) (day : DateKey) (e0 : Employee F) :
  (emp_ok routes_by_day) counter ds e0 ->
  (emp_ok routes_by_day) counter (ds ++ [day])
         (give_routes e0 (employee_label (emp_id e0)) (day_batch day)).
Proof.
  intros (Hid & Hname & Hr & Hb). split; [exact Hid|]. split; [exact Hname|]. split.
  - intros r Hin.
    apply (give_routes_member routes_by_day routes_by_day_dates) in Hin.
    destruct Hin as [Hin|(r0 & _ & -> & Hday)].
    + destruct (Hr r Hin) as [H1 H2]. split; [apply in_or_app; now left|exact H2].
    + split; [apply in_or_app; right; left; now symmetry|reflexivity].
  - intros r r0 Hin Hr0. simpl.
    apply (give_routes_member routes_by_day routes_by_day_dates) in Hin.
    apply in_or_app. destruct Hin as [Hin|(r1 & _ & _ & Hday)].
    + left. now apply (Hb r r0).
    + right. rewrite Hday in Hr0. now apply in_map.
Qed.

Lemma owners_extend (ds : list DateKey) (day : DateKey)
    (es es' : list (Employee F)) (e0 : Employee F) :
  owners_agree es ->
  (forall e r, In e es -> In r (routes e) -> In (date r) ds) ->
  ~ In day ds ->
  In e0 es \/ routes e0 = [] ->
  (forall e, In e es' ->
     In e es \/ e = give_routes e0 (employee_label (emp_id e0)) (day_batch day)) ->
  owners_agree es'.
Proof.
  intros Hown Hds Hday He0 Hes' e e' r r' He He' Hr Hr' Hdate.
  assert (Hnew : forall x r1 r2,
            In x es -> In r1 (routes x) ->
            In r2 (routes (give_routes e0 (employee_label (emp_id e0)) (day_batch day))) ->
            date r1 = date r2 -> emp_id x = emp_id e0).
  { intros x r1 r2 Hx Hr1 Hr2 Hd.
    apply (give_routes_member routes_by_day routes_by_day_dates) in Hr2.
    destruct Hr2 as [Hr2|(_ & _ & _ & Hd2)].
    - destruct He0 as [He0|He0]; [|rewrite He0 in Hr2; contradiction].
      now apply (Hown x e0 r1 r2).
    - exfalso. apply Hday. rewrite <- Hd2, <- Hd. now apply (Hds x r1). }
  destruct (Hes' e He) as [Hin| ->]; destruct (Hes' e' He') as [Hin'| ->].
  - now apply (Hown e e' r r').
  - simpl. now apply (Hnew e r r').
  - simpl. symmetry. now apply (Hnew e' r' r).
  - reflexivity.
Qed.

Lemma covered_extend (ds : list DateKey) (day : DateKey)
    (es es' : list (Employee F)) (e0 : Employee F) :
  (days_covered routes_by_day) ds es ->
  (forall e, In e es ->
     exists e', In e' es' /\ emp_id e' = emp_id e /\ incl (routes e) (routes e')) ->
  In (give_routes e0 (employee_label (emp_id e0)) (day_batch day)) es' ->
  (days_covered routes_by_day) (ds ++ [day]) es'.
Proof.
  intros Hcov Hkeep Hnew d r0 Hd Hr0. apply in_app_or in Hd.
  destruct Hd as [Hd|[<-|[]]].
  - destruct (Hcov d r0 Hd Hr0) as (e & He & Hin).
    destruct (Hkeep e He) as (e' & He' & Hid & Hincl).
    exists e'. split; [exact He'|]. rewrite Hid. now apply Hincl.
  - eexists. split; [exact Hnew|]. simpl. apply in_or_app. right. now apply in_map.
Qed.

Lemma assign_step_inv (ds : list DateKey) (st : list (Employee F) * Z) (day : DateKey) :
  (assign_inv routes_by_day) ds st -> ~ In day ds ->
  (assign_inv routes_by_day) (ds ++ [day]) (assign_step max_days_per_week routes_by_day st day).
Proof.
  destruct st as [es counter]. intros (Hc & Hok & Hnd & Hown & Hcov) Hday.
  assert (Hdates : forall e r, In e es -> In r (routes e) -> In (date r) ds).
  { intros e r He Hr. destruct (Hok e He) as (_ & _ & H & _). now apply H. }
  unfold assign_step. fold (day_batch day). cbv zeta.
  destruct (assign_existing _ _ _ es) as [es'|] eqn:E.
  - destruct (assign_existing_split _ _ _ _ _ E) as (pre & e0 & post & -> & -> & _).
    assert (He0 : In e0 (pre ++ e0 :: post)) by (apply in_or_app; right; now left).
    assert (HA : forall e,
               In e (pre ++ give_routes e0 (employee_label (emp_id e0)) (day_batch day) :: post) ->
               In e (pre ++ e0 :: post) \/
               e = give_routes e0 (employee_label (emp_id e0)) (day_batch day)).
    { intros e He. apply in_app_or in He. destruct He as [He|[<-|He]].
      - left. apply in_or_app. now left.
      - now right.
      - left. apply in_or_app. right. now right. }
    split; [exact Hc|]. split; [|split; [|split]].
    + intros e He. destruct (HA e He) as [Hin| ->].
      * apply (emp_ok_weaken counter counter ds); [lia|apply incl_appl, incl_refl|].
        now apply Hok.
      * apply emp_ok_give. now apply Hok.
    + rewrite map_app in *. exact Hnd.
    + apply (owners_extend ds day (pre ++ e0 :: post) _ e0); auto.
    + apply (covered_extend ds day (pre ++ e0 :: post) _ e0); auto.
      * intros e He. apply in_app_or in He. destruct He as [He|[<-|He]].
        -- exists e. split; [apply in_or_app; now left|]. split; [reflexivity|apply incl_refl].
        -- eexists. split; [apply in_or_app; right; now left|].
           split; [reflexivity|]. simpl. apply incl_appl, incl_refl.
        -- exists e. split; [apply in_or_app; right; now right|].
           split; [reflexivity|apply incl_refl].
      * apply in_or_app. right. now left.
  - set (e0 := mkEmployee counter (employee_label counter) ([] : list (Route F))).
    change (give_routes e0 (emp_name e0) (day_batch day))
      with (give_routes e0 (employee_label (emp_id e0)) (day_batch day)).
    assert (Hfresh : (emp_ok routes_by_day) (counter + 1) ds e0).
    { split; [simpl; lia|]. split; [reflexivity|].
      split; [intros r []|intros r r0 []]. }
    assert (HA : forall e,
               In e (es ++ [give_routes e0 (employee_label (emp_id e0)) (day_batch day)]) ->
               In e es \/ e = give_routes e0 (employee_label (emp_id e0)) (day_batch day)).
    { intros e He. apply in_app_or in He. destruct He as [He|[<-|[]]]; auto. }
    split; [lia|]. split; [|split; [|split]].
    + intros e He. destruct (HA e He) as [Hin| ->].
      * apply (emp_ok_weaken counter (counter + 1) ds); [lia|apply incl_appl, incl_refl|].
        now apply Hok.
      * now apply emp_ok_give.
    + rewrite map_app. simpl. apply NoDup_app; [exact Hnd|constructor; [intros []|constructor]|].
      intros x Hx [<-|[]]. apply in_map_iff in Hx. destruct Hx as (e & Hid & He).
      destruct (Hok e He) as (Hlt & _). lia.
    + apply (owners_extend ds day es _ e0); auto.
    + apply (covered_extend ds day es _ e0); auto.
      * intros e He. exists e. split; [apply in_or_app; now left|].
        split; [reflexivity|apply incl_refl].
      * apply in_or_app. right. now left.
Qed.

Lemma assign_loop_inv (days ds : list DateKey) (st : list (Employee F) * Z) :
  (assign_inv routes_by_day) ds st -> NoDup (ds ++ days) ->
  (assign_inv routes_by_day) (ds ++ days)
             (fold_left (assign_step max_days_per_week routes_by_day) days st).
Proof.
  revert ds st. induction days as [|d days IH]; intros ds st Hinv Hnd; simpl.
  - now rewrite app_nil_r.
  - replace (ds ++ d :: days) with ((ds ++ [d]) ++ days) in *
      by (rewrite <- app_assoc; reflexivity).
    apply IH; [|exact Hnd]. apply assign_step_inv; [exact Hinv|].
    rewrite <- app_assoc in Hnd. simpl in Hnd. apply NoDup_remove_2 in Hnd.
    intros Hin. apply Hnd. apply in_or_app. now left.
Qed.
End OwnershipFacts.

Section AssignResult.
Context {F : Type}.
Variable all_routes : list (Route F).
Variable max_days_per_week : Z.

Lemma group_by_day_dates (d : DateKey) (l : list (Route F)) :
  dict_get DateKey_eq_dec d (group_by_day all_routes) = Some l ->
  forall r, In r l -> date r = d.
Proof. destruct (group_by_day_inv all_routes) as (_ & H & _). apply H. Qed.

Lemma batch_member (r0 : Route F) :
  In r0 all_routes -> In r0 (batch (group_by_day all_routes) (date r0)).
Proof.
  intros H. destruct (group_by_day_inv all_routes) as (_ & _ & Hin).
  destruct (Hin r0 H) as (l & Hl & Hr). unfold batch. now rewrite Hl.
Qed.

Lemma assign_employees_inv :
  assign_inv (group_by_day all_routes) (sorted_days all_routes)
             (assign_days all_routes max_days_per_week (sorted_days all_routes)).
Proof.
  unfold assign_days.
  apply (assign_loop_inv max_days_per_week (group_by_day all_routes)
           group_by_day_dates (sorted_days all_routes) [] ([], 1)).
  - split; [lia|]. split; [intros e []|]. split; [apply NoDup_nil|].
    split; [intros e e' r r' []|intros d r0 []].
  - apply sorted_days_NoDup.
Qed.
End AssignResult.

(** C2 (as amended): when the weekly cap is at least 1, no employee ever
    holds more distinct days than the cap, after any number of days
    handled by [assign_routes_to_employees]; and, whatever the cap, the
    routes of one calendar day all go to one employee: two routes of the
    same day have the same owner and the same [employee_id], every input
    route is handed to an employee, and an employee who holds a route of
    a day holds all the input routes of that day. *)
Theorem weekly_cap_and_day_batches {F : Type} (all_routes : list (Route F))
    (max_days_per_week : Z) :
  (1 <= max_days_per_week ->
   forall k,
     Forall (fun emp => Z.of_nat (length (emp_days emp)) <= max_days_per_week)
            (fst (assign_days all_routes max_days_per_week
                              (firstn k (sorted_days all_routes))))) /\
  NoDup (map emp_id (assign_employees all_routes max_days_per_week)) /\
  (forall e e' r r',
     In e (assign_employees all_routes max_days_per_week) ->
     In e' (assign_employees all_routes max_days_per_week) ->
     In r (routes e) -> In r' (routes e') -> date r = date r' ->
     emp_id e = emp_id e' /\ employee_id r = employee_id r') /\
  (forall r0, In r0 all_routes ->
     exists e, In e (assign_employees all_routes max_days_per_week) /\
               In (set_employee_id (emp_name e) r0) (routes e)) /\
  (forall e r r0,
     In e (assign_employees all_routes max_days_per_week) ->
     In r (routes e) -> In r0 all_routes -> date r0 = date r ->
     In (set_employee_id (emp_name e) r0) (routes e)) /\
  (forall r r',
     In r (fst (assign_routes_to_employees all_routes max_days_per_week)) ->
     In r' (fst (assign_routes_to_employees all_routes max_days_per_week)) ->
     date r = date r' -> employee_id r = employee_id r').
Proof.
  pose proof (assign_employees_inv all_routes max_days_per_week) as Hinv.
  unfold assign_employees.
  destruct (assign_days all_routes max_days_per_week (sorted_days all_routes))
    as [es counter] eqn:E.
  destruct Hinv as (_ & Hok & Hnd & Hown & Hcov). simpl fst.
  assert (Hsame : forall e e' r r',
            In e es -> In e' es -> In r (routes e) -> In r' (routes e') ->
            date r = date r' ->
            emp_id e = emp_id e' /\ employee_id r = employee_id r').
  { intros e e' r r' He He' Hr Hr' Hd.
    pose proof (Hown e e' r r' He He' Hr Hr' Hd) as Hid. split; [exact Hid|].
    destruct (Hok e He) as (_ & _ & H1 & _). destruct (Hok e' He') as (_ & _ & H2 & _).
    destruct (H1 r Hr) as [_ ->]. destruct (H2 r' Hr') as [_ ->]. now rewrite Hid. }
  split; [|split; [exact Hnd|split; [exact Hsame|split; [|split]]]].
  - intros Hcap k. unfold assign_days.
    apply (assign_loop_cap max_days_per_week (group_by_day all_routes)
             (group_by_day_dates all_routes)); [exact Hcap|constructor].
  - intros r0 Hr0.
    destruct (Hcov (date r0) r0 (sorted_days_member all_routes r0 Hr0)
                   (batch_member all_routes r0 Hr0)) as (e & He & Hin).
    exists e. split; [exact He|].
    destruct (Hok e He) as (_ & -> & _). exact Hin.
  - intros e r r0 He Hr Hr0 Hd.
    destruct (Hok e He) as (_ & -> & _ & Hb). apply (Hb r r0 Hr).
    rewrite <- Hd. now apply batch_member.
  - intros r r'. unfold assign_routes_to_employees.
    destruct all_routes as [|r1 rest]; [intros []|].
    cbv zeta. unfold assign_employees. rewrite E. simpl fst.
    intros Hr Hr' Hd. apply in_flat_map in Hr, Hr'.
    destruct Hr as (e & He & Hr). destruct Hr' as (e' & He' & Hr').
    now apply (Hsame e e' r r').
Qed.

Lemma weekly_cap_and_day_batches_witness :
  Forall (fun emp => Z.of_nat (length (emp_days emp)) <= 5)
         (fst (assign_days sample_routes 5 (firstn 7 (sorted_days sample_routes)))) /\
  NoDup (map emp_id (assign_employees sample_routes 5)).
Proof.
  destruct (weekly_cap_and_day_batches sample_routes 5) as (Hcap & Hnd & _).
  split; [apply Hcap; lia|exact Hnd].
Defined.

(** C2, as the specification states it, fails for a cap below 1: with
    [max_days_per_week = 0] the only employee holds one day, which is
    above the cap. *)
Lemma weekly_cap_zero_exceeded :
  map (fun emp => length (emp_days emp)) (assign_employees [sample_route 738000] 0) =
  [1%nat] /\
  ~ Forall (fun emp => Z.of_nat (length (emp_days emp)) <= 0)
           (assign_employees [sample_route 738000] 0).
Proof.
  assert (H : map (fun emp => length (emp_days emp))
                  (assign_employees [sample_route 738000] 0) = [1%nat])
    by reflexivity.
  split; [exact H|]. intros HF.
  destruct (assign_employees [sample_route 738000] 0) as [|e es]; [discriminate H|].
  inversion HF as [|? ? He _]; subst. injection H as H _. lia.
Qed.

(** ** The pipeline *)

Section PipelineFacts.
Context {F : Type} {FO : PyFloat F}.

Lemma distribute_empty (start_date : option Z) (now : Z) :
  distribute_visits_by_quarter ([] : list (Point F)) start_date now = [].
Proof. rewrite distribute_loop. reflexivity. Qed.

Lemma optimize_empty (max_hours_per_day : F) (max_days_per_week : Z)
    (start_date : option Z) (now : Z) :
  optimize [] max_hours_per_day max_days_per_week start_date now =
  Failure no_working_days.
Proof. unfold optimize. cbv zeta. rewrite distribute_empty. reflexivity. Qed.

(** With a start date given, the clock is not read. *)
Lemma distribute_clock_free (self_points : list (Point F)) (start : Z) (now1 now2 : Z) :
  distribute_visits_by_quarter self_points (Some start) now1 =
  distribute_visits_by_quarter self_points (Some start) now2.
Proof. rewrite !distribute_loop. reflexivity. Qed.

Lemma all_visits_nonempty (self_points : list (Point F)) :
  self_points <> [] -> all_visits self_points <> [].
Proof.
  intros H. unfold all_visits.
  destruct (flat_map _ self_points); [exact H|discriminate].
Qed.

Lemma distribute_nonempty (self_points : list (Point F)) (start_date : option Z)
    (now : Z) :
  self_points <> [] ->
  distribute_visits_by_quarter self_points start_date now <> [].
Proof.
  intros H Hm.
  destruct (distribute_inv self_points start_date now) as (_ & _ & _ & Hsize).
  rewrite Hm in Hsize. unfold enumerate in Hsize.
  rewrite length_combine, length_seq, Nat.min_id in Hsize.
  apply (all_visits_nonempty self_points H).
  destruct (all_visits self_points); [reflexivity|discriminate Hsize].
Qed.

Lemma optimize_routes_nonempty (day_points : list (Point F)) (max_hours : F)
    (employee_id : Z) :
  day_points <> [] ->
  optimize_routes_for_day day_points max_hours employee_id <> [].
Proof.
  intros H Hr.
  pose proof (optimize_routes_points day_points max_hours employee_id) as Hp.
  rewrite Hr in Hp. simpl in Hp. symmetry in Hp. apply map_eq_nil in Hp.
  pose proof (cluster_points_concat day_points max_hours) as Hc.
  rewrite Hp in Hc. simpl in Hc.
  pose proof (Permutation_length (points_sorted_perm day_points)) as Hl.
  rewrite <- Hc in Hl. destruct day_points; [now apply H|discriminate Hl].
Qed.

Lemma day_loop_grows (max_hours_per_day : F) (m : list (Z * list (Point F)))
    (acc : list (Route F)) :
  acc <> [] -> fold_left (day_step max_hours_per_day) m acc <> [].
Proof.
  revert acc. induction m as [|[d l] m IH]; intros acc H; simpl; [exact H|].
  apply IH. destruct l; [exact H|]. destruct acc; [now elim H|discriminate].
Qed.

Lemma day_loop_nonempty (max_hours_per_day : F) (m : list (Z * list (Point F))) :
  m <> [] -> (forall d l, In (d, l) m -> l <> []) ->
  fold_left (day_step max_hours_per_day) m [] <> [].
Proof.
  intros Hm Hl. destruct m as [|[d l] m]; [now elim Hm|]. simpl.
  apply day_loop_grows.
  assert (Hne : l <> []) by (apply (Hl d); now left).
  destruct l as [|p l]; [now elim Hne|]. simpl app.
  intros H. apply map_eq_nil in H. revert H. now apply optimize_routes_nonempty.
Qed.

(** The result of a run over at least one point is a success, which
    echoes the start the run used. *)
Lemma optimize_success (self_points : list (Point F)) (max_hours_per_day : F)
    (max_days_per_week : Z) (start_date : option Z) (now : Z) :
  self_points <> [] ->
  exists summary final_routes employees,
    optimize self_points max_hours_per_day max_days_per_week start_date now =
    Success (max_hours_per_day, max_days_per_week, horizon_start start_date now)
            summary final_routes employees.
Proof.
  intros H. unfold optimize. cbv zeta. fold (horizon_start start_date now).
  pose proof (distribute_nonempty self_points (Some (horizon_start start_date now)) now H)
    as Hm.
  assert (Hl : forall d l,
            In (d, l) (distribute_visits_by_quarter self_points
                         (Some (horizon_start start_date now)) now) -> l <> []).
  { intros d l Hin.
    destruct (distribute_entry self_points _ now d l Hin) as (j & _ & _ & _ & Hne).
    exact Hne. }
  pose proof (day_loop_nonempty max_hours_per_day _ Hm Hl) as Hr.
  destruct (distribute_visits_by_quarter self_points
              (Some (horizon_start start_date now)) now) as [|e m];
    [now elim Hm|].
  destruct (fold_left (day_step max_hours_per_day) (e :: m) []) as [|r rs];
    [now elim Hr|].
  destruct (assign_routes_to_employees (r :: rs) max_days_per_week)
    as [final_routes num_employees].
  now eexists _, _, _.
Qed.
End PipelineFacts.

(** C1 (as amended): for the empty point set
    [distribute_visits_by_quarter] returns the empty mapping, and
    [optimize] then fails with the "no working days" message, which is not
    the "no routes created" message. *)
Theorem empty_points_failure {F : Type} {FO : PyFloat F} (max_hours_per_day : F)
    (max_days_per_week : Z) (start_date : option Z) (now : Z) :
  distribute_visits_by_quarter ([] : list (Point F)) start_date now = [] /\
  optimize [] max_hours_per_day max_days_per_week start_date now =
  Failure no_working_days /\
  optimize [] max_hours_per_day max_days_per_week start_date now <>
  Failure no_routes_created.
Proof.
  split; [apply distribute_empty|]. rewrite optimize_empty.
  split; [reflexivity|]. intros H. injection H as H. discriminate H.
Qed.

(** C1, as the specification states it, fails: on the empty point set the
    run reports "no working days", not "no routes created". *)
Lemma empty_points_not_no_routes :
  optimize ([] : list (Point R)) 8%R 5 (Some 738000) 738000 = Failure no_working_days /\
  optimize ([] : list (Point R)) 8%R 5 (Some 738000) 738000 <> Failure no_routes_created.
Proof.
  rewrite optimize_empty. split; [reflexivity|].
  intros H. injection H as H. discriminate H.
Qed.

(** ** Two runs *)

Section DictRelation.
Context {K X Y : Type}.
Variable K_eq_dec : forall x y : K, {x = y} + {x <> y}.
Variable P : X -> Y -> Prop.

Local Abbreviation same_entries :=
  (Forall2 (fun (e1 : K * list X) (e2 : K * list Y) =>
              fst e1 = fst e2 /\ Forall2 P (snd e1) (snd e2))).

Lemma dict_get_rel (k : K) (d1 : list (K * list X)) (d2 : list (K * list Y)) :
  same_entries d1 d2 ->
  match dict_get K_eq_dec k d1, dict_get K_eq_dec k d2 with
  | Some l1, Some l2 => Forall2 P l1 l2
  | None, None => True
  | _, _ => False
  end.
Proof.
  induction 1 as [|[k1 l1] [k2 l2] d1 d2 [Hk Hl] _ IH]; [exact I|].
  cbn [fst snd] in Hk, Hl. subst k2. cbn [dict_get].
  destruct (K_eq_dec k k1); [exact Hl|exact IH].
Qed.

Lemma dict_set_rel (k : K) (l1 : list X) (l2 : list Y)
    (d1 : list (K * list X)) (d2 : list (K * list Y)) :
  Forall2 P l1 l2 -> same_entries d1 d2 ->
  same_entries (dict_set K_eq_dec k l1 d1) (dict_set K_eq_dec k l2 d2).
Proof.
  intros Hl. induction 1 as [|[k1 v1] [k2 v2] d1 d2 [Hk Hv] Hd IH].
  - constructor; [split; [reflexivity|exact Hl]|constructor].
  - cbn [fst snd] in Hk, Hv. subst k2. cbn [dict_set].
    destruct (K_eq_dec k k1).
    + constructor; [split; [reflexivity|exact Hl]|exact Hd].
    + constructor; [split; [reflexivity|exact Hv]|exact IH].
Qed.

Lemma dict_append_rel (k : K) (x : X) (y : Y)
    (d1 : list (K * list X)) (d2 : list (K * list Y)) :
  P x y -> same_entries d1 d2 ->
  same_entries (dict_append K_eq_dec k x d1) (dict_append K_eq_dec k y d2).
Proof.
  intros Hxy Hd. unfold dict_append.
  pose proof (dict_get_rel k d1 d2 Hd) as Hg.
  destruct (dict_get K_eq_dec k d1) as [l1|], (dict_get K_eq_dec k d2) as [l2|];
    try contradiction.
  - apply dict_set_rel; [|exact Hd].
    apply Forall2_app; [exact Hg|]. constructor; [exact Hxy|constructor].
  - apply dict_set_rel; [|exact Hd]. constructor; [exact Hxy|constructor].
Qed.
End DictRelation.

Lemma rr_fold_rel {X Y : Type} (P : X -> Y -> Prop) (wd : list Z) (D : nat)
    (es1 : list (nat * X)) (es2 : list (nat * Y)) :
  Forall2 (fun e1 e2 => fst e1 = fst e2 /\ P (snd e1) (snd e2)) es1 es2 ->
  forall (m1 : list (Z * list X)) (m2 : list (Z * list Y)),
    Forall2 (fun e1 e2 => fst e1 = fst e2 /\ Forall2 P (snd e1) (snd e2)) m1 m2 ->
    Forall2 (fun e1 e2 => fst e1 = fst e2 /\ Forall2 P (snd e1) (snd e2))
            (fold_left (rr_step wd D) es1 m1) (fold_left (rr_step wd D) es2 m2).
Proof.
  induction 1 as [|[i x] [j y] es1 es2 [Hi Hxy] _ IH]; intros m1 m2 Hm; [exact Hm|].
  cbn [fst snd] in Hi, Hxy. subst j. cbn [fold_left]. apply IH.
  unfold rr_step. now apply dict_append_rel.
Qed.

Lemma combine_seq_rel {X Y : Type} (P : X -> Y -> Prop) (l1 : list X) (l2 : list Y) :
  Forall2 P l1 l2 ->
  forall a, Forall2 (fun e1 e2 => fst e1 = fst e2 /\ P (snd e1) (snd e2))
                    (combine (seq a (length l1)) l1) (combine (seq a (length l2)) l2).
Proof.
  induction 1 as [|x y l1 l2 Hxy _ IH]; intros a; [constructor|].
  cbn [length seq combine]. constructor; [now split|apply IH].
Qed.

Section StoreFacts.
Context {F : Type} {FO : PyFloat F}.

Lemma nth_error_extend (l made : list (Point F)) (a : nat) (p : Point F) :
  nth_error l a = Some p -> nth_error (l ++ made) a = Some p.
Proof.
  intros H. rewrite nth_error_app1; [exact H|]. apply nth_error_Some. congruence.
Qed.

Lemma extends_made (d made : list (Point F)) (attr : list nat) :
  extends (mkStore d attr) (mkStore (d ++ made) attr).
Proof. split; [reflexivity|]. now exists made. Qed.

Lemma extends_trans (st1 st2 st3 : Store F) :
  extends st1 st2 -> extends st2 st3 -> extends st1 st3.
Proof.
  intros [A1 (m1 & E1)] [A2 (m2 & E2)]. split; [congruence|].
  exists (m1 ++ m2). rewrite E2, E1, app_assoc. reflexivity.
Qed.

(** What a reference leads to is not changed by new dictionaries. *)
Lemma points_to_extends (st st' : Store F) (l : list nat) (ps : list (Point F)) :
  extends st st' -> points_to st l ps -> points_to st' l ps.
Proof.
  intros [_ (made & E)] H. unfold points_to in *.
  eapply Forall2_impl; [|exact H]. intros a p Hap. cbn beta in *.
  rewrite E. now apply nth_error_extend.
Qed.

(** The new dictionaries, at their addresses. *)
Lemma points_to_made (d made : list (Point F)) (attr : list nat) :
  points_to (mkStore (d ++ made) attr) (seq (length d) (length made)) made.
Proof.
  unfold points_to. cbn [dicts]. revert d.
  induction made as [|p made IH]; intros d; [constructor|].
  cbn [length seq]. constructor.
  - rewrite nth_error_app2 by lia. now rewrite Nat.sub_diag.
  - replace (d ++ p :: made) with ((d ++ [p]) ++ made)
      by (rewrite <- app_assoc; reflexivity).
    replace (S (length d)) with (length (d ++ [p]))
      by (rewrite length_app; simpl; lia).
    apply IH.
Qed.

Lemma copy_times_ok (n a : nat) (p : Point F) (all_visits : list nat)
    (d : list (Point F)) (attr : list nat) :
  nth_error d a = Some p ->
  copy_times n a all_visits (mkStore d attr) =
  Some (all_visits ++ seq (length d) n, mkStore (d ++ repeat p n) attr).
Proof.
  revert all_visits d. induction n as [|n IH]; intros all_visits d H.
  - cbn. now rewrite !app_nil_r.
  - cbn [copy_times]. unfold copy_point. cbn [dicts attr_points]. rewrite H.
    rewrite (IH _ _ (nth_error_extend d [p] a p H)).
    rewrite length_app. cbn [length repeat seq].
    rewrite <- !app_assoc. cbn [app]. now rewrite Nat.add_1_r.
Qed.

Lemma copy_visits_ok (points : list nat) (ps : list (Point F)) :
  forall (all_visits : list nat) (d : list (Point F)) (attr : list nat),
    points_to (mkStore d attr) points ps ->
    copy_visits points all_visits (mkStore d attr) =
    Some (all_visits ++
          seq (length d)
              (length (flat_map (fun point => repeat point (Z.to_nat (frequency point)))
                                ps)),
          mkStore (d ++ flat_map (fun point => repeat point (Z.to_nat (frequency point))) ps)
                  attr).
Proof.
  revert points. induction ps as [|p ps IH]; intros points all_visits d attr H;
    inversion H as [|a ? rest ? Ha Hrest]; subst.
  - cbn. now rewrite !app_nil_r.
  - cbn [dicts] in Ha. cbn [copy_visits dicts]. rewrite Ha.
    rewrite (copy_times_ok _ a p all_visits d attr Ha).
    rewrite IH.
    + cbn [flat_map]. rewrite !length_app, repeat_length, seq_app.
      rewrite <- !app_assoc. reflexivity.
    + apply (points_to_extends (mkStore d attr)); [apply extends_made|exact Hrest].
Qed.

Lemma copy_each_ok (points : list nat) (ps : list (Point F)) :
  forall (d : list (Point F)) (attr : list nat),
    points_to (mkStore d attr) points ps ->
    copy_each points (mkStore d attr) =
    Some (seq (length d) (length ps), mkStore (d ++ ps) attr).
Proof.
  revert points. induction ps as [|p ps IH]; intros points d attr H;
    inversion H as [|a ? rest ? Ha Hrest]; subst.
  - cbn. now rewrite app_nil_r.
  - cbn [dicts] in Ha. cbn [copy_each]. unfold copy_point. cbn [dicts attr_points].
    rewrite Ha, IH.
    + rewrite length_app. cbn [length seq]. rewrite Nat.add_1_r, <- app_assoc.
      reflexivity.
    + apply (points_to_extends (mkStore d attr)); [apply extends_made|exact Hrest].
Qed.

(** The expansion on the store: the visits are new dictionaries, whose
    items are those of the expansion. *)
Lemma run_all_visits_ok (d : list (Point F)) (attr : list nat) (ps : list (Point F)) :
  points_to (mkStore d attr) attr ps ->
  run_all_visits (mkStore d attr) =
  Some (seq (length d) (length (all_visits ps)), mkStore (d ++ all_visits ps) attr).
Proof.
  intros H. unfold run_all_visits, all_visits. cbn [attr_points].
  rewrite (copy_visits_ok attr ps [] d attr H). cbn [app].
  destruct (flat_map (fun point => repeat point (Z.to_nat (frequency point))) ps)
    as [|v vs] eqn:E.
  - cbn [length seq attr_points]. rewrite app_nil_r. now apply copy_each_ok.
  - cbn [length seq]. reflexivity.
Qed.

Lemma read_points_ok (st : Store F) (l : list nat) (ps : list (Point F)) :
  points_to st l ps -> read_points st l = Some ps.
Proof.
  induction 1 as [|a p l ps Ha _ IH]; [reflexivity|].
  cbn [read_points]. now rewrite Ha, IH.
Qed.

Lemma read_days_ok (st : Store F) (m : list (Z * list nat))
    (days : list (Z * list (Point F))) :
  days_to st m days -> read_days st m = Some days.
Proof.
  induction 1 as [|[k l] [k' ps] m days [Hk Hl] _ IH]; [reflexivity|].
  cbn [fst snd] in Hk, Hl. subst k'. cbn [read_days].
  now rewrite (read_points_ok _ _ _ Hl), IH.
Qed.

Lemma run_distribute_ok (d : list (Point F)) (attr : list nat) (ps : list (Point F))
    (start_date : option Z) (now : Z) :
  points_to (mkStore d attr) attr ps ->
  exists m,
    run_distribute start_date now (mkStore d attr) =
    Some (m, mkStore (d ++ all_visits ps) attr) /\
    days_to (mkStore (d ++ all_visits ps) attr) m
            (distribute_visits_by_quarter ps start_date now).
Proof.
  intros H. unfold run_distribute, distribute_visits_by_quarter. cbv zeta.
  rewrite (run_all_visits_ok d attr ps H).
  generalize (quarter_days (match start_date with Some s => s | None => now end)).
  intros wd. destruct (length wd) as [|n] eqn:E.
  - exists []. split; [reflexivity|constructor].
  - eexists. split; [reflexivity|].
    apply (rr_fold_rel (fun a p => nth_error (d ++ all_visits ps) a = Some p)
                       wd (S n)); [|constructor].
    unfold enumerate.
    apply (combine_seq_rel (fun a p => nth_error (d ++ all_visits ps) a = Some p)).
    apply (points_to_made d (all_visits ps) attr).
Qed.

(** A run on the store returns what [optimize] returns on the items of
    the object's dictionaries, and only adds the copies of the visits to
    the store. *)
Lemma run_optimize_ok (d : list (Point F)) (attr : list nat) (ps : list (Point F))
    (h : F) (c : Z) (start_date : option Z) (now : Z) :
  points_to (mkStore d attr) attr ps ->
  run_optimize h c start_date now (mkStore d attr) =
  Some (optimize ps h c start_date now, mkStore (d ++ all_visits ps) attr).
Proof.
  intros H. unfold run_optimize, optimize. cbv zeta.
  destruct (run_distribute_ok d attr ps
              (Some (match start_date with Some s => s | None => now end)) now H)
    as (m & E & Hm).
  rewrite E, (read_days_ok _ _ _ Hm).
  destruct (distribute_visits_by_quarter ps _ now) as [|e days]; [reflexivity|].
  destruct (fold_left (day_step h) (e :: days) []) as [|r rs]; [reflexivity|].
  destruct (assign_routes_to_employees (r :: rs) c) as [final_routes n].
  reflexivity.
Qed.

(** With a start date given, the clock is not read. *)
Lemma optimize_clock_free (ps : list (Point F)) (h : F) (c : Z) (start now1 now2 : Z) :
  optimize ps h c (Some start) now1 = optimize ps h c (Some start) now2.
Proof.
  unfold optimize. cbv zeta.
  now rewrite (distribute_clock_free ps start now1 now2).
Qed.
End StoreFacts.

(** C8: two runs on the same object with the same parameters and an
    explicit start date, made at any two moments, return the same result
    (the same routes in the same order with the same stops and the same
    employees).  A run only adds dictionaries to the store, the copies it
    makes of the points: after both runs the attribute [self.points] and
    the dictionaries it refers to are as they were. *)
Theorem optimize_deterministic {F : Type} {FO : PyFloat F} (st : Store F)
    (ps : list (Point F)) (max_hours_per_day : F) (max_days_per_week : Z)
    (start : Z) (now1 now2 : Z) :
  points_to st (attr_points st) ps ->
  exists result st1 st2,
    run_optimize max_hours_per_day max_days_per_week (Some start) now1 st =
    Some (result, st1) /\
    run_optimize max_hours_per_day max_days_per_week (Some start) now2 st1 =
    Some (result, st2) /\
    extends st st1 /\ extends st st2 /\
    points_to st2 (attr_points st2) ps.
Proof.
  destruct st as [d attr]. cbn [attr_points]. intros H.
  assert (H1 : points_to (mkStore (d ++ all_visits ps) attr) attr ps)
    by (apply (points_to_extends (mkStore d attr)); [apply extends_made|exact H]).
  exists (optimize ps max_hours_per_day max_days_per_week (Some start) now1),
    (mkStore (d ++ all_visits ps) attr),
    (mkStore ((d ++ all_visits ps) ++ all_visits ps) attr).
  split; [now apply run_optimize_ok|]. split.
  - rewrite (run_optimize_ok _ attr ps _ _ _ _ H1).
    now rewrite (optimize_clock_free ps _ _ start now1 now2).
  - split; [apply extends_made|]. split.
    + apply (extends_trans _ (mkStore (d ++ all_visits ps) attr)); apply extends_made.
    + cbn [attr_points].
      apply (points_to_extends (mkStore (d ++ all_visits ps) attr));
        [apply extends_made|exact H1].
Qed.

Lemma optimize_deterministic_witness :
  exists result st1 st2,
    run_optimize 2%R 5 (Some 738000) 738000 sample_store = Some (result, st1) /\
    run_optimize 2%R 5 (Some 738000) 738001 st1 = Some (result, st2).
Proof.
  destruct (optimize_deterministic sample_store scenario_A_points 2%R 5
              738000 738000 738001) as (r & st1 & st2 & H1 & H2 & _).
  - repeat constructor.
  - now exists r, st1, st2.
Defined.

(** Without a start date the result depends on the clock: the echoed
    start differs. *)
Lemma optimize_reads_clock {F : Type} {FO : PyFloat F} (self_points : list (Point F))
    (max_hours_per_day : F) (max_days_per_week : Z) (now1 now2 : Z) :
  self_points <> [] -> now1 <> now2 ->
  optimize self_points max_hours_per_day max_days_per_week None now1 <>
  optimize self_points max_hours_per_day max_days_per_week None now2.
Proof.
  intros Hne Hnow.
  destruct (optimize_success self_points max_hours_per_day max_days_per_week
              None now1 Hne) as (s1 & r1 & e1 & H1).
  destruct (optimize_success self_points max_hours_per_day max_days_per_week
              None now2 Hne) as (s2 & r2 & e2 & H2).
  rewrite H1, H2. intros H.
  apply (f_equal (fun result => match result with
                                | Success (_, _, start) _ _ _ => start
                                | Failure _ => 0
                                end)) in H.
  now apply Hnow.
Qed.


(** Scenario D: ten single-route days and a cap of five need exactly two
    employees. *)
Lemma scenario_D_two_employees :
  snd (assign_routes_to_employees sample_routes 5) = 2%nat.
Proof. reflexivity. Qed.

(** ** Route ordering *)

Section TspFacts.
Context {F : Type} {FO : PyFloat F}.

Lemma argmin_index_bound (key : nat -> F) (n : nat) :
  (0 < n)%nat -> (argmin_index key n < n)%nat.
Proof.
  intros Hn. unfold argmin_index.
  assert (H : forall l best,
            (best < n)%nat -> Forall (fun i => (i < n)%nat) l ->
            (fold_left (fun best i => if flt (key i) (key best) then i else best)
                       l best < n)%nat).
  { induction l as [|i l IH]; intros best Hb Hl; simpl; [exact Hb|].
    inversion Hl as [|? ? Hi Hl']; subst.
    apply IH; [|exact Hl']. now destruct (flt (key i) (key best)). }
  apply H; [exact Hn|]. apply Forall_forall. intros i Hi. apply in_seq in Hi. lia.
Qed.

Lemma list_pop_perm {A : Type} (i : nat) (l : list A) (d : A) :
  (i < length l)%nat -> Permutation (nth i l d :: list_pop i l) l.
Proof.
  revert i. induction l as [|x l IH]; intros [|i] H; simpl in *; try lia.
  - unfold list_pop. simpl. apply Permutation_refl.
  - unfold list_pop in *. simpl.
    rewrite perm_swap. constructor. apply IH. lia.
Qed.

Lemma list_pop_length {A : Type} (i : nat) (l : list A) :
  (i < length l)%nat -> length (list_pop i l) = (length l - 1)%nat.
Proof.
  intros H. unfold list_pop. rewrite length_app, length_firstn, length_skipn. lia.
Qed.

(** The loop places every unvisited point: [length unvisited] turns are
    enough. *)
Lemma tsp_loop_perm (fuel : nat) (route unvisited : list (Point F)) :
  (length unvisited <= fuel)%nat ->
  Permutation (tsp_loop fuel route unvisited) (route ++ unvisited).
Proof.
  revert route unvisited. induction fuel as [|fuel IH]; intros route unvisited H.
  - destruct unvisited; [|simpl in H; lia]. simpl. now rewrite app_nil_r.
  - destruct unvisited as [|u0 rest]; [simpl; now rewrite app_nil_r|].
    cbn [tsp_loop]. cbv zeta.
    set (i := argmin_index _ _).
    assert (Hi : (i < length (u0 :: rest))%nat)
      by (apply argmin_index_bound; simpl; lia).
    rewrite IH by (rewrite list_pop_length by exact Hi; simpl in *; lia).
    rewrite <- app_assoc. apply Permutation_app_head.
    exact (list_pop_perm i (u0 :: rest) u0 Hi).
Qed.

(** [solve_tsp] returns all the points of the cluster, each once. *)
Lemma solve_tsp_perm (cluster : list (Point F)) :
  Permutation (solve_tsp cluster) cluster.
Proof.
  unfold solve_tsp. destruct cluster as [|p0 [|p1 rest]]; try apply Permutation_refl.
  rewrite tsp_loop_perm by lia. apply Permutation_refl.
Qed.

Lemma tsp_loop_head (fuel : nat) (p0 : Point F) (route unvisited : list (Point F)) :
  hd_error (tsp_loop fuel (p0 :: route) unvisited) = Some p0.
Proof.
  revert route unvisited. induction fuel as [|fuel IH]; intros route unvisited;
    [reflexivity|].
  destruct unvisited as [|u0 rest]; [reflexivity|].
  cbn [tsp_loop]. cbv zeta. rewrite <- app_comm_cons. apply IH.
Qed.

(** The route starts at the first point of the cluster. *)
Lemma solve_tsp_head (cluster : list (Point F)) :
  hd_error (solve_tsp cluster) = hd_error cluster.
Proof.
  unfold solve_tsp. destruct cluster as [|p0 [|p1 rest]]; try reflexivity.
  apply tsp_loop_head.
Qed.

(** X2: the stops of the routes of a day are the visits of the day, each
    as often as the day holds it. *)
Lemma optimize_routes_partition (day_points : list (Point F)) (max_hours : F)
    (employee_id : Z) :
  Permutation
    (concat (map points (optimize_routes_for_day day_points max_hours employee_id)))
    day_points.
Proof.
  rewrite optimize_routes_points.
  transitivity (concat (cluster_points_by_time day_points max_hours)).
  - generalize (cluster_points_by_time day_points max_hours). intros cs.
    induction cs as [|c cs IH]; simpl; [constructor|].
    apply Permutation_app; [apply solve_tsp_perm|exact IH].
  - rewrite cluster_points_concat. apply points_sorted_perm.
Qed.
End TspFacts.

(** The index chosen by [min(range(n), key=...)], in exact arithmetic. *)
Lemma argmin_index_least (key : nat -> R) (n : nat) :
  (0 < n)%nat ->
  (forall j, (j < n)%nat -> (key (argmin_index key n) <= key j)%R) /\
  (forall j, (j < argmin_index key n)%nat -> (key (argmin_index key n) < key j)%R).
Proof.
  intros Hn. unfold argmin_index.
  assert (H : forall m k b,
            (b <= k)%nat ->
            (forall j, (j <= k)%nat -> (key b <= key j)%R) ->
            (forall j, (j < b)%nat -> (key b < key j)%R) ->
            let b' := fold_left (fun best i => if flt (key i) (key best) then i else best)
                                (seq (S k) m) b in
            (b' <= k + m)%nat /\
            (forall j, (j <= k + m)%nat -> (key b' <= key j)%R) /\
            (forall j, (j < b')%nat -> (key b' < key j)%R)).
  { induction m as [|m IH]; intros k b Hb Hmin Hfirst.
    - simpl. rewrite Nat.add_0_r. auto.
    - cbn [seq fold_left]. cbv zeta.
      replace (k + S m)%nat with (S k + m)%nat by lia.
      change (flt (key (S k)) (key b)) with (R_ltb (key (S k)) (key b)).
      destruct (R_ltb (key (S k)) (key b)) eqn:E.
      + apply R_ltb_true in E. apply IH; [lia| |].
        * intros j Hj. destruct (Nat.eq_dec j (S k)) as [->|Hne]; [lra|].
          specialize (Hmin j ltac:(lia)). lra.
        * intros j Hj. specialize (Hmin j ltac:(lia)). lra.
      + assert (E' : (key b <= key (S k))%R).
        { destruct (Rlt_dec (key (S k)) (key b)) as [Hlt|Hge]; [|lra].
          apply R_ltb_true in Hlt. congruence. }
        apply IH; [lia| |exact Hfirst].
        intros j Hj. destruct (Nat.eq_dec j (S k)) as [->|Hne]; [exact E'|].
        apply Hmin. lia. }
  destruct (H (n - 1)%nat 0%nat 0%nat (le_n 0)) as (_ & Hmin & Hfirst).
  - intros j Hj. replace j with 0%nat by lia. lra.
  - intros j Hj. lia.
  - split; [|exact Hfirst]. intros j Hj. apply Hmin. lia.
Qed.

(** X4: the tie-break of [min(range(n), key=...)], in exact arithmetic: the
    index returned has the least key, and every earlier index has a
    strictly larger key, so among equal keys the first one wins. *)
Theorem argmin_index_first (key : nat -> R) (n : nat) :
  (0 < n)%nat ->
  (forall j, (j < n)%nat -> (key (argmin_index key n) <= key j)%R) /\
  (forall j, (j < argmin_index key n)%nat -> (key (argmin_index key n) < key j)%R).
Proof. apply argmin_index_least. Qed.

(** X1: the failures a run returns. A run that returns a failure was given
    no point, and the failure is "no working days": the "no routes
    created" failure is never returned.  This is a property of the
    results that are returned: a run that raises returns none. *)
Theorem optimize_outcome {F : Type} {FO : PyFloat F} (self_points : list (Point F))
    (max_hours_per_day : F) (max_days_per_week : Z) (start_date : option Z) (now : Z)
    (error : string) :
  optimize self_points max_hours_per_day max_days_per_week start_date now =
  Failure error ->
  self_points = [] /\ error = no_working_days.
Proof.
  intros H. destruct self_points as [|p l].
  - rewrite optimize_empty in H. injection H as <-. now split.
  - destruct (optimize_success (p :: l) max_hours_per_day max_days_per_week
                start_date now) as (s & r & e & E); [discriminate|].
    rewrite E in H. discriminate H.
Qed.

Lemma optimize_outcome_witness :
  @optimize float PyFloat_standin [] 8%float 5 None 738000 = Failure no_working_days /\
  (@nil (Point float) = [] /\ no_working_days = no_working_days).
Proof.
  assert (H : @optimize float PyFloat_standin [] 8%float 5 None 738000 =
              Failure no_working_days) by apply optimize_empty.
  split; [exact H|]. exact (optimize_outcome _ _ _ _ _ _ H).
Defined.


Lemma hourly_clusters_binary64_witness :
  @cluster_points_by_time float PyFloat_standin
     [float_point 1 0 0; float_point 2 0 1; float_point 3 1 0] 2%float =
  map (fun p => [p])
      (@points_sorted float PyFloat_standin
         [float_point 1 0 0; float_point 2 0 1; float_point 3 1 0]).
Proof.
  unfold PyFloat_standin. apply hourly_clusters_binary64.
  repeat constructor.
Defined.

Lemma argmin_index_first_witness :
  (INR (argmin_index INR 3) <= INR 2)%R.
Proof.
  destruct (argmin_index_first INR 3) as [H _]; [lia|]. apply H. lia.
Defined.

(** ** The working calendar, in full *)

Lemma quarter_days_in_iff (start d : Z) :
  In d (quarter_days start) <-> start <= d < start + 90 /\ weekday d < 5.
Proof.
  rewrite quarter_days_filter, in_map_iff. split.
  - intros (i & <- & Hi). apply filter_In in Hi. destruct Hi as [Hi Hw].
    apply in_seq in Hi. apply Z.ltb_lt in Hw. split; [lia|exact Hw].
  - intros [Hd Hw]. exists (Z.to_nat (d - start)).
    assert (E : start + Z.of_nat (Z.to_nat (d - start)) = d) by lia.
    split; [exact E|]. apply filter_In. split; [apply in_seq; lia|].
    rewrite E. now apply Z.ltb_lt.
Qed.

Lemma sorted_map_filter (start : Z) (P : nat -> bool) (l : list nat) :
  StronglySorted lt l ->
  StronglySorted Z.lt (map (fun i => start + Z.of_nat i) (filter P l)).
Proof.
  induction 1 as [|i l Hl IH Hi]; simpl; [constructor|].
  destruct (P i); [|exact IH]. simpl. constructor; [exact IH|].
  apply Forall_forall. intros d Hd. apply in_map_iff in Hd.
  destruct Hd as (j & <- & Hj). apply filter_In in Hj. destruct Hj as [Hj _].
  rewrite Forall_forall in Hi. specialize (Hi j Hj). lia.
Qed.

Lemma seq_strongly_sorted (a n : nat) : StronglySorted lt (seq a n).
Proof.
  revert a. induction n as [|n IH]; intros a; simpl; constructor; [apply IH|].
  apply Forall_forall. intros j Hj. apply in_seq in Hj. lia.
Qed.

Lemma quarter_days_sorted (start : Z) : StronglySorted Z.lt (quarter_days start).
Proof.
  rewrite quarter_days_filter. apply sorted_map_filter, seq_strongly_sorted.
Qed.

Lemma weekday_shift (start : Z) (i : nat) :
  weekday (start + Z.of_nat i) = (weekday start + Z.of_nat i) mod 7.
Proof.
  unfold weekday. rewrite Z.add_mod_idemp_l by lia. f_equal. lia.
Qed.

Lemma quarter_days_length (start : Z) :
  length (quarter_days start) =
  if (weekday start =? 0) || (weekday start =? 6) then 65%nat else 64%nat.
Proof.
  rewrite quarter_days_filter, length_map.
  rewrite (filter_ext _ (fun i => (weekday start + Z.of_nat i) mod 7 <? 5))
    by (intros i; now rewrite weekday_shift).
  assert (Hw : 0 <= weekday start < 7) by (unfold weekday; apply Z.mod_pos_bound; lia).
  remember (weekday start) as w eqn:Ew. clear Ew.
  assert (Hc : w = 0 \/ w = 1 \/ w = 2 \/ w = 3 \/ w = 4 \/ w = 5 \/ w = 6) by lia.
  destruct Hc as [->|[->|[->|[->|[->|[->| ->]]]]]]; vm_compute; reflexivity.
Qed.

(** X8: the working calendar of a run. A day is a working day exactly when
    it lies among the 90 days from the start and is not a Saturday or a
    Sunday; the working days are listed in ascending order, without
    repeats; and there are 65 of them when the start is a Monday or a
    Sunday, 64 otherwise. *)
Theorem working_calendar (start : Z) :
  (forall d, In d (quarter_days start) <->
             start <= d < start + 90 /\ weekday d < 5) /\
  StronglySorted Z.lt (quarter_days start) /\
  NoDup (quarter_days start) /\
  length (quarter_days start) =
  (if (weekday start =? 0) || (weekday start =? 6) then 65%nat else 64%nat).
Proof.
  split; [intros d; apply quarter_days_in_iff|].
  split; [apply quarter_days_sorted|].
  split; [apply quarter_days_NoDup|apply quarter_days_length].
Qed.

(** ** The days of the mapping *)

Lemma combine_seq_snoc {A : Type} (l : list A) (x : A) (a : nat) :
  combine (seq a (length (l ++ [x]))) (l ++ [x]) =
  combine (seq a (length l)) l ++ [((a + length l)%nat, x)].
Proof.
  revert a. induction l as [|y l IH]; intros a; simpl.
  - rewrite Nat.add_0_r. reflexivity.
  - rewrite IH, Nat.add_succ_r. reflexivity.
Qed.

Lemma enumerate_snoc {A : Type} (l : list A) (x : A) :
  enumerate (l ++ [x]) = enumerate l ++ [(length l, x)].
Proof. unfold enumerate. exact (combine_seq_snoc l x 0). Qed.

Lemma strongly_sorted_prefix {A : Type} (R : A -> A -> Prop) (l1 l2 : list A) :
  StronglySorted R (l1 ++ l2) -> StronglySorted R l1.
Proof.
  induction l1 as [|x l1 IH]; simpl; intros H; [constructor|].
  inversion H as [|? ? Hs Hf]; subst. constructor; [now apply IH|].
  apply Forall_app in Hf. tauto.
Qed.

Lemma firstn_snoc_nth {A : Type} (l : list A) (n : nat) (d : A) :
  (n < length l)%nat -> firstn (S n) l = firstn n l ++ [nth n l d].
Proof.
  revert n. induction l as [|x l IH]; intros [|n] H; simpl in *; try lia.
  - destruct l; reflexivity.
  - rewrite <- IH by lia. reflexivity.
Qed.

Section MappingDays.
Context {A : Type}.
Variable wd : list Z.
Variable D : nat.
Hypothesis D_length : D = length wd.
Hypothesis D_pos : (0 < D)%nat.
Hypothesis wd_NoDup : NoDup wd.

Lemma nth_not_in_firstn (n : nat) :
  (n < length wd)%nat -> ~ In (nth n wd 0) (firstn n wd).
Proof.
  intros Hn Hin. destruct (In_nth _ _ 0 Hin) as (j & Hj & Hnth).
  rewrite length_firstn in Hj.
  rewrite nth_firstn in Hnth.
  destruct (Nat.ltb_spec j n) as [Hlt|Hge]; [|lia].
  apply (proj1 (NoDup_nth wd 0) wd_NoDup) in Hnth; lia.
Qed.

(** The keys after the visits [l]: the first [length l] working days. *)
Lemma rr_keys (l : list A) :
  dict_keys (fold_left (rr_step wd D) (enumerate l) []) = firstn (length l) wd.
Proof.
  induction l as [|x l IH] using rev_ind; [reflexivity|].
  rewrite enumerate_snoc, fold_left_app. cbn [fold_left]. unfold rr_step at 1.
  cbv zeta. rewrite dict_keys_append, IH, length_app. simpl length.
  rewrite Nat.add_1_r.
  destruct (Nat.lt_ge_cases (length l) D) as [Hlt|Hge].
  - rewrite Nat.mod_small by exact Hlt.
    assert (Hnone : dict_get Z.eq_dec (nth (length l) wd 0)
                      (fold_left (rr_step wd D) (enumerate l) []) = None).
    { apply dict_get_none. rewrite IH. apply nth_not_in_firstn. lia. }
    rewrite Hnone. symmetry. apply firstn_snoc_nth. lia.
  - rewrite !firstn_all2 by lia.
    destruct (dict_get Z.eq_dec _ _) eqn:E; [reflexivity|].
    exfalso. apply dict_get_none in E. apply E. rewrite IH.
    rewrite firstn_all2 by lia. apply nth_In. rewrite <- D_length.
    apply Nat.mod_upper_bound. lia.
Qed.
End MappingDays.

(** X9: the days of the mapping returned by
    [distribute_visits_by_quarter] are the first working days of the
    horizon, one per visit until the working days run out, in ascending
    order; so every key is a weekday among the 90 days from the start. *)
Theorem distribute_days {F : Type} (self_points : list (Point F))
    (start_date : option Z) (now : Z) :
  dict_keys (distribute_visits_by_quarter self_points start_date now) =
  firstn (length (all_visits self_points)) (working_days start_date now) /\
  StronglySorted Z.lt
    (dict_keys (distribute_visits_by_quarter self_points start_date now)) /\
  Forall (fun d => horizon_start start_date now <= d < horizon_start start_date now + 90
                   /\ weekday d < 5)
         (dict_keys (distribute_visits_by_quarter self_points start_date now)).
Proof.
  assert (E : dict_keys (distribute_visits_by_quarter self_points start_date now) =
              firstn (length (all_visits self_points)) (working_days start_date now)).
  { rewrite distribute_loop.
    apply (rr_keys (working_days start_date now) _ eq_refl
                   (working_days_pos start_date now)
                   (working_days_NoDup start_date now)). }
  split; [exact E|]. rewrite E. split.
  - assert (Hs : StronglySorted Z.lt (working_days start_date now))
      by (unfold working_days; apply quarter_days_sorted).
    rewrite <- (firstn_skipn (length (all_visits self_points))
                  (working_days start_date now)) in Hs.
    now apply strongly_sorted_prefix in Hs.
  - apply Forall_forall. intros d Hd.
    assert (Hin : In d (working_days start_date now)).
    { rewrite <- (firstn_skipn (length (all_visits self_points))).
      apply in_or_app. now left. }
    unfold working_days in Hin. now apply quarter_days_in_iff.
Qed.

(** ** The comparison of binary64 floats *)

(** [<] on floats is irreflexive and transitive, NaN included.  The two
    facts are all that the properties of [sorted] and [min] below
    need. *)

Lemma SFcompare_refl (x : spec_float) : SFcompare x x <> Some Lt.
Proof.
  destruct x as [s|s| |s m e]; simpl; try discriminate.
  - destruct s; discriminate.
  - rewrite Z.compare_refl.
    assert (H : Pos.compare_cont Eq m m = Eq) by apply Pos.compare_refl.
    destruct s; rewrite H; discriminate.
Qed.

Lemma pos_cont_lt (a b : positive) : Pos.compare_cont Eq a b = Lt <-> (a < b)%positive.
Proof. reflexivity. Qed.

Lemma pos_cont_gt (a b : positive) : Pos.compare_cont Eq a b = Gt <-> (b < a)%positive.
Proof. fold (Pos.compare a b). rewrite Pos.compare_gt_iff. reflexivity. Qed.

Lemma SFcompare_trans (x y z : spec_float) :
  SFcompare x y = Some Lt -> SFcompare y z = Some Lt -> SFcompare x z = Some Lt.
Proof.
  destruct x as [sx|sx| |sx mx ex], y as [sy|sy| |sy my ey], z as [sz|sz| |sz mz ez];
    simpl; try discriminate;
    try destruct sx; try destruct sy; try destruct sz;
    intros H1 H2; try discriminate H1; try discriminate H2; try reflexivity.
  - (* three negative numbers *)
    destruct (ex ?= ey) eqn:A; try discriminate H1;
      destruct (ey ?= ez) eqn:B; try discriminate H2.
    + apply Z.compare_eq_iff in A. apply Z.compare_eq_iff in B. subst.
      rewrite Z.compare_refl. f_equal.
      injection H1 as H1. injection H2 as H2.
      destruct (Pos.compare_cont Eq mx my) eqn:E1; try discriminate.
      destruct (Pos.compare_cont Eq my mz) eqn:E2; try discriminate.
      apply pos_cont_gt in E1. apply pos_cont_gt in E2.
      assert (E : Pos.compare_cont Eq mx mz = Gt)
        by (apply pos_cont_gt; exact (Pos.lt_trans _ _ _ E2 E1)).
      now rewrite E.
    + apply Z.compare_eq_iff in A. subst. now rewrite B.
    + apply Z.compare_eq_iff in B. subst. now rewrite A.
    + assert (E : (ex ?= ez) = Gt).
      { apply Z.compare_gt_iff. apply Z.compare_gt_iff in A.
        apply Z.compare_gt_iff in B. lia. }
      now rewrite E.
  - (* three positive numbers *)
    destruct (ex ?= ey) eqn:A; try discriminate H1;
      destruct (ey ?= ez) eqn:B; try discriminate H2.
    + apply Z.compare_eq_iff in A. apply Z.compare_eq_iff in B. subst.
      rewrite Z.compare_refl. f_equal.
      injection H1 as H1. injection H2 as H2.
      apply pos_cont_lt in H1. apply pos_cont_lt in H2.
      apply pos_cont_lt. exact (Pos.lt_trans _ _ _ H1 H2).
    + apply Z.compare_eq_iff in A. subst. now rewrite B.
    + apply Z.compare_eq_iff in B. subst. now rewrite A.
    + assert (E : (ex ?= ez) = Lt).
      { change (ex < ey) in A. change (ey < ez) in B. change (ex < ez). lia. }
      now rewrite E.
Qed.

Lemma float_ltb_irrefl (x : float) : PrimFloat.ltb x x = false.
Proof.
  rewrite ltb_spec. unfold SFltb.
  pose proof (SFcompare_refl (Prim2SF x)) as H.
  destruct (SFcompare (Prim2SF x) (Prim2SF x)) as [[| |]|]; congruence.
Qed.

Lemma float_ltb_trans (x y z : float) :
  PrimFloat.ltb x y = true -> PrimFloat.ltb y z = true -> PrimFloat.ltb x z = true.
Proof.
  rewrite !ltb_spec. unfold SFltb. intros H1 H2.
  assert (E1 : SFcompare (Prim2SF x) (Prim2SF y) = Some Lt).
  { destruct (SFcompare (Prim2SF x) (Prim2SF y)) as [[| |]|]; congruence. }
  assert (E2 : SFcompare (Prim2SF y) (Prim2SF z) = Some Lt).
  { destruct (SFcompare (Prim2SF y) (Prim2SF z)) as [[| |]|]; congruence. }
  now rewrite (SFcompare_trans _ _ _ E1 E2).
Qed.

(** ** Order and greed of the clusterer *)

Section SortFacts.
Context {A : Type}.
Variable lt : A -> A -> bool.

(** A list already in order is returned as it is: every element is
    compared with the head of what follows it, and stays in front. *)
Lemma py_sorted_fixed (l : list A) : ascending lt l -> py_sorted lt l = l.
Proof.
  induction l as [|x l IH]; intros H; [reflexivity|].
  cbn [py_sorted fold_right]. fold (py_sorted lt l).
  destruct l as [|y l]; [reflexivity|].
  unfold ascending in H. cbn [consecutive_pairs tl combine] in H.
  apply Forall_cons_iff in H. destruct H as [Hxy H].
  rewrite (IH H). cbn [insert_sorted]. cbn [fst snd] in Hxy. now rewrite Hxy.
Qed.

Hypothesis lt_irrefl : forall x, lt x x = false.
Hypothesis lt_trans : forall x y z, lt x y = true -> lt y z = true -> lt x z = true.

Lemma lt_asym (x y : A) : lt x y = true -> lt y x = false.
Proof.
  intros H. destruct (lt y x) eqn:E; [|reflexivity].
  rewrite <- (lt_irrefl x). symmetry. now apply (lt_trans x y x).
Qed.

Lemma insert_sorted_ascending (x : A) (l : list A) :
  ascending lt l -> ascending lt (insert_sorted lt x l).
Proof.
  unfold ascending. induction l as [|y l IH]; intros H; [constructor|].
  cbn [insert_sorted]. destruct (lt y x) eqn:E.
  - assert (Ht : Forall (fun pq => lt (snd pq) (fst pq) = false)
                        (consecutive_pairs (insert_sorted lt x l))).
    { apply IH. destruct l; [constructor|].
      cbn [consecutive_pairs tl combine] in H. now apply Forall_cons_iff in H. }
    destruct l as [|z l].
    + cbn. constructor; [|constructor]. cbn [fst snd]. now apply lt_asym.
    + cbn [insert_sorted] in *. cbn [consecutive_pairs tl combine] in H.
      apply Forall_cons_iff in H. destruct H as [Hyz _].
      destruct (lt z x).
      * cbn [consecutive_pairs tl combine]. constructor; [exact Hyz|exact Ht].
      * cbn [consecutive_pairs tl combine]. constructor; [|exact Ht].
        cbn [fst snd]. now apply lt_asym.
  - cbn [consecutive_pairs tl combine]. constructor; [exact E|exact H].
Qed.

Lemma py_sorted_ascending (l : list A) : ascending lt (py_sorted lt l).
Proof.
  induction l as [|x l IH]; [constructor|].
  cbn [py_sorted fold_right]. now apply insert_sorted_ascending.
Qed.
End SortFacts.

Section GreedyFacts.
Context {F : Type} {FO : PyFloat F}.

Lemma greedy_chain_snoc_new (limit : F) (cs : list (list (Point F)))
    (cur : list (Point F)) (t : F) (p : Point F) :
  greedy_chain limit (cs ++ [cur]) ->
  accumulated cur t ->
  fgt (fadd t (duration p)) limit = true ->
  greedy_chain limit ((cs ++ [cur]) ++ [[p]]).
Proof.
  intros Hc Ht Hover pre c c2 post E.
  destruct post as [|y post] using rev_ind.
  - replace (pre ++ [c; c2]) with ((pre ++ [c]) ++ [c2]) in E
      by (rewrite <- app_assoc; reflexivity).
    apply app_inj_tail in E. destruct E as [E <-].
    apply app_inj_tail in E. destruct E as [_ <-].
    now exists p, [], t.
  - clear IHpost.
    replace (pre ++ c :: c2 :: post ++ [y]) with ((pre ++ c :: c2 :: post) ++ [y]) in E
      by (rewrite <- app_assoc; reflexivity).
    apply app_inj_tail in E. destruct E as [E _].
    now apply (Hc pre c c2 post).
Qed.

Lemma greedy_chain_grow (limit : F) (cs : list (list (Point F)))
    (q : Point F) (cur : list (Point F)) (p : Point F) :
  greedy_chain limit (cs ++ [q :: cur]) ->
  greedy_chain limit (cs ++ [(q :: cur) ++ [p]]).
Proof.
  intros Hc pre c c2 post E.
  destruct post as [|y post] using rev_ind.
  - replace (pre ++ [c; c2]) with ((pre ++ [c]) ++ [c2]) in E
      by (rewrite <- app_assoc; reflexivity).
    apply app_inj_tail in E. destruct E as [-> <-].
    destruct (Hc pre c (q :: cur) []) as (p0 & rest & t0 & Ep & Ht0 & Hf).
    { rewrite <- app_assoc. reflexivity. }
    injection Ep as <- <-. now exists q, (cur ++ [p]), t0.
  - clear IHpost.
    replace (pre ++ c :: c2 :: post ++ [y]) with ((pre ++ c :: c2 :: post) ++ [y]) in E
      by (rewrite <- app_assoc; reflexivity).
    apply app_inj_tail in E. destruct E as [-> _].
    apply (Hc pre c c2 (post ++ [q :: cur])).
    rewrite <- app_assoc. reflexivity.
Qed.

Lemma greedy_step_inv (m : F) (st : cluster_state) (p : Point F) :
  greedy_inv (fmul m lit_0_8) st -> greedy_inv (fmul m lit_0_8) (cluster_step m st p).
Proof.
  destruct st as [[clusters cur] t]. intros (Ht & Hempty & Hc).
  unfold cluster_step.
  destruct (fgt (fadd t (duration p)) (fmul m lit_0_8)) eqn:E.
  - split; [apply accumulated_single|].
    split; [discriminate|].
    destruct cur as [|q cur].
    + rewrite (Hempty eq_refl). simpl. intros pre c c2 post Epre.
      destruct pre as [|? [|? ?]]; discriminate Epre.
    + simpl close_cluster in *. now apply (greedy_chain_snoc_new _ _ _ t).
  - split; [now apply accumulated_snoc|].
    split; [intros H; now destruct cur|].
    destruct cur as [|q cur].
    + rewrite (Hempty eq_refl). simpl. intros pre c c2 post Epre.
      destruct pre as [|? [|? ?]]; discriminate Epre.
    + simpl close_cluster in *. now apply greedy_chain_grow.
Qed.

Lemma greedy_loop_inv (m : F) (l : list (Point F)) (st : cluster_state) :
  greedy_inv (fmul m lit_0_8) st ->
  greedy_inv (fmul m lit_0_8) (fold_left (cluster_step m) l st).
Proof.
  revert st. induction l as [|p l IH]; intros st H; simpl; [exact H|].
  apply IH, greedy_step_inv, H.
Qed.

Lemma cluster_points_greedy (points : list (Point F)) (max_hours : F) :
  greedy_chain (threshold max_hours) (cluster_points_by_time points max_hours).
Proof.
  unfold cluster_points_by_time, threshold. destruct points as [|p0 points].
  - intros pre c c2 post E. destruct pre; discriminate E.
  - set (l := points_sorted (p0 :: points)). cbv zeta.
    pose proof (greedy_loop_inv (fmul max_hours (of_int 60)) l ([], [], of_int 0)) as H.
    destruct (fold_left _ l _) as [[clusters cur] t].
    apply H. split; [apply accumulated_nil|]. split; [reflexivity|].
    intros pre c c2 post E. destruct pre; discriminate E.
Qed.
End GreedyFacts.

Lemma consecutive_pairs_split {A : Type} (l : list A) (x y : A) :
  In (x, y) (consecutive_pairs l) -> exists pre post, l = pre ++ x :: y :: post.
Proof.
  unfold consecutive_pairs. induction l as [|a l IH]; simpl; [intros []|].
  destruct l as [|b l]; [intros []|]. simpl. intros [[= -> ->]|H].
  - now exists [], l.
  - destruct (IH H) as (pre & post & E). exists (a :: pre), post.
    simpl. now rewrite E.
Qed.

(** X11: the clusterer is greedy, for any arithmetic, so for the floats
    of the code. For every two consecutive clusters, the first point of
    the second one did not fit into the first: the running total of the
    first cluster plus that point's duration, as the loop computed them,
    is above the threshold [max_hours * 60 * 0.8].  No cluster is closed
    while the comparison of the code would still let the next point
    in. *)
Theorem cluster_split_only_on_overflow {F : Type} {FO : PyFloat F}
    (day_points : list (Point F)) (max_hours : F) :
  Forall (fun pair =>
            exists p rest t,
              snd pair = p :: rest /\
              accumulated (fst pair) t /\
              fgt (fadd t (duration p)) (threshold max_hours) = true)
         (consecutive_pairs (cluster_points_by_time day_points max_hours)).
Proof.
  apply Forall_forall. intros [c c2] Hin.
  apply consecutive_pairs_split in Hin. destruct Hin as (pre & post & E).
  exact (cluster_points_greedy day_points max_hours pre c c2 post E).
Qed.

Section SortedDay.
Context {F : Type} {FO : PyFloat F}.
Hypothesis flt_irrefl : forall x : F, flt x x = false.
Hypothesis flt_trans :
  forall x y z : F, flt x y = true -> flt y z = true -> flt x z = true.

Lemma points_sorted_key (day_points : list (Point F)) :
  points_sorted day_points = py_sorted (nearer_centre day_points) day_points.
Proof. reflexivity. Qed.

Lemma cluster_order (day_points : list (Point F)) (max_hours : F) :
  ascending (nearer_centre day_points)
            (concat (cluster_points_by_time day_points max_hours)) /\
  (ascending (nearer_centre day_points) day_points ->
   concat (cluster_points_by_time day_points max_hours) = day_points).
Proof.
  rewrite cluster_points_concat, points_sorted_key. split.
  - apply py_sorted_ascending; unfold nearer_centre.
    + intros x. apply flt_irrefl.
    + intros x y z. apply flt_trans.
  - apply py_sorted_fixed.
Qed.

(** *** Nearest neighbour *)

Lemma argmin_index_min (key : nat -> F) (n : nat) :
  (0 < n)%nat ->
  forall j, (j < n)%nat -> flt (key j) (key (argmin_index key n)) = false.
Proof.
  intros Hn. unfold argmin_index.
  assert (H : forall m k b,
            (b <= k)%nat ->
            (forall j, (j <= k)%nat -> flt (key j) (key b) = false) ->
            forall j, (j <= k + m)%nat ->
              flt (key j)
                  (key (fold_left (fun best i => if flt (key i) (key best) then i else best)
                                  (seq (S k) m) b)) = false).
  { induction m as [|m IH]; intros k b Hb Hmin j Hj.
    - cbn [seq fold_left]. apply Hmin. lia.
    - cbn [seq fold_left].
      destruct (flt (key (S k)) (key b)) eqn:E.
      + apply (IH (S k) (S k)); [lia| |lia].
        intros i Hi. destruct (Nat.eq_dec i (S k)) as [->|Hne]; [apply flt_irrefl|].
        destruct (flt (key i) (key (S k))) eqn:E2; [|reflexivity].
        rewrite <- (Hmin i ltac:(lia)). symmetry.
        exact (flt_trans _ _ _ E2 E).
      + apply (IH (S k) b); [lia| |lia].
        intros i Hi. destruct (Nat.eq_dec i (S k)) as [->|Hne]; [exact E|].
        apply Hmin. lia. }
  intros j Hj. apply (H (n - 1)%nat 0%nat 0%nat (le_n 0)); [|lia].
  intros i Hi. replace i with 0%nat by lia. apply flt_irrefl.
Qed.

Lemma last_app_nonempty (pre route : list (Point F)) (d : Point F) :
  route <> [] -> last (pre ++ route) d = last route d.
Proof.
  intros H. induction pre as [|x pre IH]; [reflexivity|].
  simpl. destruct (pre ++ route) eqn:E; [|exact IH].
  apply app_eq_nil in E. destruct E as [_ E]. contradiction.
Qed.

(** What is already placed is not touched by the loop. *)
Lemma tsp_loop_prefix (fuel : nat) (pre route unvisited : list (Point F)) :
  route <> [] ->
  tsp_loop fuel (pre ++ route) unvisited = pre ++ tsp_loop fuel route unvisited.
Proof.
  revert route unvisited. induction fuel as [|fuel IH]; intros route unvisited H;
    [reflexivity|].
  destruct unvisited as [|u0 rest]; [reflexivity|].
  cbn [tsp_loop]. cbv zeta. rewrite (last_app_nonempty pre route u0 H).
  rewrite <- app_assoc. apply IH. now destruct route.
Qed.

Lemma tsp_loop_nearest (fuel : nat) (a : Point F) (unvisited : list (Point F)) :
  (length unvisited <= fuel)%nat -> nearest_chain (tsp_loop fuel [a] unvisited).
Proof.
  revert a unvisited. induction fuel as [|fuel IH]; intros a unvisited H.
  - destruct unvisited; [exact I|simpl in H; lia].
  - destruct unvisited as [|u0 rest]; [exact I|].
    cbn [tsp_loop]. cbv zeta. cbn [last].
    set (key := fun i => point_distance a (nth i (u0 :: rest) u0)).
    set (i := argmin_index key (length (u0 :: rest))).
    assert (Hi : (i < length (u0 :: rest))%nat)
      by (apply argmin_index_bound; simpl; lia).
    assert (Hmin : forall j, (j < length (u0 :: rest))%nat ->
                     flt (key j) (key i) = false)
      by (apply argmin_index_min; simpl; lia).
    set (x := nth i (u0 :: rest) u0).
    rewrite (tsp_loop_prefix fuel [a] [x] (list_pop i (u0 :: rest)))
      by discriminate.
    assert (Hlen : (length (list_pop i (u0 :: rest)) <= fuel)%nat)
      by (rewrite list_pop_length by exact Hi; simpl in *; lia).
    pose proof (IH x (list_pop i (u0 :: rest)) Hlen) as Hchain.
    pose proof (tsp_loop_head fuel x [] (list_pop i (u0 :: rest))) as Hhead.
    pose proof (tsp_loop_perm fuel [x] (list_pop i (u0 :: rest)) Hlen) as Hperm.
    destruct (tsp_loop fuel [x] (list_pop i (u0 :: rest))) as [|b tail] eqn:E;
      [discriminate Hhead|].
    injection Hhead as ->. simpl app. cbn [nearest_chain]. split; [|exact Hchain].
    intros c Hc.
    apply (Permutation_in c Hperm) in Hc. simpl in Hc.
    apply (Permutation_in c (list_pop_perm i (u0 :: rest) u0 Hi)) in Hc.
    destruct (In_nth _ _ u0 Hc) as (j & Hj & <-).
    exact (Hmin j Hj).
Qed.

Lemma solve_tsp_chain (cluster : list (Point F)) :
  hd_error (solve_tsp cluster) = hd_error cluster /\
  Permutation (solve_tsp cluster) cluster /\
  nearest_chain (solve_tsp cluster).
Proof.
  split; [apply solve_tsp_head|]. split; [apply solve_tsp_perm|].
  unfold solve_tsp. destruct cluster as [|p0 [|p1 rest]]; try exact I.
  apply tsp_loop_nearest. lia.
Qed.
End SortedDay.

Section Binary64.
Variables libm_sin libm_cos : float -> float.
Variables libm_atan2 libm_pow : float -> float -> float.
Variable numpy_mean : list float -> float.
Variable float_round : float -> nat -> float.

Local Abbreviation FO64 :=
  (PyFloat_binary64 libm_sin libm_cos libm_atan2 libm_pow numpy_mean float_round).

(** X10: the order of the visits of a day, on binary64 floats, whatever
    the C library and numpy compute. When the distance of every point to
    the centroid of the day is a number (no NaN among the sort keys, so
    that [<] orders the keys and every stable sort returns the same
    list), the clusters, read one after the other, list the day's points
    so that no point is strictly nearer to the centroid than the point
    before it, by the distances and the comparison of the code; and a
    day whose points already come in such an order keeps its input order
    ([sorted] is stable). *)
Theorem cluster_visit_order (day_points : list (Point float)) (max_hours : float) :
  Forall (fun p => PrimFloat.is_nan (@centroid_distance float FO64 day_points p) = false)
         day_points ->
  ascending (@nearer_centre float FO64 day_points)
            (concat (@cluster_points_by_time float FO64 day_points max_hours)) /\
  (ascending (@nearer_centre float FO64 day_points) day_points ->
   concat (@cluster_points_by_time float FO64 day_points max_hours) = day_points).
Proof.
  intros _. apply (@cluster_order float FO64).
  - exact float_ltb_irrefl.
  - exact float_ltb_trans.
Qed.


(** X12: [solve_tsp] on binary64 floats, whatever the C library computes.
    The route starts at the first point of the cluster, holds the points
    of the cluster, each once, and goes from every stop to a point that
    no later stop beats: no later stop is strictly nearer to that stop,
    by the distances and the comparison of the code. *)
Theorem solve_tsp_nearest_neighbour (cluster : list (Point float)) :
  hd_error (@solve_tsp float FO64 cluster) = hd_error cluster /\
  Permutation (@solve_tsp float FO64 cluster) cluster /\
  @nearest_chain float FO64 (@solve_tsp float FO64 cluster).
Proof.
  apply (@solve_tsp_chain float FO64).
  - exact float_ltb_irrefl.
  - exact float_ltb_trans.
Qed.
End Binary64.

Lemma cluster_visit_order_witness :
  ascending (@nearer_centre float PyFloat_flat sample_day) sample_day /\
  concat (@cluster_points_by_time float PyFloat_flat sample_day 3%float) = sample_day.
Proof.
  assert (H : ascending (@nearer_centre float PyFloat_flat sample_day) sample_day)
    by (vm_compute; repeat constructor).
  split; [exact H|]. unfold PyFloat_flat in *.
  refine (proj2 (cluster_visit_order (fun x => x) (fun _ => 1%float) (fun y _ => y)
                   (fun x _ => PrimFloat.mul x x)
                   (fun l => PrimFloat.div (fold_left PrimFloat.add l 0%float)
                                           (float_of_int (Z.of_nat (length l))))
                   (fun x _ => x) sample_day 3%float _) H).
  vm_compute. repeat constructor.
Defined.


(** ** What the assignment keeps *)

Section DictConcat.
Context {K X : Type}.
Variable K_eq_dec : forall x y : K, {x = y} + {x <> y}.

Lemma dict_append_concat (k : K) (x : X) (d : list (K * list X)) :
  Permutation (concat (map snd (dict_append K_eq_dec k x d)))
              (x :: concat (map snd d)).
Proof.
  unfold dict_append. induction d as [|[k0 v0] d IH]; simpl.
  - apply Permutation_refl.
  - destruct (K_eq_dec k k0) as [->|Hk]; simpl.
    + rewrite <- app_assoc. apply Permutation_sym.
      apply (Permutation_middle (v0) (concat (map snd d)) x).
    + destruct (dict_get K_eq_dec k d); simpl in *; rewrite IH;
        apply Permutation_sym, (Permutation_middle v0 (concat (map snd d)) x).
Qed.

Lemma dict_get_head (k : K) (v : list X) (d : list (K * list X)) :
  dict_get K_eq_dec k ((k, v) :: d) = Some v.
Proof. simpl. destruct (K_eq_dec k k); [reflexivity|congruence]. Qed.
End DictConcat.

Section KeepFacts.
Context {F : Type}.

Lemma strip_set_employee (label : string) (r : Route F) :
  strip_employee (set_employee_id label r) = strip_employee r.
Proof. reflexivity. Qed.

Lemma map_strip_set (label : string) (l : list (Route F)) :
  map strip_employee (map (set_employee_id label) l) = map strip_employee l.
Proof. rewrite map_map. apply map_ext. intros r. reflexivity. Qed.

Lemma group_by_day_perm (all_routes : list (Route F)) :
  Permutation (concat (map snd (group_by_day all_routes))) all_routes.
Proof.
  unfold group_by_day. induction all_routes as [|r l IH] using rev_ind;
    [constructor|].
  rewrite fold_left_app. simpl fold_left. rewrite dict_append_concat, IH.
  apply Permutation_cons_append.
Qed.

Lemma flat_map_batch_keys (m : list (DateKey * list (Route F))) :
  NoDup (dict_keys m) -> flat_map (batch m) (dict_keys m) = concat (map snd m).
Proof.
  induction m as [|[k v] m IH]; intros Hnd; [reflexivity|].
  inversion Hnd as [|? ? Hk Hm]; subst. simpl.
  unfold batch at 1. rewrite dict_get_head. f_equal.
  rewrite <- (IH Hm). rewrite !flat_map_concat_map. f_equal.
  apply map_ext_in. intros k' Hk'. unfold batch. simpl.
  destruct (DateKey_eq_dec k' k) as [->|Hne]; [contradiction|reflexivity].
Qed.

(** The routes of the sorted days are the input routes. *)
Lemma sorted_days_batches (all_routes : list (Route F)) :
  Permutation (flat_map (batch (group_by_day all_routes)) (sorted_days all_routes))
              all_routes.
Proof.
  destruct (group_by_day_inv all_routes) as (Hnd & _).
  eapply Permutation_trans; [|apply group_by_day_perm].
  rewrite <- (flat_map_batch_keys _ Hnd).
  unfold sorted_days. apply Permutation_flat_map, py_sorted_perm.
Qed.

Lemma group_keys_dates (all_routes : list (Route F)) (d : DateKey) :
  In d (dict_keys (group_by_day all_routes)) -> In d (map date all_routes).
Proof.
  unfold group_by_day. induction all_routes as [|r l IH] using rev_ind;
    [intros []|].
  rewrite fold_left_app. simpl fold_left. rewrite dict_keys_append, map_app.
  intros H. apply in_or_app.
  destruct (dict_get DateKey_eq_dec (date r) _); [left; now apply IH|].
  apply in_app_or in H. destruct H as [H|[<-|[]]]; [left; now apply IH|].
  right. now left.
Qed.

(** No day of the grouping is empty. *)
Lemma group_by_day_nonempty (all_routes : list (Route F)) (d : DateKey)
    (l : list (Route F)) :
  dict_get DateKey_eq_dec d (group_by_day all_routes) = Some l -> l <> [].
Proof.
  unfold group_by_day. revert d l.
  induction all_routes as [|r rs IH] using rev_ind; intros d l; [discriminate|].
  rewrite fold_left_app. simpl fold_left. rewrite dict_get_append.
  destruct (DateKey_eq_dec d (date r)) as [->|Hd]; [|apply IH].
  intros [= <-]. destruct (dict_get DateKey_eq_dec (date r) _) as [l0|];
    [now destruct l0|discriminate].
Qed.

Lemma sorted_days_length (all_routes : list (Route F)) :
  length (sorted_days all_routes) = length (route_days all_routes).
Proof.
  apply Permutation_length, NoDup_Permutation.
  - apply sorted_days_NoDup.
  - apply NoDup_nodup.
  - intros d. unfold route_days. rewrite nodup_In. split.
    + intros Hd. unfold sorted_days in Hd.
      apply (Permutation_in d (py_sorted_perm _ _)) in Hd.
      now apply group_keys_dates.
    + intros Hd. apply in_map_iff in Hd. destruct Hd as (r & <- & Hr).
      now apply sorted_days_member.
Qed.
End KeepFacts.

Section AssignLoopFacts.
Context {F : Type}.
Variable max_days_per_week : Z.
Variable routes_by_day : list (DateKey * list (Route F)).
Hypothesis routes_by_day_dates :
  forall d l, dict_get DateKey_eq_dec d routes_by_day = Some l ->
              forall r, In r l -> date r = d.

Local Abbreviation day_batch := (batch routes_by_day).
Local Abbreviation step := (assign_step max_days_per_week routes_by_day).

(** What a turn of the loop is: either one employee takes the day, or a
    new employee, numbered by the counter, is created for it. *)
Lemma assign_step_cases (es : list (Employee F)) (counter : Z) (day : DateKey) :
  (exists pre emp post,
     es = pre ++ emp :: post /\
     assign_existing max_days_per_week day (day_batch day) es =
       Some (pre ++ give_routes emp (employee_label (emp_id emp)) (day_batch day) :: post) /\
     step (es, counter) day =
       (pre ++ give_routes emp (employee_label (emp_id emp)) (day_batch day) :: post,
        counter)) \/
  (assign_existing max_days_per_week day (day_batch day) es = None /\
   step (es, counter) day =
     (es ++ [give_routes (mkEmployee counter (employee_label counter) [])
                         (employee_label counter) (day_batch day)],
      counter + 1)).
Proof.
  unfold assign_step. fold (day_batch day). cbv zeta.
  destruct (assign_existing _ _ _ es) as [es'|] eqn:E.
  - left. destruct (assign_existing_split _ _ _ _ _ E) as (pre & emp & post & -> & -> & _).
    now exists pre, emp, post.
  - right. split; reflexivity.
Qed.

Lemma assign_step_routes (st : list (Employee F) * Z) (day : DateKey) :
  Permutation (map strip_employee (flat_map routes (fst (step st day))))
              (map strip_employee (flat_map routes (fst st)) ++
               map strip_employee (day_batch day)).
Proof.
  destruct st as [es counter].
  destruct (assign_step_cases es counter day)
    as [(pre & emp & post & -> & _ & ->)|(_ & ->)]; cbn [fst].
  - rewrite !flat_map_app. simpl flat_map. rewrite !map_app, map_strip_set.
    rewrite <- !app_assoc. apply Permutation_app_head, Permutation_app_head.
    apply Permutation_app_comm.
  - rewrite flat_map_app. simpl flat_map. rewrite app_nil_r, map_app, map_strip_set.
    apply Permutation_refl.
Qed.

Lemma assign_loop_routes (days : list DateKey) (st : list (Employee F) * Z) :
  Permutation
    (map strip_employee (flat_map routes (fst (fold_left step days st))))
    (map strip_employee (flat_map routes (fst st)) ++
     map strip_employee (flat_map day_batch days)).
Proof.
  revert st. induction days as [|d days IH]; intros st; simpl.
  - now rewrite app_nil_r.
  - rewrite IH, assign_step_routes, map_app, app_assoc. apply Permutation_refl.
Qed.

Lemma give_routes_labelled (emp : Employee F) (day : DateKey) :
  emp_name emp = employee_label (emp_id emp) ->
  Forall (fun r => employee_id r = emp_name emp) (routes emp) ->
  Forall (fun r => employee_id r = emp_name emp)
         (routes (give_routes emp (employee_label (emp_id emp)) (day_batch day))).
Proof.
  intros Hn Hr. simpl. apply Forall_app. split; [exact Hr|].
  apply Forall_forall. intros r Hin. apply in_map_iff in Hin.
  destruct Hin as (r0 & <- & _). simpl. now rewrite Hn.
Qed.

Lemma assign_step_numbered (st : list (Employee F) * Z) (day : DateKey) :
  numbered st -> numbered (step st day).
Proof.
  destruct st as [es counter]. intros (Hids & Hc & Hn). cbn [fst snd] in *.
  destruct (assign_step_cases es counter day)
    as [(pre & emp & post & -> & _ & ->)|(_ & ->)]; unfold numbered; cbn [fst snd].
  - split; [|split].
    + rewrite map_app in *. simpl in *. rewrite length_app in *. exact Hids.
    + rewrite length_app in *. exact Hc.
    + apply Forall_app in Hn. destruct Hn as [Hpre Hrest].
      inversion Hrest as [|? ? [He Hr] Hpost]; subst.
      apply Forall_app. split; [exact Hpre|]. constructor; [|exact Hpost].
      split; [exact He|]. exact (give_routes_labelled emp day He Hr).
  - split; [|split].
    + rewrite map_app, length_app, Nat.add_1_r, seq_S, map_app, Hids. simpl.
      f_equal. f_equal. lia.
    + rewrite length_app. simpl. lia.
    + apply Forall_app. split; [exact Hn|]. constructor; [|constructor].
      split; [reflexivity|].
      exact (give_routes_labelled (mkEmployee counter (employee_label counter) []) day
               eq_refl (Forall_nil _)).
Qed.

Lemma assign_loop_numbered (days : list DateKey) (st : list (Employee F) * Z) :
  numbered st -> numbered (fold_left step days st).
Proof.
  revert st. induction days as [|d days IH]; intros st H; simpl; [exact H|].
  apply IH, assign_step_numbered, H.
Qed.

(** *** How many employees *)

Lemma emp_days_give_exact (emp : Employee F) (label : string) (day : DateKey) :
  ~ In day (emp_days emp) -> day_batch day <> [] ->
  length (emp_days (give_routes emp label (day_batch day))) = S (length (emp_days emp)).
Proof.
  intros Hnew Hne. apply Nat.le_antisymm.
  - apply (emp_days_give routes_by_day routes_by_day_dates).
  - change (S (length (emp_days emp))) with (length (day :: emp_days emp)).
    apply NoDup_incl_length.
    + constructor; [exact Hnew|apply NoDup_nodup].
    + intros d [<-|Hd]; unfold emp_days; apply nodup_In; simpl;
        rewrite map_app; apply in_or_app.
      * right. destruct (day_batch day) as [|r0 l] eqn:E; [contradiction|].
        left. simpl. apply (batch_dates routes_by_day routes_by_day_dates).
        rewrite E. now left.
      * left. unfold emp_days in Hd. now apply nodup_In in Hd.
Qed.

Lemma assign_existing_skip (day : DateKey) (pre rest : list (Employee F)) :
  Forall (fun e => max_days_per_week <= Z.of_nat (length (emp_days e))) pre ->
  assign_existing max_days_per_week day (day_batch day) (pre ++ rest) =
  match assign_existing max_days_per_week day (day_batch day) rest with
  | Some rest' => Some (pre ++ rest')
  | None => None
  end.
Proof.
  induction 1 as [|e pre He Hpre IH]; simpl.
  - now destruct (assign_existing _ _ _ rest).
  - replace (Z.of_nat (length (emp_days e)) <? max_days_per_week) with false
      by (symmetry; apply Z.ltb_ge; exact He).
    simpl. rewrite IH. now destruct (assign_existing _ _ _ rest).
Qed.

Lemma assign_step_filled (k : nat) (ds : list DateKey) (st : list (Employee F) * Z)
    (day : DateKey) :
  1 <= max_days_per_week ->
  assign_inv routes_by_day ds st -> ~ In day ds -> day_batch day <> [] ->
  filled_in_order (Z.to_nat max_days_per_week) k (fst st) ->
  filled_in_order (Z.to_nat max_days_per_week) (S k) (fst (step st day)).
Proof.
  intros Hcap Hinv Hday Hne Hfill. destruct st as [es counter]. cbn [fst] in *.
  destruct Hinv as (_ & Hok & _).
  assert (Hfresh : forall e, In e es -> ~ In day (emp_days e)).
  { intros e He Hin. unfold emp_days in Hin. apply nodup_In in Hin.
    apply in_map_iff in Hin. destruct Hin as (r & <- & Hr).
    destruct (Hok e He) as (_ & _ & H & _). destruct (H r Hr) as [Hd _]. contradiction. }
  set (c := Z.to_nat max_days_per_week) in *.
  assert (Hc : max_days_per_week = Z.of_nat c) by (unfold c; lia).
  assert (Hnew : length (emp_days (give_routes (mkEmployee counter (employee_label counter) [])
                                   (employee_label counter) (day_batch day))) = 1%nat).
  { rewrite emp_days_give_exact; [reflexivity|intros []|exact Hne]. }
  destruct Hfill as [[-> ->]|(full & last & -> & Hfull & Hlast & ->)].
  - right. destruct (assign_step_cases [] counter day)
      as [(pre & emp & post & E & _)|(_ & ->)]; [now destruct pre|].
    cbn [fst]. eexists [], _. split; [reflexivity|]. split; [constructor|].
    rewrite Hnew. split; [lia|]. simpl. lia.
  - right.
    assert (Hskip : assign_existing max_days_per_week day (day_batch day) (full ++ [last]) =
                    match assign_existing max_days_per_week day (day_batch day) [last] with
                    | Some rest' => Some (full ++ rest')
                    | None => None
                    end).
    { apply assign_existing_skip. eapply Forall_impl; [|exact Hfull].
      intros e He. simpl in He. lia. }
    assert (Hlast_fresh : ~ In day (emp_days last)).
    { apply Hfresh. apply in_or_app. right. now left. }
    unfold assign_step. fold (day_batch day). cbv zeta. rewrite Hskip.
    cbn [assign_existing].
    destruct (in_dec DateKey_eq_dec day (emp_days last)) as [Hin|_]; [contradiction|].
    destruct (Z.ltb_spec (Z.of_nat (length (emp_days last))) max_days_per_week) as [Hlt|Hge];
      cbn [andb negb fst].
    + exists full, (give_routes last (employee_label (emp_id last)) (day_batch day)).
      split; [reflexivity|]. split; [exact Hfull|].
      rewrite (emp_days_give_exact last _ day Hlast_fresh Hne). split; lia.
    + cbn [emp_name].
      exists (full ++ [last]),
        (give_routes (mkEmployee counter (employee_label counter) [])
                     (employee_label counter) (day_batch day)).
      split; [reflexivity|]. split.
      * apply Forall_app. split; [exact Hfull|]. constructor; [lia|constructor].
      * rewrite Hnew, length_app. cbn [length]. split; nia.
Qed.

Lemma assign_loop_filled (days ds : list DateKey) (st : list (Employee F) * Z) :
  1 <= max_days_per_week ->
  assign_inv routes_by_day ds st -> NoDup (ds ++ days) ->
  (forall d, In d days -> day_batch d <> []) ->
  filled_in_order (Z.to_nat max_days_per_week) (length ds) (fst st) ->
  filled_in_order (Z.to_nat max_days_per_week) (length ds + length days)
                  (fst (fold_left step days st)).
Proof.
  intros Hcap. revert ds st.
  induction days as [|d days IH]; intros ds st Hinv Hnd Hne Hfill; simpl.
  - now rewrite Nat.add_0_r.
  - assert (Hd : ~ In d ds).
    { intros Hin. apply NoDup_remove_2 in Hnd. apply Hnd.
      apply in_or_app. now left. }
    replace (length ds + S (length days))%nat
      with (length (ds ++ [d]) + length days)%nat
      by (rewrite length_app; simpl; lia).
    apply IH.
    + now apply (assign_step_inv max_days_per_week routes_by_day routes_by_day_dates).
    + rewrite <- app_assoc. exact Hnd.
    + intros d' Hd'. apply Hne. now right.
    + rewrite length_app, Nat.add_1_r.
      apply (assign_step_filled (length ds) ds); auto. apply Hne. now left.
Qed.

Lemma assign_loop_no_cap (days : list DateKey) (st : list (Employee F) * Z) :
  max_days_per_week <= 0 ->
  length (fst (fold_left step days st)) = (length (fst st) + length days)%nat.
Proof.
  intros Hcap. revert st. induction days as [|d days IH]; intros st; simpl; [lia|].
  rewrite IH. destruct st as [es counter].
  destruct (assign_step_cases es counter d)
    as [(pre & emp & post & -> & E & _)|(_ & ->)].
  - exfalso.
    pose proof (assign_existing_skip d (pre ++ emp :: post) []) as H.
    rewrite app_nil_r in H. rewrite H in E; [discriminate E|].
    apply Forall_forall. intros e _. lia.
  - cbn [fst]. rewrite length_app. simpl. lia.
Qed.
End AssignLoopFacts.

Section AssignBusy.
Context {F : Type}.
Variable max_days_per_week : Z.
Variable routes_by_day : list (DateKey * list (Route F)).

(** Nobody is created without routes, and nobody loses any. *)
Lemma assign_step_busy (st : list (Employee F) * Z) (day : DateKey) :
  batch routes_by_day day <> [] ->
  Forall (fun e => routes e <> []) (fst st) ->
  Forall (fun e => routes e <> [])
         (fst (assign_step max_days_per_week routes_by_day st day)).
Proof.
  destruct st as [es counter]. intros Hne Hb. cbn [fst] in *.
  destruct (assign_step_cases max_days_per_week routes_by_day es counter day)
    as [(pre & emp & post & -> & _ & ->)|(_ & ->)]; cbn [fst].
  - apply Forall_app in Hb. destruct Hb as [Hpre Hrest].
    apply Forall_cons_iff in Hrest. destruct Hrest as [He Hpost].
    apply Forall_app. split; [exact Hpre|]. constructor; [|exact Hpost].
    cbn [give_routes routes]. intros H. apply app_eq_nil in H. now apply He.
  - apply Forall_app. split; [exact Hb|]. constructor; [|constructor].
    cbn [give_routes routes app]. intros H. apply map_eq_nil in H. now apply Hne.
Qed.

Lemma assign_loop_busy (days : list DateKey) (st : list (Employee F) * Z) :
  (forall d, In d days -> batch routes_by_day d <> []) ->
  Forall (fun e => routes e <> []) (fst st) ->
  Forall (fun e => routes e <> [])
         (fst (fold_left (assign_step max_days_per_week routes_by_day) days st)).
Proof.
  revert st. induction days as [|d days IH]; intros st Hne Hb; simpl; [exact Hb|].
  apply IH; [intros d' Hd'; apply Hne; now right|].
  apply assign_step_busy; [apply Hne; now left|exact Hb].
Qed.
End AssignBusy.

Lemma numbered_nth {F : Type} (st : list (Employee F) * Z) (i : nat) (d : Employee F) :
  numbered st -> (i < length (fst st))%nat ->
  emp_id (nth i (fst st) d) = Z.of_nat (S i) /\
  emp_name (nth i (fst st) d) = employee_label (Z.of_nat (S i)) /\
  Forall (fun r => employee_id r = employee_label (Z.of_nat (S i)))
         (routes (nth i (fst st) d)).
Proof.
  intros (Hids & _ & Hn) Hi.
  assert (Hid : emp_id (nth i (fst st) d) = Z.of_nat (S i)).
  { rewrite <- (map_nth emp_id), Hids.
    rewrite (nth_indep _ (emp_id d) (Z.of_nat 0)) by (now rewrite length_map, length_seq).
    rewrite (map_nth Z.of_nat), seq_nth by exact Hi. reflexivity. }
  rewrite Forall_forall in Hn. destruct (Hn (nth i (fst st) d)) as [He Hr].
  { now apply nth_In. }
  rewrite Hid in He. split; [exact Hid|]. split; [exact He|].
  eapply Forall_impl; [|exact Hr]. intros r Hr0. cbn beta in Hr0. now rewrite Hr0.
Qed.

Lemma filled_count {F : Type} (c k : nat) (es : list (Employee F)) :
  (1 <= c)%nat -> filled_in_order c k es ->
  Z.of_nat (length es) = (Z.of_nat k + Z.of_nat c - 1) / Z.of_nat c.
Proof.
  intros Hc [[-> ->]|(full & last & -> & _ & Hlast & ->)].
  - simpl length. symmetry. apply Z.div_small. lia.
  - rewrite length_app. cbn [length].
    apply (Z.div_unique_pos _ _ _ (Z.of_nat (length (emp_days last)) - 1)); nia.
Qed.

Section AssignOutcome.
Context {F : Type}.
Variable all_routes : list (Route F).
Variable max_days_per_week : Z.

Lemma sorted_days_batch_nonempty (d : DateKey) :
  In d (sorted_days all_routes) -> batch (group_by_day all_routes) d <> [].
Proof.
  intros Hd. unfold sorted_days in Hd.
  apply (Permutation_in d (py_sorted_perm _ _)) in Hd.
  apply group_keys_dates, in_map_iff in Hd. destruct Hd as (r & <- & Hr).
  intros E. pose proof (batch_member all_routes r Hr) as Hin.
  rewrite E in Hin. exact Hin.
Qed.

Lemma assign_count :
  snd (assign_routes_to_employees all_routes max_days_per_week) =
  length (assign_employees all_routes max_days_per_week).
Proof. destruct all_routes; reflexivity. Qed.

Lemma assign_final :
  fst (assign_routes_to_employees all_routes max_days_per_week) =
  flat_map routes (assign_employees all_routes max_days_per_week).
Proof. destruct all_routes; reflexivity. Qed.

Lemma assign_employees_numbered :
  numbered (assign_days all_routes max_days_per_week (sorted_days all_routes)).
Proof.
  unfold assign_days. apply assign_loop_numbered.
  split; [reflexivity|]. split; [reflexivity|constructor].
Qed.

Lemma assign_employees_busy :
  Forall (fun e => routes e <> []) (assign_employees all_routes max_days_per_week).
Proof.
  unfold assign_employees, assign_days. apply assign_loop_busy; [|constructor].
  apply sorted_days_batch_nonempty.
Qed.

Lemma assign_final_perm :
  Permutation
    (map strip_employee (fst (assign_routes_to_employees all_routes max_days_per_week)))
    (map strip_employee all_routes).
Proof.
  rewrite assign_final. unfold assign_employees, assign_days.
  rewrite assign_loop_routes. cbn [fst flat_map map app].
  apply Permutation_map, sorted_days_batches.
Qed.

Lemma assign_employees_filled :
  1 <= max_days_per_week ->
  filled_in_order (Z.to_nat max_days_per_week) (length (route_days all_routes))
                  (assign_employees all_routes max_days_per_week).
Proof.
  intros Hcap. rewrite <- sorted_days_length.
  unfold assign_employees, assign_days.
  apply (assign_loop_filled max_days_per_week (group_by_day all_routes)
           (group_by_day_dates all_routes) (sorted_days all_routes) [] ([], 1) Hcap).
  - split; [lia|]. split; [intros e []|]. split; [apply NoDup_nil|].
    split; [intros e e' r r' []|intros d r0 []].
  - apply sorted_days_NoDup.
  - apply sorted_days_batch_nonempty.
  - left. split; reflexivity.
Qed.
End AssignOutcome.

(** X13: [assign_routes_to_employees] hands every route on, once, changed
    in nothing but its owner; every route it returns is owned by one of
    the employees 1 .. n it counts, and every one of these employees owns
    a route. *)
Theorem assignment_keeps_routes {F : Type} (all_routes : list (Route F))
    (max_days_per_week : Z) :
  Permutation
    (map strip_employee (fst (assign_routes_to_employees all_routes max_days_per_week)))
    (map strip_employee all_routes) /\
  (forall r, In r (fst (assign_routes_to_employees all_routes max_days_per_week)) ->
     exists i, (1 <= i <= snd (assign_routes_to_employees all_routes max_days_per_week))%nat /\
               employee_id r = employee_label (Z.of_nat i)) /\
  (forall i, (1 <= i <= snd (assign_routes_to_employees all_routes max_days_per_week))%nat ->
     exists r, In r (fst (assign_routes_to_employees all_routes max_days_per_week)) /\
               employee_id r = employee_label (Z.of_nat i)).
Proof.
  split; [apply assign_final_perm|].
  rewrite assign_count, assign_final.
  pose proof (assign_employees_numbered all_routes max_days_per_week) as Hnum.
  pose proof (assign_employees_busy all_routes max_days_per_week) as Hbusy.
  fold (assign_employees all_routes max_days_per_week) in Hnum.
  set (es := assign_employees all_routes max_days_per_week) in *.
  split.
  - intros r Hr. apply in_flat_map in Hr. destruct Hr as (e & He & Hr).
    destruct (In_nth es e e He) as (i & Hi & E).
    destruct (numbered_nth _ i e Hnum Hi) as (_ & _ & Hown).
    change (fst (assign_days all_routes max_days_per_week (sorted_days all_routes)))
      with es in Hown.
    rewrite E in Hown. exists (S i). split; [lia|].
    rewrite Forall_forall in Hown. now apply Hown.
  - intros i Hi. destruct i as [|i]; [lia|].
    assert (Hlt : (i < length es)%nat) by lia.
    destruct (nth i es (mkEmployee 0 ""%string [])) as [id name rs] eqn:E.
    destruct (numbered_nth _ i (mkEmployee 0 ""%string []) Hnum Hlt) as (_ & _ & Hown).
    assert (Hin : In (nth i es (mkEmployee 0 ""%string [])) es) by (now apply nth_In).
    rewrite Forall_forall in Hbusy. pose proof (Hbusy _ Hin) as Hne.
    change (fst (assign_days all_routes max_days_per_week (sorted_days all_routes)))
      with es in Hown.
    rewrite E in Hown, Hne, Hin. cbn [routes] in Hown, Hne.
    destruct rs as [|r rs]; [now elim Hne|].
    exists r. split.
    + apply in_flat_map. exists (mkEmployee id name (r :: rs)). split; [exact Hin|now left].
    + apply Forall_cons_iff in Hown. now destruct Hown.
Qed.

(** X14: how many employees [assign_routes_to_employees] needs. With a cap
    of at least one day it fills the employees one after the other with
    the days in ascending order, so that all but the last hold exactly the
    cap and the count is the number of distinct days divided by the cap,
    rounded up; with a cap of zero or less every day gets an employee of
    its own. *)
Theorem employee_count {F : Type} (all_routes : list (Route F))
    (max_days_per_week : Z) :
  (1 <= max_days_per_week ->
   filled_in_order (Z.to_nat max_days_per_week) (length (route_days all_routes))
                   (assign_employees all_routes max_days_per_week) /\
   Z.of_nat (snd (assign_routes_to_employees all_routes max_days_per_week)) =
   (Z.of_nat (length (route_days all_routes)) + max_days_per_week - 1)
   / max_days_per_week) /\
  (max_days_per_week <= 0 ->
   snd (assign_routes_to_employees all_routes max_days_per_week) =
   length (route_days all_routes)).
Proof.
  rewrite assign_count. split; intros Hcap.
  - pose proof (assign_employees_filled all_routes max_days_per_week Hcap) as Hfill.
    split; [exact Hfill|].
    assert (Hc : (1 <= Z.to_nat max_days_per_week)%nat) by lia.
    rewrite (filled_count _ _ _ Hc Hfill).
    now rewrite Z2Nat.id by lia.
  - unfold assign_employees, assign_days.
    rewrite assign_loop_no_cap by exact Hcap.
    cbn [fst length]. now rewrite sorted_days_length.
Qed.

(** ** The run as a whole *)

Lemma enumerate_values {A : Type} (l : list A) : map snd (enumerate l) = l.
Proof.
  unfold enumerate. generalize 0%nat.
  induction l as [|x l IH]; intros a; [reflexivity|].
  cbn [length seq combine map snd]. now rewrite IH.
Qed.

Lemma rr_loop_concat {A : Type} (wd : list Z) (D : nat) (es : list (nat * A))
    (m : list (Z * list A)) :
  Permutation (concat (map snd (fold_left (rr_step wd D) es m)))
              (concat (map snd m) ++ map snd es).
Proof.
  revert m. induction es as [|[i x] es IH]; intros m; cbn [fold_left map snd].
  - now rewrite app_nil_r.
  - rewrite IH. unfold rr_step. rewrite dict_append_concat.
    apply (Permutation_middle (concat (map snd m)) (map snd es) x).
Qed.

Section RunFacts.
Context {F : Type} {FO : PyFloat F}.

Lemma distribute_concat (self_points : list (Point F)) (start_date : option Z)
    (now : Z) :
  Permutation
    (concat (map snd (distribute_visits_by_quarter self_points start_date now)))
    (all_visits self_points).
Proof.
  rewrite distribute_loop, rr_loop_concat, enumerate_values. apply Permutation_refl.
Qed.

Lemma distribute_keys (self_points : list (Point F)) (start_date : option Z)
    (now : Z) :
  dict_keys (distribute_visits_by_quarter self_points start_date now) =
  planned_days self_points start_date now.
Proof.
  rewrite distribute_loop.
  apply (rr_keys (working_days start_date now) _ eq_refl
                 (working_days_pos start_date now)
                 (working_days_NoDup start_date now)).
Qed.

Lemma planned_days_working (self_points : list (Point F)) (start_date : option Z)
    (now : Z) (d : Z) :
  In d (planned_days self_points start_date now) ->
  In d (working_days start_date now).
Proof.
  intros Hd.
  rewrite <- (firstn_skipn (length (all_visits self_points))
                (working_days start_date now)).
  apply in_or_app. now left.
Qed.

Lemma routes_of_day_perm (day_points : list (Point F)) (max_hours : F)
    (employee_id : Z) :
  Permutation
    (concat (map points (optimize_routes_for_day day_points max_hours employee_id)))
    day_points.
Proof.
  rewrite optimize_routes_points.
  transitivity (concat (cluster_points_by_time day_points max_hours)).
  - generalize (cluster_points_by_time day_points max_hours). intros cs.
    induction cs as [|c cs IH]; simpl; [constructor|].
    apply Permutation_app; [apply solve_tsp_perm|exact IH].
  - rewrite cluster_points_concat. apply points_sorted_perm.
Qed.

Lemma routes_of_day_metrics (day_points : list (Point F)) (max_hours : F)
    (employee_id : Z) :
  Forall route_metrics_ok (optimize_routes_for_day day_points max_hours employee_id).
Proof.
  unfold optimize_routes_for_day. destruct day_points as [|p l]; [constructor|].
  cbv zeta. apply (routes_loop_forall route_metrics_ok).
  - intros k c. apply build_route_metrics.
  - constructor.
Qed.

Lemma routes_of_day_stops (day_points : list (Point F)) (max_hours : F)
    (employee_id : Z) :
  Forall (fun r => points r <> [])
         (optimize_routes_for_day day_points max_hours employee_id).
Proof.
  apply Forall_map with (f := points) (P := fun l => l <> []).
  rewrite optimize_routes_points. apply Forall_map.
  eapply Forall_impl; [|apply cluster_points_nonempty].
  intros c Hc E. apply Hc. apply Permutation_nil.
  rewrite <- E. apply solve_tsp_perm.
Qed.

Lemma day_step_app (h : F) (acc : list (Route F)) (item : Z * list (Point F)) :
  day_step h acc item = acc ++ day_step h [] item.
Proof.
  destruct item as [d [|p l]]; unfold day_step; [now rewrite app_nil_r|reflexivity].
Qed.

Lemma day_loop_flat (h : F) (m : list (Z * list (Point F))) (acc : list (Route F)) :
  fold_left (day_step h) m acc = acc ++ flat_map (day_step h []) m.
Proof.
  revert acc. induction m as [|item m IH]; intros acc; cbn [fold_left flat_map].
  - now rewrite app_nil_r.
  - rewrite IH, (day_step_app h acc), <- app_assoc. reflexivity.
Qed.

(** What the routes of one entry of the mapping are. *)
Lemma day_item_routes (h : F) (d : Z) (l : list (Point F)) :
  day_step h [] (d, l) =
  map (set_date (Day d) (weekday_name d)) (optimize_routes_for_day l h 1).
Proof. destruct l; reflexivity. Qed.

Lemma day_item_points (h : F) (item : Z * list (Point F)) :
  Permutation (flat_map points (day_step h [] item)) (snd item).
Proof.
  destruct item as [d l]. rewrite day_item_routes, flat_map_concat_map, map_map.
  cbn [snd]. rewrite (map_ext _ points) by reflexivity.
  apply routes_of_day_perm.
Qed.

Lemma day_loop_points (h : F) (m : list (Z * list (Point F))) :
  Permutation (flat_map points (flat_map (day_step h []) m)) (concat (map snd m)).
Proof.
  induction m as [|item m IH]; cbn [flat_map map concat]; [constructor|].
  rewrite flat_map_app. apply Permutation_app; [apply day_item_points|exact IH].
Qed.

Lemma dated_routes_flat (self_points : list (Point F)) (h : F)
    (start_date : option Z) (now : Z) :
  dated_routes self_points h start_date now =
  flat_map (day_step h [])
           (distribute_visits_by_quarter self_points
              (Some (horizon_start start_date now)) now).
Proof. unfold dated_routes. now rewrite day_loop_flat. Qed.

Lemma dated_routes_points (self_points : list (Point F)) (h : F)
    (start_date : option Z) (now : Z) :
  Permutation (flat_map points (dated_routes self_points h start_date now))
              (all_visits self_points).
Proof.
  rewrite dated_routes_flat, day_loop_points. apply distribute_concat.
Qed.

(** Every dated route lies on a planned day and bears its name. *)
Lemma dated_routes_dates (self_points : list (Point F)) (h : F)
    (start_date : option Z) (now : Z) (r : Route F) :
  In r (dated_routes self_points h start_date now) ->
  exists d, In d (planned_days self_points start_date now) /\
            date r = Day d /\ day_of_week r = weekday_name d /\
            points r <> [] /\ route_metrics_ok r.
Proof.
  rewrite dated_routes_flat. intros Hr. apply in_flat_map in Hr.
  destruct Hr as ([d l] & Hin & Hr). exists d. split.
  - change (planned_days self_points start_date now)
      with (planned_days self_points (Some (horizon_start start_date now)) now).
    rewrite <- distribute_keys. change d with (fst (d, l)). now apply in_map.
  - rewrite day_item_routes in Hr. apply in_map_iff in Hr.
    destruct Hr as (r0 & <- & Hr0). split; [reflexivity|]. split; [reflexivity|].
    pose proof (routes_of_day_stops l h 1) as Hs.
    pose proof (routes_of_day_metrics l h 1) as Hm.
    rewrite Forall_forall in Hs, Hm. split; [exact (Hs r0 Hr0)|exact (Hm r0 Hr0)].
Qed.

(** Every planned day has a route. *)
Lemma dated_routes_cover (self_points : list (Point F)) (h : F)
    (start_date : option Z) (now : Z) (d : Z) :
  In d (planned_days self_points start_date now) ->
  exists r, In r (dated_routes self_points h start_date now) /\ date r = Day d.
Proof.
  change (planned_days self_points start_date now)
    with (planned_days self_points (Some (horizon_start start_date now)) now).
  rewrite <- distribute_keys, dated_routes_flat. intros Hd.
  apply in_map_iff in Hd. destruct Hd as ([d' l] & Hfst & Hin).
  cbn [fst] in Hfst. subst d'.
  destruct (distribute_entry self_points _ now d l Hin) as (j & _ & _ & _ & Hne).
  pose proof (optimize_routes_nonempty l h 1 Hne) as Hr.
  destruct (optimize_routes_for_day l h 1) as [|r0 rs] eqn:E; [now elim Hr|].
  exists (set_date (Day d) (weekday_name d) r0). split; [|reflexivity].
  apply in_flat_map. exists (d, l). split; [exact Hin|].
  rewrite day_item_routes, E. now left.
Qed.

Lemma planned_days_NoDup (self_points : list (Point F)) (start_date : option Z)
    (now : Z) :
  NoDup (planned_days self_points start_date now).
Proof.
  rewrite <- distribute_keys.
  destruct (distribute_inv self_points start_date now) as (H & _). exact H.
Qed.

Lemma planned_days_length (self_points : list (Point F)) (start_date : option Z)
    (now : Z) :
  length (planned_days self_points start_date now) =
  Nat.min (length (all_visits self_points)) (length (working_days start_date now)).
Proof. apply length_firstn. Qed.

Lemma dated_route_days (self_points : list (Point F)) (h : F)
    (start_date : option Z) (now : Z) :
  Permutation (route_days (dated_routes self_points h start_date now))
              (map Day (planned_days self_points start_date now)).
Proof.
  apply NoDup_Permutation.
  - apply NoDup_nodup.
  - apply Finite.Injective_map_NoDup; [|apply planned_days_NoDup].
    intros x y [= E]. exact E.
  - intros k. unfold route_days. rewrite nodup_In, !in_map_iff. split.
    + intros (r & <- & Hr).
      destruct (dated_routes_dates _ _ _ _ r Hr) as (d & Hd & E & _).
      exists d. split; [now rewrite E|exact Hd].
    + intros (d & <- & Hd).
      destruct (dated_routes_cover self_points h start_date now d Hd) as (r & Hr & E).
      exists r. split; [exact E|exact Hr].
Qed.

(** What a successful run returns, in terms of its dated routes. *)
Lemma optimize_inv (self_points : list (Point F)) (h : F) (c : Z)
    (start_date : option Z) (now : Z) (parameters : F * Z * Z) (summary : Summary F)
    (final_routes : list (Route F)) (employees : list EmployeeInfo) :
  optimize self_points h c start_date now =
  Success parameters summary final_routes employees ->
  parameters = (h, c, horizon_start start_date now) /\
  final_routes =
    fst (assign_routes_to_employees (dated_routes self_points h start_date now) c) /\
  summary =
    make_summary final_routes
      (snd (assign_routes_to_employees (dated_routes self_points h start_date now) c)) /\
  employees =
    map (employee_info final_routes)
        (seq 0 (snd (assign_routes_to_employees
                       (dated_routes self_points h start_date now) c))).
Proof.
  unfold optimize, dated_routes. cbv zeta.
  change (match start_date with Some d => d | None => now end)
    with (horizon_start start_date now).
  destruct (distribute_visits_by_quarter self_points
              (Some (horizon_start start_date now)) now) as [|e m];
    [discriminate|].
  destruct (fold_left (day_step h) (e :: m) []) as [|r rs]; [discriminate|].
  destruct (assign_routes_to_employees (r :: rs) c) as [fr n].
  intros [= <- <- <- <-]. cbn [fst snd]. repeat split.
Qed.

(** Two routes that differ in their owner only. *)
Lemma strip_employee_fields (r r0 : Route F) :
  strip_employee r = strip_employee r0 ->
  date r = date r0 /\ day_of_week r = day_of_week r0 /\ points r = points r0 /\
  (route_metrics_ok r <-> route_metrics_ok r0).
Proof.
  intros E.
  change (date (strip_employee r) = date (strip_employee r0) /\
          day_of_week (strip_employee r) = day_of_week (strip_employee r0) /\
          points (strip_employee r) = points (strip_employee r0) /\
          (route_metrics_ok (strip_employee r) <-> route_metrics_ok (strip_employee r0))).
  rewrite E. split; [reflexivity|]. split; [reflexivity|]. split; reflexivity.
Qed.

(** Every route of a successful run is a dated route under a new owner. *)
Lemma final_route_origin (self_points : list (Point F)) (h : F) (c : Z)
    (start_date : option Z) (now : Z) (r : Route F) :
  In r (fst (assign_routes_to_employees (dated_routes self_points h start_date now) c)) ->
  exists r0, In r0 (dated_routes self_points h start_date now) /\
             strip_employee r = strip_employee r0.
Proof.
  intros Hr. apply (in_map strip_employee) in Hr.
  apply (Permutation_in _ (assign_final_perm _ c)) in Hr.
  apply in_map_iff in Hr. destruct Hr as (r0 & E & Hr0). now exists r0.
Qed.
End RunFacts.

Lemma route_days_perm {F : Type} (l l' : list (Route F)) :
  Permutation (map strip_employee l) (map strip_employee l') ->
  Permutation (route_days l) (route_days l').
Proof.
  intros H.
  assert (Hd : forall l0 : list (Route F), map date l0 = map date (map strip_employee l0)).
  { intros l0. rewrite map_map. reflexivity. }
  apply NoDup_Permutation; [apply NoDup_nodup|apply NoDup_nodup|].
  intros k. unfold route_days. rewrite !nodup_In, (Hd l), (Hd l').
  split; apply Permutation_in; [|apply Permutation_sym]; now apply Permutation_map.
Qed.

Lemma stops_strip {F : Type} (l : list (Route F)) :
  flat_map points l = flat_map points (map strip_employee l).
Proof. rewrite !flat_map_concat_map, map_map. reflexivity. Qed.

Lemma weekday_name_working (d : Z) :
  weekday d < 5 ->
  In (weekday_name d)
     ["Monday"; "Tuesday"; "Wednesday"; "Thursday"; "Friday"]%string.
Proof.
  intros H.
  assert (Hw : 0 <= weekday d < 7) by (unfold weekday; apply Z.mod_pos_bound; lia).
  unfold weekday_name.
  assert (Hc : weekday d = 0 \/ weekday d = 1 \/ weekday d = 2 \/ weekday d = 3
               \/ weekday d = 4) by lia.
  destruct Hc as [E|[E|[E|[E|E]]]]; rewrite E; simpl; auto 6.
Qed.

Section CountFacts.
Context {F : Type}.
Variable all_routes : list (Route F).
Variable max_days_per_week : Z.

Lemma assign_count_capped :
  1 <= max_days_per_week ->
  Z.of_nat (snd (assign_routes_to_employees all_routes max_days_per_week)) =
  (Z.of_nat (length (route_days all_routes)) + max_days_per_week - 1)
  / max_days_per_week.
Proof.
  intros Hcap. rewrite assign_count.
  pose proof (assign_employees_filled all_routes max_days_per_week Hcap) as Hfill.
  assert (Hc : (1 <= Z.to_nat max_days_per_week)%nat) by lia.
  rewrite (filled_count _ _ _ Hc Hfill).
  now rewrite Z2Nat.id by lia.
Qed.

Lemma assign_count_uncapped :
  max_days_per_week <= 0 ->
  snd (assign_routes_to_employees all_routes max_days_per_week) =
  length (route_days all_routes).
Proof.
  intros Hcap. rewrite assign_count. unfold assign_employees, assign_days.
  rewrite assign_loop_no_cap by exact Hcap.
  cbn [fst length]. now rewrite sorted_days_length.
Qed.
End CountFacts.

(** X15: a successful run plans every visit exactly once. The stops of the
    routes it returns are the visits of the expansion, each as often as
    the expansion holds it; the summary counts these stops and these
    routes; and every route has at least one stop and keeps the metrics it
    was built with (total = service + travel, service = the sum of the
    durations, travel = the sum over the legs, count = number of
    stops). *)
Theorem optimize_conserves_visits {F : Type} {FO : PyFloat F}
    (self_points : list (Point F)) (max_hours_per_day : F) (max_days_per_week : Z)
    (start_date : option Z) (now : Z) (parameters : F * Z * Z) (summary : Summary F)
    (final_routes : list (Route F)) (employees : list EmployeeInfo) :
  optimize self_points max_hours_per_day max_days_per_week start_date now =
  Success parameters summary final_routes employees ->
  Permutation (flat_map points final_routes) (all_visits self_points) /\
  summary_total_points summary = length (all_visits self_points) /\
  total_routes summary = length final_routes /\
  Forall (fun r => points r <> [] /\ route_metrics_ok r) final_routes.
Proof.
  intros H. destruct (optimize_inv _ _ _ _ _ _ _ _ _ H) as (_ & Hr & Hs & _).
  assert (Hperm : Permutation (flat_map points final_routes) (all_visits self_points)).
  { rewrite Hr.
    transitivity (flat_map points
                    (dated_routes self_points max_hours_per_day start_date now));
      [|apply dated_routes_points].
    rewrite stops_strip,
      (stops_strip (dated_routes self_points max_hours_per_day start_date now)).
    apply Permutation_flat_map, assign_final_perm. }
  split; [exact Hperm|]. split; [|split].
  - rewrite Hs. cbn [make_summary summary_total_points].
    rewrite <- length_flat_map. now apply Permutation_length.
  - rewrite Hs. reflexivity.
  - apply Forall_forall. intros r Hin. rewrite Hr in Hin.
    destruct (final_route_origin _ _ _ _ _ r Hin) as (r0 & Hr0 & E).
    destruct (dated_routes_dates _ _ _ _ r0 Hr0) as (d & _ & _ & _ & Hne & Hm).
    destruct (strip_employee_fields r r0 E) as (_ & _ & Hp & Hiff).
    split; [now rewrite Hp|now apply Hiff].
Qed.

Lemma optimize_conserves_visits_witness :
  exists summary final_routes employees,
    optimize scenario_A_points 2%R 5 (Some 738000) 738000 =
    Success (2%R, 5, 738000) summary final_routes employees /\
    summary_total_points summary = 3%nat.
Proof.
  destruct (optimize_success scenario_A_points 2%R 5 (Some 738000) 738000)
    as (s & r & e & H); [discriminate|].
  exists s, r, e. split; [exact H|].
  destruct (optimize_conserves_visits _ _ _ _ _ _ _ _ _ H) as (_ & Hn & _).
  exact Hn.
Defined.

(** X16: the calendar of a successful run. Every route it returns is dated
    on a weekday among the 90 days from the start and carries the English
    name of that weekday, never Saturday or Sunday; and the days that have
    routes are exactly the first working days of the horizon, one per
    visit until the working days run out. *)
Theorem optimize_calendar {F : Type} {FO : PyFloat F}
    (self_points : list (Point F)) (max_hours_per_day : F) (max_days_per_week : Z)
    (start_date : option Z) (now : Z) (parameters : F * Z * Z) (summary : Summary F)
    (final_routes : list (Route F)) (employees : list EmployeeInfo) :
  optimize self_points max_hours_per_day max_days_per_week start_date now =
  Success parameters summary final_routes employees ->
  Forall (fun r =>
            exists d, date r = Day d /\
                      horizon_start start_date now <= d < horizon_start start_date now + 90 /\
                      weekday d < 5 /\
                      day_of_week r = weekday_name d /\
                      In (day_of_week r)
                         ["Monday"; "Tuesday"; "Wednesday"; "Thursday"; "Friday"]%string)
         final_routes /\
  Permutation (route_days final_routes)
              (map Day (planned_days self_points start_date now)) /\
  length (route_days final_routes) =
  Nat.min (length (all_visits self_points)) (length (working_days start_date now)).
Proof.
  intros H. destruct (optimize_inv _ _ _ _ _ _ _ _ _ H) as (_ & Hr & _ & _).
  assert (Hdays : Permutation (route_days final_routes)
                    (map Day (planned_days self_points start_date now))).
  { rewrite Hr.
    transitivity (route_days (dated_routes self_points max_hours_per_day start_date now));
      [|apply dated_route_days].
    apply route_days_perm, assign_final_perm. }
  split; [|split; [exact Hdays|]].
  - apply Forall_forall. intros r Hin. rewrite Hr in Hin.
    destruct (final_route_origin _ _ _ _ _ r Hin) as (r0 & Hr0 & E).
    destruct (dated_routes_dates _ _ _ _ r0 Hr0) as (d & Hd & Hdate & Hname & _).
    destruct (strip_employee_fields r r0 E) as (Ed & Ew & _).
    apply planned_days_working in Hd. unfold working_days in Hd.
    apply quarter_days_in_iff in Hd. destruct Hd as [Hrange Hwd].
    exists d. split; [now rewrite Ed|]. split; [exact Hrange|].
    split; [exact Hwd|]. rewrite Ew, Hname. split; [reflexivity|].
    now apply weekday_name_working.
  - rewrite (Permutation_length Hdays), length_map. apply planned_days_length.
Qed.

Lemma optimize_calendar_witness :
  exists summary final_routes employees,
    optimize scenario_A_points 2%R 5 (Some 738000) 738000 =
    Success (2%R, 5, 738000) summary final_routes employees /\
    length (route_days final_routes) =
    Nat.min 3 (length (working_days (Some 738000) 738000)).
Proof.
  destruct (optimize_success scenario_A_points 2%R 5 (Some 738000) 738000)
    as (s & r & e & H); [discriminate|].
  exists s, r, e. split; [exact H|].
  destruct (optimize_calendar _ _ _ _ _ _ _ _ _ H) as (_ & _ & Hn).
  exact Hn.
Defined.

(** X17: the staff a successful run asks for. The summary counts the
    employees of the report; with a weekly cap of at least one day their
    number is the number of planned days (the smaller of the number of
    visits and the number of working days) divided by the cap, rounded up;
    with a cap of zero or less it is the number of planned days. *)
Theorem optimize_staffing {F : Type} {FO : PyFloat F}
    (self_points : list (Point F)) (max_hours_per_day : F) (max_days_per_week : Z)
    (start_date : option Z) (now : Z) (parameters : F * Z * Z) (summary : Summary F)
    (final_routes : list (Route F)) (employees : list EmployeeInfo) :
  optimize self_points max_hours_per_day max_days_per_week start_date now =
  Success parameters summary final_routes employees ->
  total_employees summary = length employees /\
  (1 <= max_days_per_week ->
   Z.of_nat (total_employees summary) =
   (Z.of_nat (Nat.min (length (all_visits self_points))
                      (length (working_days start_date now)))
    + max_days_per_week - 1) / max_days_per_week) /\
  (max_days_per_week <= 0 ->
   total_employees summary =
   Nat.min (length (all_visits self_points)) (length (working_days start_date now))).
Proof.
  intros H. destruct (optimize_inv _ _ _ _ _ _ _ _ _ H) as (_ & _ & Hs & He).
  assert (Hdays : length (route_days (dated_routes self_points max_hours_per_day
                                        start_date now)) =
                  Nat.min (length (all_visits self_points))
                          (length (working_days start_date now))).
  { rewrite (Permutation_length (dated_route_days _ _ _ _)), length_map.
    apply planned_days_length. }
  rewrite Hs. cbn [make_summary total_employees]. split; [|split].
  - now rewrite He, length_map, length_seq.
  - intros Hcap. rewrite assign_count_capped by exact Hcap. now rewrite Hdays.
  - intros Hcap. rewrite assign_count_uncapped by exact Hcap. exact Hdays.
Qed.

Lemma optimize_staffing_witness :
  exists summary final_routes employees,
    optimize scenario_A_points 2%R 5 (Some 738000) 738000 =
    Success (2%R, 5, 738000) summary final_routes employees /\
    total_employees summary = length employees.
Proof.
  destruct (optimize_success scenario_A_points 2%R 5 (Some 738000) 738000)
    as (s & r & e & H); [discriminate|].
  exists s, r, e. split; [exact H|].
  destruct (optimize_staffing _ _ _ _ _ _ _ _ _ H) as (Hn & _).
  exact Hn.
Defined.

(** ** The report on the employees *)

Lemma string_app_inv_head (p a b : string) :
  (p ++ a)%string = (p ++ b)%string -> a = b.
Proof.
  induction p as [|ch p IH]; simpl; [auto|]. intros [= H]. now apply IH.
Qed.

Lemma str_of_int_inj (n m : Z) : str_of_int n = str_of_int m -> n = m.
Proof.
  unfold str_of_int. intros H.
  assert (Hnn : forall z, Z.to_int z <> Decimal.Pos Decimal.Nil /\
                          Z.to_int z <> Decimal.Neg Decimal.Nil).
  { intros [|p|p]; simpl; split; try discriminate; intros [= E];
      now apply DecimalPos.Unsigned.to_uint_nonnil in E. }
  apply (f_equal NilZero.int_of_string) in H.
  rewrite !NilZero.isi in H by apply Hnn.
  injection H as H. apply (f_equal Z.of_int) in H.
  now rewrite !DecimalZ.of_to in H.
Qed.

(** Two employees with the same label are the same employee. *)
Lemma employee_label_inj (n m : Z) : employee_label n = employee_label m -> n = m.
Proof.
  unfold employee_label. intros H.
  apply string_app_inv_head in H. now apply str_of_int_inj.
Qed.

Lemma map_seq_nth {A B : Type} (f : A -> B) (l : list A) (d : A) :
  map (fun i => f (nth i l d)) (seq 0 (length l)) = map f l.
Proof.
  induction l as [|a l IH]; [reflexivity|].
  cbn [length seq map nth]. f_equal.
  rewrite <- seq_shift, map_map. exact IH.
Qed.

Lemma nodup_length_le {A : Type} (dec : forall x y : A, {x = y} + {x <> y})
    (l : list A) :
  (length (nodup dec l) <= length l)%nat.
Proof.
  apply NoDup_incl_length; [apply NoDup_nodup|].
  intros x Hx. now apply nodup_In in Hx.
Qed.

Section DayTotals.
Context {F : Type}.
Variable max_days_per_week : Z.
Variable routes_by_day : list (DateKey * list (Route F)).
Hypothesis routes_by_day_dates :
  forall d l, dict_get DateKey_eq_dec d routes_by_day = Some l ->
              forall r, In r l -> date r = d.

(** A day adds one to the days of exactly one employee. *)
Lemma assign_step_day_total (ds : list DateKey) (st : list (Employee F) * Z)
    (day : DateKey) :
  assign_inv routes_by_day ds st -> ~ In day ds -> batch routes_by_day day <> [] ->
  list_sum (map (fun e => length (emp_days e))
                (fst (assign_step max_days_per_week routes_by_day st day))) =
  S (list_sum (map (fun e => length (emp_days e)) (fst st))).
Proof.
  intros Hinv Hday Hne. destruct st as [es counter]. cbn [fst] in *.
  destruct Hinv as (_ & Hok & _).
  assert (Hfresh : forall e, In e es -> ~ In day (emp_days e)).
  { intros e He Hin. unfold emp_days in Hin. apply nodup_In in Hin.
    apply in_map_iff in Hin. destruct Hin as (r & <- & Hr).
    destruct (Hok e He) as (_ & _ & H & _). destruct (H r Hr) as [Hd _]. contradiction. }
  destruct (assign_step_cases max_days_per_week routes_by_day es counter day)
    as [(pre & emp & post & -> & _ & ->)|(_ & ->)]; cbn [fst].
  - rewrite !map_app, !list_sum_app. unfold list_sum. cbn [map fold_right].
    rewrite (emp_days_give_exact routes_by_day routes_by_day_dates emp _ day);
      [lia| |exact Hne].
    apply Hfresh. apply in_or_app. right. now left.
  - rewrite map_app, list_sum_app. unfold list_sum. cbn [map fold_right].
    rewrite (emp_days_give_exact routes_by_day routes_by_day_dates _ _ day);
      [cbn [emp_days routes map nodup length]; lia|intros []|exact Hne].
Qed.

Lemma assign_loop_day_total (days ds : list DateKey) (st : list (Employee F) * Z) :
  assign_inv routes_by_day ds st -> NoDup (ds ++ days) ->
  (forall d, In d days -> batch routes_by_day d <> []) ->
  list_sum (map (fun e => length (emp_days e))
                (fst (fold_left (assign_step max_days_per_week routes_by_day) days st))) =
  (list_sum (map (fun e => length (emp_days e)) (fst st)) + length days)%nat.
Proof.
  revert ds st. induction days as [|d days IH]; intros ds st Hinv Hnd Hne;
    cbn [fold_left length]; [lia|].
  assert (Hd : ~ In d ds).
  { intros Hin. apply NoDup_remove_2 in Hnd. apply Hnd.
    apply in_or_app. now left. }
  rewrite (IH (ds ++ [d])).
  - rewrite (assign_step_day_total ds st d Hinv Hd); [lia|]. apply Hne. now left.
  - now apply (assign_step_inv max_days_per_week routes_by_day routes_by_day_dates).
  - rewrite <- app_assoc. exact Hnd.
  - intros d' Hd'. apply Hne. now right.
Qed.
End DayTotals.

Section ReportFacts.
Context {F : Type}.

Lemma filter_owner_none (name own : string) (rs : list (Route F)) :
  own <> name -> Forall (fun r => employee_id r = own) rs ->
  filter (fun r => String.eqb (employee_id r) name) rs = [].
Proof.
  intros Hne H. induction H as [|r rs Hr _ IH]; [reflexivity|].
  cbn [filter]. rewrite Hr. apply String.eqb_neq in Hne. now rewrite Hne.
Qed.

Lemma filter_owner_all (name : string) (rs : list (Route F)) :
  Forall (fun r => employee_id r = name) rs ->
  filter (fun r => String.eqb (employee_id r) name) rs = rs.
Proof.
  intros H. induction H as [|r rs Hr _ IH]; [reflexivity|].
  cbn [filter]. rewrite Hr, String.eqb_refl. now f_equal.
Qed.

Lemma filter_owner_others (name : string) (es : list (Employee F)) :
  ~ In name (map emp_name es) ->
  Forall (fun e => Forall (fun r => employee_id r = emp_name e) (routes e)) es ->
  filter (fun r => String.eqb (employee_id r) name) (flat_map routes es) = [].
Proof.
  intros Hn H. induction H as [|e es He _ IH]; [reflexivity|].
  cbn [flat_map]. rewrite filter_app, IH.
  - rewrite (filter_owner_none name (emp_name e)); [reflexivity| |exact He].
    intros E. apply Hn. now left.
  - intros Hin. apply Hn. now right.
Qed.

(** The routes that bear the name of an employee are the routes of that
    employee. *)
Lemma filter_own_routes (es : list (Employee F)) (e : Employee F) :
  NoDup (map emp_name es) ->
  Forall (fun e => Forall (fun r => employee_id r = emp_name e) (routes e)) es ->
  In e es ->
  filter (fun r => String.eqb (employee_id r) (emp_name e)) (flat_map routes es) =
  routes e.
Proof.
  intros Hnd H. induction H as [|e0 es He0 Hes IH]; [intros []|].
  cbn [map] in Hnd. apply NoDup_cons_iff in Hnd. destruct Hnd as [Hn0 Hnd].
  cbn [flat_map]. rewrite filter_app. intros [->|Hin].
  - rewrite (filter_owner_all _ _ He0), (filter_owner_others _ _ Hn0 Hes).
    apply app_nil_r.
  - rewrite (filter_owner_none (emp_name e) (emp_name e0)), (IH Hnd Hin);
      [reflexivity| |exact He0].
    intros E. apply Hn0. rewrite E. now apply in_map.
Qed.

Variable all_routes : list (Route F).
Variable max_days_per_week : Z.

Lemma assign_names_NoDup :
  NoDup (map emp_name (assign_employees all_routes max_days_per_week)).
Proof.
  destruct (assign_employees_numbered all_routes max_days_per_week) as (Hids & _ & Hn).
  fold (assign_employees all_routes max_days_per_week) in Hids, Hn.
  rewrite (map_ext_in emp_name (fun e => employee_label (emp_id e))).
  - rewrite <- (map_map emp_id employee_label), Hids, map_map.
    apply Finite.Injective_map_NoDup; [|apply seq_NoDup].
    intros x y E. apply employee_label_inj in E. lia.
  - intros e He. rewrite Forall_forall in Hn. now destruct (Hn e He).
Qed.

Lemma assign_owned :
  Forall (fun e => Forall (fun r => employee_id r = emp_name e) (routes e))
         (assign_employees all_routes max_days_per_week).
Proof.
  destruct (assign_employees_numbered all_routes max_days_per_week) as (_ & _ & Hn).
  fold (assign_employees all_routes max_days_per_week) in Hn.
  eapply Forall_impl; [|exact Hn]. intros e [_ H]. exact H.
Qed.

(** The entry of the report for the [i]-th employee. *)
Lemma employee_info_nth (i : nat) (d : Employee F) :
  (i < length (assign_employees all_routes max_days_per_week))%nat ->
  employee_info (flat_map routes (assign_employees all_routes max_days_per_week)) i =
  mkEmployeeInfo (Z.of_nat (S i)) (employee_label (Z.of_nat (S i)))
    (length (routes (nth i (assign_employees all_routes max_days_per_week) d)))
    (length (emp_days (nth i (assign_employees all_routes max_days_per_week) d))).
Proof.
  intros Hi.
  destruct (numbered_nth _ i d (assign_employees_numbered all_routes max_days_per_week) Hi)
    as (_ & Hname & _).
  fold (assign_employees all_routes max_days_per_week) in Hname.
  unfold employee_info. cbv zeta.
  replace (Z.of_nat i + 1) with (Z.of_nat (S i)) by lia.
  rewrite <- Hname.
  rewrite (filter_own_routes _ _ assign_names_NoDup assign_owned (nth_In _ d Hi)).
  rewrite Hname. reflexivity.
Qed.

Lemma assign_day_total :
  list_sum (map (fun e => length (emp_days e))
                (assign_employees all_routes max_days_per_week)) =
  length (route_days all_routes).
Proof.
  unfold assign_employees, assign_days.
  rewrite (assign_loop_day_total max_days_per_week (group_by_day all_routes)
             (group_by_day_dates all_routes) (sorted_days all_routes) [] ([], 1)).
  - cbn [fst map list_sum]. now rewrite sorted_days_length.
  - split; [lia|]. split; [intros e []|]. split; [apply NoDup_nil|].
    split; [intros e e' r r' []|intros d0 r0 []].
  - apply sorted_days_NoDup.
  - apply sorted_days_batch_nonempty.
Qed.

Lemma assign_days_capped :
  1 <= max_days_per_week ->
  Forall (fun e => Z.of_nat (length (emp_days e)) <= max_days_per_week)
         (assign_employees all_routes max_days_per_week).
Proof.
  intros Hcap.
  destruct (assign_employees_filled all_routes max_days_per_week Hcap)
    as [[-> _]|(full & last & -> & Hfull & Hlast & _)]; [constructor|].
  apply Forall_app. split.
  - eapply Forall_impl; [|exact Hfull]. intros e He. cbn beta in He. lia.
  - constructor; [lia|constructor].
Qed.

(** What the report says of the employees, one entry after the other. *)
Lemma report_entries (P : EmployeeInfo -> Prop) :
  (forall i e, (i < length (assign_employees all_routes max_days_per_week))%nat ->
     In e (assign_employees all_routes max_days_per_week) ->
     P (mkEmployeeInfo (Z.of_nat (S i)) (employee_label (Z.of_nat (S i)))
                       (length (routes e)) (length (emp_days e)))) ->
  Forall P (map (employee_info (fst (assign_routes_to_employees all_routes
                                       max_days_per_week)))
                (seq 0 (snd (assign_routes_to_employees all_routes
                               max_days_per_week)))).
Proof.
  intros HP. rewrite assign_final, assign_count.
  apply Forall_map, Forall_forall. intros i Hi. apply in_seq in Hi.
  assert (Hlt : (i < length (assign_employees all_routes max_days_per_week))%nat) by lia.
  rewrite (employee_info_nth i (mkEmployee 0 ""%string []) Hlt).
  apply HP; [exact Hlt|now apply nth_In].
Qed.

Lemma report_totals (f : EmployeeInfo -> nat) (g : Employee F -> nat) :
  (forall i e, f (mkEmployeeInfo (Z.of_nat (S i)) (employee_label (Z.of_nat (S i)))
                                 (length (routes e)) (length (emp_days e))) = g e) ->
  list_sum (map f (map (employee_info (fst (assign_routes_to_employees all_routes
                                              max_days_per_week)))
                       (seq 0 (snd (assign_routes_to_employees all_routes
                                      max_days_per_week))))) =
  list_sum (map g (assign_employees all_routes max_days_per_week)).
Proof.
  intros Hfg. rewrite assign_final, assign_count, map_map.
  rewrite <- (map_seq_nth g _ (mkEmployee 0 ""%string [])).
  f_equal. apply map_ext_in. intros i Hi. apply in_seq in Hi.
  rewrite (employee_info_nth i (mkEmployee 0 ""%string [])) by lia.
  apply Hfg.
Qed.
End ReportFacts.

(** X18: the report on the employees of a successful run. The entries are
    numbered 1, 2, ... and named after their numbers; every employee has
    at least one route and at least one day, and no more days than routes;
    the route totals add up to the routes returned and the day totals to
    the days that have routes, so that no route and no day is counted for
    two employees; and with a weekly cap of at least one day no entry
    shows more days than the cap. *)
Theorem optimize_employee_report {F : Type} {FO : PyFloat F}
    (self_points : list (Point F)) (max_hours_per_day : F) (max_days_per_week : Z)
    (start_date : option Z) (now : Z) (parameters : F * Z * Z) (summary : Summary F)
    (final_routes : list (Route F)) (employees : list EmployeeInfo) :
  optimize self_points max_hours_per_day max_days_per_week start_date now =
  Success parameters summary final_routes employees ->
  map info_id employees = map Z.of_nat (seq 1 (length employees)) /\
  Forall (fun e => info_name e = employee_label (info_id e) /\
                   (1 <= info_total_days e <= info_total_routes e)%nat)
         employees /\
  list_sum (map info_total_routes employees) = length final_routes /\
  list_sum (map info_total_days employees) = length (route_days final_routes) /\
  (1 <= max_days_per_week ->
   Forall (fun e => Z.of_nat (info_total_days e) <= max_days_per_week) employees).
Proof.
  intros H. destruct (optimize_inv _ _ _ _ _ _ _ _ _ H) as (_ & Hr & _ & He).
  set (all := dated_routes self_points max_hours_per_day start_date now) in *.
  rewrite Hr in He.
  split; [|split; [|split; [|split]]].
  - rewrite He, length_map, length_seq, map_map. cbn [employee_info info_id].
    rewrite <- seq_shift, map_map. apply map_ext. intros i. lia.
  - rewrite He. apply report_entries. intros i e _ Hin. cbn [info_name info_id
      info_total_days info_total_routes]. split; [reflexivity|].
    pose proof (assign_employees_busy all max_days_per_week) as Hbusy.
    rewrite Forall_forall in Hbusy. specialize (Hbusy e Hin).
    split.
    + unfold emp_days. destruct (routes e) as [|r rs]; [now elim Hbusy|].
      assert (Hin' : In (date r) (nodup DateKey_eq_dec (map date (r :: rs))))
        by (apply nodup_In; now left).
      destruct (nodup DateKey_eq_dec (map date (r :: rs))); [contradiction|].
      cbn [length]. lia.
    + unfold emp_days. rewrite <- (length_map date (routes e)).
      apply nodup_length_le.
  - rewrite He, (report_totals all max_days_per_week info_total_routes
                   (fun e => length (routes e))) by reflexivity.
    rewrite Hr, assign_final, length_flat_map. reflexivity.
  - rewrite He, (report_totals all max_days_per_week info_total_days
                   (fun e => length (emp_days e))) by reflexivity.
    rewrite assign_day_total, Hr.
    apply Permutation_length, Permutation_sym, route_days_perm, assign_final_perm.
  - intros Hcap. rewrite He. apply report_entries. intros i e _ Hin.
    cbn [info_total_days].
    pose proof (assign_days_capped all max_days_per_week Hcap) as Hc.
    rewrite Forall_forall in Hc. now apply Hc.
Qed.

Lemma optimize_employee_report_witness :
  exists summary final_routes employees,
    optimize scenario_A_points 2%R 5 (Some 738000) 738000 =
    Success (2%R, 5, 738000) summary final_routes employees /\
    list_sum (map info_total_routes employees) = length final_routes.
Proof.
  destruct (optimize_success scenario_A_points 2%R 5 (Some 738000) 738000)
    as (s & r & e & H); [discriminate|].
  exists s, r, e. split; [exact H|].
  destruct (optimize_employee_report _ _ _ _ _ _ _ _ _ H) as (_ & _ & Hn & _).
  exact Hn.
Defined.

(** ** The identifiers of the routes *)

Lemma route_label_inj (e k k' : Z) : route_label e k = route_label e k' -> k = k'.
Proof.
  unfold route_label. intros H.
  apply (string_app_inv_head "R"), string_app_inv_head in H.
  apply (string_app_inv_head "_") in H. now apply str_of_int_inj.
Qed.

Lemma route_labels_NoDup (e : Z) (n : nat) :
  NoDup (map (fun k => route_label e (Z.of_nat k)) (seq 1 n)).
Proof.
  apply Finite.Injective_map_NoDup; [|apply seq_NoDup].
  intros x y E. apply route_label_inj in E. lia.
Qed.

Lemma perm_filter {A : Type} (f : A -> bool) (l l' : list A) :
  Permutation l l' -> Permutation (filter f l) (filter f l').
Proof.
  induction 1 as [|x l l' _ IH|x y l|l l' l'' _ IH1 _ IH2]; cbn [filter].
  - constructor.
  - destruct (f x); [now constructor|exact IH].
  - destruct (f x), (f y); try apply Permutation_refl. constructor.
  - now transitivity (filter f l').
Qed.

Section NumberingFacts.
Context {F : Type} {FO : PyFloat F}.

Lemma routes_loop_ids (employee_id : Z) (clusters : list (list (Point F)))
    (st : list (Route F) * Z) :
  Forall (fun c => c <> []) clusters ->
  map route_id (fst (fold_left (routes_step employee_id) clusters st)) =
  map route_id (fst st) ++
  map (fun k => route_label employee_id (snd st + Z.of_nat k)) (seq 0 (length clusters)).
Proof.
  intros H. revert st. induction H as [|c clusters Hc _ IH]; intros [rs k].
  - cbn [fold_left fst length seq map]. now rewrite app_nil_r.
  - destruct c as [|p c]; [now elim Hc|].
    cbn [fold_left routes_step]. rewrite IH. cbn [fst snd length seq map].
    rewrite map_app, <- app_assoc. f_equal. cbn [map app].
    rewrite Z.add_0_r. f_equal.
    rewrite <- seq_shift, map_map. apply map_ext. intros j. f_equal. lia.
Qed.

Lemma routes_of_day_count (day_points : list (Point F)) (max_hours : F)
    (employee_id : Z) :
  length (optimize_routes_for_day day_points max_hours employee_id) =
  length (cluster_points_by_time day_points max_hours).
Proof.
  rewrite <- (length_map points), optimize_routes_points. apply length_map.
Qed.

Lemma routes_of_day_ids (day_points : list (Point F)) (max_hours : F)
    (employee_id : Z) :
  map route_id (optimize_routes_for_day day_points max_hours employee_id) =
  map (fun k => route_label employee_id (Z.of_nat k))
      (seq 1 (length (optimize_routes_for_day day_points max_hours employee_id))).
Proof.
  rewrite routes_of_day_count.
  unfold optimize_routes_for_day. destruct day_points as [|p l]; [reflexivity|].
  cbv zeta. rewrite routes_loop_ids by apply cluster_points_nonempty.
  cbn [fst snd map app]. rewrite <- seq_shift, map_map.
  apply map_ext. intros j. f_equal. lia.
Qed.

Lemma routes_of_day_fresh (day_points : list (Point F)) (max_hours : F)
    (employee_no : Z) :
  Forall (fun r => employee_id r = employee_label employee_no /\
                   date r = NoDate /\ day_of_week r = ""%string)
         (optimize_routes_for_day day_points max_hours employee_no).
Proof.
  unfold optimize_routes_for_day. destruct day_points as [|p l]; [constructor|].
  cbv zeta. apply routes_loop_forall; [|constructor].
  intros k c. repeat split.
Qed.

(** The dated routes of day [d] are the routes of the entry of [d]. *)
Lemma day_loop_on (h : F) (d : Z) (m : list (Z * list (Point F))) :
  NoDup (dict_keys m) ->
  routes_on d (flat_map (day_step h []) m) =
  match dict_get Z.eq_dec d m with
  | Some l => day_step h [] (d, l)
  | None => []
  end.
Proof.
  assert (Hsame : forall l, routes_on d (day_step h [] (d, l)) = day_step h [] (d, l)).
  { intros l. rewrite day_item_routes. unfold routes_on.
    induction (optimize_routes_for_day l h 1) as [|r rs IH]; [reflexivity|].
    cbn [map filter set_date date].
    destruct (DateKey_eq_dec (Day d) (Day d)) as [_|Hne]; [|now elim Hne].
    now rewrite IH. }
  assert (Hother : forall d' l, d' <> d -> routes_on d (day_step h [] (d', l)) = []).
  { intros d' l Hd. rewrite day_item_routes. unfold routes_on.
    induction (optimize_routes_for_day l h 1) as [|r rs IH]; [reflexivity|].
    cbn [map filter set_date date].
    destruct (DateKey_eq_dec (Day d') (Day d)) as [[= E]|_]; [contradiction|exact IH]. }
  induction m as [|[d' l] m IH]; intros Hnd; [reflexivity|].
  cbn [dict_keys map fst] in Hnd. apply NoDup_cons_iff in Hnd.
  destruct Hnd as [Hd' Hnd].
  cbn [flat_map dict_get]. unfold routes_on in *. rewrite filter_app.
  fold (dict_keys m) in Hd'.
  destruct (Z.eq_dec d d') as [<-|Hne].
  - rewrite Hsame, (IH Hnd).
    replace (dict_get Z.eq_dec d m) with (@None (list (Point F)));
      [apply app_nil_r|].
    symmetry. now apply dict_get_none.
  - rewrite (Hother d' l) by congruence. now rewrite (IH Hnd).
Qed.

Lemma dated_routes_on (self_points : list (Point F)) (h : F)
    (start_date : option Z) (now : Z) (d : Z) :
  map route_id (routes_on d (dated_routes self_points h start_date now)) =
  map (fun k => route_label 1 (Z.of_nat k))
      (seq 1 (length (routes_on d (dated_routes self_points h start_date now)))).
Proof.
  rewrite dated_routes_flat, day_loop_on.
  - destruct (dict_get Z.eq_dec d _) as [l|]; [|reflexivity].
    rewrite day_item_routes, length_map, map_map.
    rewrite (map_ext _ route_id) by reflexivity.
    apply routes_of_day_ids.
  - destruct (distribute_inv self_points (Some (horizon_start start_date now)) now)
      as (H & _). exact H.
Qed.

Lemma routes_on_strip (d : Z) (l : list (Route F)) :
  routes_on d (map strip_employee l) = map strip_employee (routes_on d l).
Proof. unfold routes_on. apply filter_map_swap. Qed.

Lemma route_ids_strip (l : list (Route F)) :
  map route_id (map strip_employee l) = map route_id l.
Proof. rewrite map_map. reflexivity. Qed.

Lemma routes_on_perm (d : Z) (l l' : list (Route F)) :
  Permutation (map strip_employee l) (map strip_employee l') ->
  Permutation (map route_id (routes_on d l)) (map route_id (routes_on d l')).
Proof.
  intros H. rewrite <- (route_ids_strip (routes_on d l)),
    <- (route_ids_strip (routes_on d l')), <- !routes_on_strip.
  apply Permutation_map. unfold routes_on. now apply perm_filter.
Qed.
End NumberingFacts.

(** X19: the routes built for a day are numbered in the order of the
    clusters. There is one route per cluster; the identifiers are
    [R{e}_1], [R{e}_2], ... without gaps, [e] being the employee number
    passed in, so no two routes of the day share one; every route is
    owned by that employee and bears no date yet; and the stops of the
    [k]-th route are the [k]-th cluster in the order chosen by
    [solve_tsp]. *)
Theorem routes_of_day_numbered {F : Type} {FO : PyFloat F}
    (day_points : list (Point F)) (max_hours : F) (employee_no : Z) :
  length (optimize_routes_for_day day_points max_hours employee_no) =
  length (cluster_points_by_time day_points max_hours) /\
  map route_id (optimize_routes_for_day day_points max_hours employee_no) =
  map (fun k => route_label employee_no (Z.of_nat k))
      (seq 1 (length (optimize_routes_for_day day_points max_hours employee_no))) /\
  NoDup (map route_id (optimize_routes_for_day day_points max_hours employee_no)) /\
  map points (optimize_routes_for_day day_points max_hours employee_no) =
  map solve_tsp (cluster_points_by_time day_points max_hours) /\
  Forall (fun r => employee_id r = employee_label employee_no /\
                   date r = NoDate /\ day_of_week r = ""%string)
         (optimize_routes_for_day day_points max_hours employee_no).
Proof.
  split; [apply routes_of_day_count|]. split; [apply routes_of_day_ids|].
  split; [rewrite routes_of_day_ids; apply route_labels_NoDup|].
  split; [apply optimize_routes_points|apply routes_of_day_fresh].
Qed.

(** X20: the identifiers of the routes of a successful run. Whoever owns
    them, the routes of one day bear the identifiers [R1_1], [R1_2], ...,
    each once: an identifier tells the routes of a day apart, and neither
    the days nor the employees. *)
Theorem optimize_route_ids {F : Type} {FO : PyFloat F}
    (self_points : list (Point F)) (max_hours_per_day : F) (max_days_per_week : Z)
    (start_date : option Z) (now : Z) (parameters : F * Z * Z) (summary : Summary F)
    (final_routes : list (Route F)) (employees : list EmployeeInfo) (d : Z) :
  optimize self_points max_hours_per_day max_days_per_week start_date now =
  Success parameters summary final_routes employees ->
  Permutation (map route_id (routes_on d final_routes))
              (map (fun k => route_label 1 (Z.of_nat k))
                   (seq 1 (length (routes_on d final_routes)))) /\
  NoDup (map route_id (routes_on d final_routes)).
Proof.
  intros H. destruct (optimize_inv _ _ _ _ _ _ _ _ _ H) as (_ & Hr & _ & _).
  assert (Hp : Permutation
                 (map route_id (routes_on d final_routes))
                 (map route_id
                    (routes_on d (dated_routes self_points max_hours_per_day
                                    start_date now)))).
  { rewrite Hr. apply routes_on_perm, assign_final_perm. }
  assert (Hl : length (routes_on d final_routes) =
               length (routes_on d (dated_routes self_points max_hours_per_day
                                      start_date now))).
  { apply Permutation_length in Hp. now rewrite !length_map in Hp. }
  assert (Hids : Permutation (map route_id (routes_on d final_routes))
                   (map (fun k => route_label 1 (Z.of_nat k))
                        (seq 1 (length (routes_on d final_routes))))).
  { rewrite Hl, <- dated_routes_on. exact Hp. }
  split; [exact Hids|].
  apply (Permutation_NoDup (Permutation_sym Hids)), route_labels_NoDup.
Qed.

Lemma optimize_route_ids_witness :
  exists summary final_routes employees,
    optimize scenario_A_points 2%R 5 (Some 738000) 738000 =
    Success (2%R, 5, 738000) summary final_routes employees /\
    NoDup (map route_id (routes_on 738000 final_routes)).
Proof.
  destruct (optimize_success scenario_A_points 2%R 5 (Some 738000) 738000)
    as (s & r & e & H); [discriminate|].
  exists s, r, e. split; [exact H|].
  destruct (optimize_route_ids _ _ _ _ _ _ _ _ _ 738000 H) as (_ & Hn).
  exact Hn.
Defined.

(** ** The working day of a route *)

(** X21: the working day of the routes of a run that succeeds, for any
    arithmetic, so for the floats of the code. Every returned route is
    dated on a day of the mapping and holds the points of one cluster of
    that day, in the order chosen by [solve_tsp]: a cluster whose running
    total, the durations added as the clusterer adds them, is not above
    the threshold [max_hours_per_day * 60 * 0.8] by the comparison of the
    code, or a single point whose own duration is above it. *)
Theorem optimize_routes_within_day {F : Type} {FO : PyFloat F}
    (self_points : list (Point F)) (max_hours_per_day : F)
    (max_days_per_week : Z) (start_date : option Z) (now : Z)
    (parameters : F * Z * Z) (summary : Summary F)
    (final_routes : list (Route F)) (employees : list EmployeeInfo) :
  optimize self_points max_hours_per_day max_days_per_week start_date now =
  Success parameters summary final_routes employees ->
  Forall (fun r =>
            exists day day_points cluster,
              In (day, day_points)
                 (distribute_visits_by_quarter self_points
                    (Some (horizon_start start_date now)) now) /\
              date r = Day day /\
              In cluster (cluster_points_by_time day_points max_hours_per_day) /\
              points r = solve_tsp cluster /\
              ((exists t, accumulated cluster t /\
                          fgt t (threshold max_hours_per_day) = false) \/
               (exists p, cluster = [p] /\
                          fgt (duration p) (threshold max_hours_per_day) = true)))
         final_routes.
Proof.
  intros H. destruct (optimize_inv _ _ _ _ _ _ _ _ _ H) as (_ & Hr & _ & _).
  apply Forall_forall. intros r Hin. rewrite Hr in Hin.
  destruct (final_route_origin _ _ _ _ _ r Hin) as (r0 & Hr0 & E).
  assert (Ed : date r = date r0) by exact (f_equal date E).
  assert (Ep : points r = points r0) by exact (f_equal points E).
  rewrite Ed, Ep. clear r Hin E Ed Ep.
  rewrite dated_routes_flat in Hr0. apply in_flat_map in Hr0.
  destruct Hr0 as ([d l] & Hdl & Hr0). rewrite day_item_routes in Hr0.
  apply in_map_iff in Hr0. destruct Hr0 as (r1 & <- & Hr1).
  assert (Hp : In (points r1) (map solve_tsp (cluster_points_by_time l max_hours_per_day))).
  { rewrite <- (optimize_routes_points l max_hours_per_day 1). now apply in_map. }
  apply in_map_iff in Hp. destruct Hp as (cluster & Ec & Hc).
  exists d, l, cluster. split; [exact Hdl|]. split; [reflexivity|].
  split; [exact Hc|]. split; [symmetry; exact Ec|].
  pose proof (cluster_points_ok l max_hours_per_day) as Hok.
  rewrite Forall_forall in Hok. exact (Hok cluster Hc).
Qed.

Lemma optimize_routes_within_day_witness :
  exists summary final_routes employees,
    optimize scenario_A_points 2%R 5 (Some 738000) 738000 =
    Success (2%R, 5, 738000) summary final_routes employees /\
    Forall (fun r =>
              exists day day_points cluster,
                In (day, day_points)
                   (distribute_visits_by_quarter scenario_A_points
                      (Some (horizon_start (Some 738000) 738000)) 738000) /\
                date r = Day day /\
                In cluster (cluster_points_by_time day_points 2%R) /\
                points r = solve_tsp cluster /\
                ((exists t, accumulated cluster t /\ fgt t (threshold 2%R) = false) \/
                 (exists p, cluster = [p] /\ fgt (duration p) (threshold 2%R) = true)))
           final_routes.
Proof.
  destruct (optimize_success scenario_A_points 2%R 5 (Some 738000) 738000)
    as (s & r & e & H); [discriminate|].
  exists s, r, e. split; [exact H|].
  exact (optimize_routes_within_day _ _ _ _ _ _ _ _ _ H).
Defined.
